(** * zpy.material: a shallow embedding of [src/zpy/material.py]

    The module drives Blender's Python API ([bpy]).  Every function of the
    module reads and mutates host objects through references, and may raise.
    The embedding therefore threads one explicit [World] through every call
    and returns an [outcome]: a mutation made before an exception is raised
    stays in the world that comes back with the exception, as in Python.

    Layout:
    - Python values, exceptions, the host data model (materials, node
      trees, objects, scene) and the state-and-exception monad;
    - the host API that the module calls ([bpy.data.materials.get], ...);
    - the functions of [material.py];
    - the vocabulary of the properties (scenes, frames, the hierarchy);
    - the properties.

    What is taken from the host rather than from the module: a socket keeps
    its value in single precision, so that a Python float (binary64) is
    rounded when it is assigned and widened when it is read; a material's
    name is the host's to settle; an object takes a material only if its data
    carries materials; [assert] statements are executed (the interpreter does
    not run with [-O]); log records are dropped, but the attributes that a
    log message formats are read. *)

From Stdlib Require Import Floats.PrimFloat.
From Corelib Require Import PrimInt63.
From stdpp Require Import base option list strings pretty.

#[local] Set Warnings "-inexact-float".

Local Open Scope string_scope.
Local Open Scope list_scope.

(** ** Python values and exceptions *)

(** The arguments of the module are typed [Union[str, bpy.types.Material]] or
    [Union[str, bpy.types.Object]] and default to [None].  A material or an
    object is a reference into the host's collections. *)
Inductive pyval : Type :=
  | PyNone
  | PyStr (s : string)
  | PyMat (r : nat)
  | PyObj (r : nat).

Inductive exn : Type :=
  | ValueError (msg : string)
  | AssertionError (msg : string)
  | AttributeError (type_name attr : string)
  | KeyError (key : string)
  | IndexError
  | TypeError (msg : string)
  | RuntimeError (msg : string)
  | ReferenceError
  | RecursionError.

Inductive outcome (A : Type) : Type :=
  | Ret (a : A)
  | Raise (e : exn).
Arguments Ret {A} a.
Arguments Raise {A} e.

(** ** Host data model *)

(** [socket.default_value]: a Python float for a scalar socket, an array of
    floats for a colour socket. *)
Inductive SockVal : Type :=
  | VFloat (f : float)
  | VColor (c : list float).

(** The largest single-precision number, (2 - 2^-23) * 2^127. *)
Definition FLT_MAX : float := 0x1.fffffep127%float.

(** What a socket keeps of a Python float: the host stores the value in
    single precision (binary32, rounding to nearest, ties to even) and clamps
    it to the range of the property, which is [-FLT_MAX, FLT_MAX]; Python
    reads the stored number back as a binary64.  A NaN stays a NaN.

    The magnitude is [m * 2^e] with [m] in [0.5, 1); single precision keeps
    24 bits of it, and below [2^-126] counts in steps of [2^-149].  So the
    value is scaled by the step [2^q], with [q = max (e - 24) (-149)], rounded
    to an integer (adding and subtracting [2^52] does that in binary64), and
    scaled back.  Both scalings are exact.  The primitives count exponents
    from 2101. *)
Definition to_f32 (x : float) : float :=
  if PrimFloat.eqb x x then
    let ax := PrimFloat.abs x in
    if PrimFloat.leb FLT_MAX ax then
      (if PrimFloat.ltb x 0 then PrimFloat.opp FLT_MAX else FLT_MAX)
    else if PrimFloat.eqb ax 0 then x
    else
      let (_, se) := PrimFloat.frshiftexp ax in
      let sq := if PrimInt63.ltb (PrimInt63.sub se 24) 1952%uint63
                then 1952%uint63 else PrimInt63.sub se 24 in
      let y := PrimFloat.ldshiftexp ax (PrimInt63.sub 4202%uint63 sq) in
      let r := ((y + 0x1p52) - 0x1p52)%float in
      let z := PrimFloat.ldshiftexp r sq in
      if PrimFloat.ltb x 0 then PrimFloat.opp z else z
  else x.
Arguments to_f32 : simpl never.

(** What a colour socket keeps of a component: the range of a colour
    property starts at zero, so that a negative component becomes 0. *)
Definition to_f32_color (x : float) : float :=
  if PrimFloat.ltb (to_f32 x) 0 then 0%float else to_f32 x.
Arguments to_f32_color : simpl never.

(** The value as the socket keeps it.  (The one array socket that the module
    writes is a colour.) *)
Definition stored (v : SockVal) : SockVal :=
  match v with
  | VFloat f => VFloat (to_f32 f)
  | VColor c => VColor (map to_f32_color c)
  end.

Record Socket : Type := mkSocket {
  sock_name : string;
  default_value : SockVal
}.

(** A shader node.  [node_id] stands for the node's identity (its address in
    the host): names can be reassigned, links hold on to the node itself. *)
Record Node : Type := mkNode {
  node_id : nat;
  node_name : string;
  bl_idname : string;
  layer_name : string;
  inputs : list Socket;
  outputs : list Socket
}.

(** A link goes from the [from_socket]-th output of node [from_node] to the
    [to_socket]-th input of node [to_node]. *)
Record Link : Type := mkLink {
  from_node : nat;
  from_socket : nat;
  to_node : nat;
  to_socket : nat
}.

Record NodeTree : Type := mkNodeTree {
  nodes : list Node;
  links : list Link;
  next_node_id : nat
}.

Record Material : Type := mkMaterial {
  mat_name : string;
  use_nodes : bool;
  node_tree : option NodeTree
}.

(** [has_active_material] is what [hasattr(obj, 'active_material')] answers.
    [data_has_materials] says whether the object's data carries materials: a
    mesh or a curve does; an empty has no data, and the data of a camera or
    of a light has no materials.  [active_material] is the material that the
    object shows, [material_slots] are its slots and [active_material_index]
    is the slot in use; [children] are references into
    [bpy.data.objects]. *)
Record Object : Type := mkObject {
  obj_name : string;
  has_active_material : bool;
  data_has_materials : bool;
  active_material : option nat;
  material_slots : list (option nat);
  active_material_index : nat;
  children : list nat
}.

(** A parameter snapshot: the triple returned by [get_mat_props]. *)
Definition props : Type := SockVal * SockVal * SockVal.

(** The world: [bpy.data.materials], [bpy.data.objects],
    [bpy.context.scene.render.engine], the module-level dict
    [_SAVED_MATERIALS] (a Python dict keeps insertion order, which
    [restore_all_material_props] iterates in), and the random generator: the
    stream of standard normal samples that [random.gauss] will draw, with
    the position of the next one. *)
Record World : Type := mkWorld {
  materials : list Material;
  objects : list Object;
  engine : string;
  _SAVED_MATERIALS : list (string * props);
  rng_samples : nat -> float;
  rng_pos : nat
}.

(** ** The state-and-exception monad *)

Definition M (A : Type) : Type := World -> outcome A * World.

Definition ret {A : Type} (a : A) : M A := fun w => (Ret a, w).

Definition raise {A : Type} (e : exn) : M A := fun w => (Raise e, w).

Definition bind {A B : Type} (m : M A) (k : A -> M B) : M B :=
  fun w =>
    match m w with
    | (Ret a, w') => k a w'
    | (Raise e, w') => (Raise e, w')
    end.

Declare Scope py_scope.
Delimit Scope py_scope with py.
Notation "'let*' x ':=' c1 'in' c2" := (bind c1 (fun x => c2))
  (at level 10, x name, c1 at level 100, c2 at level 200) : py_scope.
Notation "c1 '>>' c2" := (bind c1 (fun _ => c2))
  (at level 100, c2 at level 200, right associativity) : py_scope.
Local Open Scope py_scope.

Definition get_world : M World := fun w => (Ret w, w).

(** [for x in l: body(x)] *)
Fixpoint for_each {A : Type} (l : list A) (body : A -> M unit) : M unit :=
  match l with
  | [] => ret tt
  | x :: l' => body x >> for_each l' body
  end.

(** ** Host API: [bpy.data.materials] *)

Definition set_materials (ms : list Material) (w : World) : World :=
  mkWorld ms (objects w) (engine w) (_SAVED_MATERIALS w) (rng_samples w)
    (rng_pos w).

Definition set_objects (os : list Object) (w : World) : World :=
  mkWorld (materials w) os (engine w) (_SAVED_MATERIALS w) (rng_samples w)
    (rng_pos w).

Definition set_saved (d : list (string * props)) (w : World) : World :=
  mkWorld (materials w) (objects w) (engine w) d (rng_samples w) (rng_pos w).

Definition set_rng_pos (n : nat) (w : World) : World :=
  mkWorld (materials w) (objects w) (engine w) (_SAVED_MATERIALS w)
    (rng_samples w) n.

(** Position of the first element named [name]. *)
Fixpoint index_of_name {A : Type} (nm : A -> string) (name : string)
    (l : list A) : option nat :=
  match l with
  | [] => None
  | x :: l' =>
      if String.eqb (nm x) name then Some 0
      else option_map S (index_of_name nm name l')
  end.

(** [bpy.data.materials.get(name)]: the material of that name, or [None]. *)
Definition materials_get (name : string) : M pyval :=
  fun w =>
    match index_of_name mat_name name (materials w) with
    | Some r => (Ret (PyMat r), w)
    | None => (Ret PyNone, w)
    end.

(** Blender keeps names unique inside a collection: a taken name gets the
    first free suffix [.001], [.002], ... *)
Definition suffix3 (n : nat) : string :=
  "." +:+ (if Nat.ltb n 10 then "00" else if Nat.ltb n 100 then "0" else "")
      +:+ pretty n.

Definition name_taken (used : list string) (s : string) : bool :=
  existsb (String.eqb s) used.

Fixpoint first_free (fuel n : nat) (used : list string) (base : string)
    : string :=
  match fuel with
  | 0 => base +:+ suffix3 n
  | S fuel' =>
      if name_taken used (base +:+ suffix3 n)
      then first_free fuel' (S n) used base
      else base +:+ suffix3 n
  end.

Definition unique_name (used : list string) (base : string) : string :=
  if name_taken used base then first_free (length used) 1 used base else base.

(** A string holds the bytes of the UTF-8 encoding of the Python string.
    The number of bytes of the character that starts with the byte [c]: *)
Definition utf8_size (c : Ascii.ascii) : nat :=
  let n := Ascii.nat_of_ascii c in
  if Nat.ltb n 192 then 1
  else if Nat.ltb n 224 then 2
  else if Nat.ltb n 240 then 3
  else 4.

(** The whole characters at the start of [s] that fit in [room] bytes;
    [more] bytes of the character being copied are still to come. *)
Fixpoint utf8_cut (room more : nat) (s : string) : string :=
  match s with
  | EmptyString => EmptyString
  | String c s' =>
      match more with
      | S more' => String c (utf8_cut room more' s')
      | 0 =>
          if Nat.leb (utf8_size c) room
          then String c (utf8_cut (room - utf8_size c) (utf8_size c - 1) s')
          else EmptyString
      end
  end.

(** The name the host stores for a material asked for as [name]: a name has
    63 bytes at most, and a material without a name is called 'Material'. *)
Definition id_name (name : string) : string :=
  if String.eqb name "" then "Material" else utf8_cut 63 0 name.

(** A taken name gets the first free suffix.  When the name is too long to
    take a suffix within the 63 bytes, the host cuts it to 59 bytes and
    starts again: the shorter name is used as it is if it is free. *)
Definition unique_id_name (used : list string) (base : string) : string :=
  if name_taken used base then
    if Nat.leb 60 (String.length base) then
      let base' := utf8_cut 59 0 base in
      if name_taken used base' then first_free (length used) 1 used base'
      else base'
    else first_free (length used) 1 used base
  else base.

(** The name of the material that [bpy.data.materials.new(name=name)]
    creates in [w]. *)
Definition new_material_name (w : World) (name : string) : string :=
  unique_id_name (map mat_name (materials w)) (id_name name).

(** [bpy.data.materials.new(name=name)]: a fresh material, not using nodes
    and without a node tree. *)
Definition materials_new (name : string) : M pyval :=
  fun w =>
    (Ret (PyMat (length (materials w))),
     set_materials
       (materials w ++ [mkMaterial (new_material_name w name) false None]) w).

(** The Python type name shown in an attribute error. *)
Definition type_name_of (v : pyval) : string :=
  match v with
  | PyNone => "NoneType"
  | PyStr _ => "str"
  | PyMat _ => "Material"
  | PyObj _ => "Object"
  end.

(** Dereference a value used as a material: reading attribute [attr] of a
    string, of [None] or of an object raises [AttributeError]; a reference
    to a removed material raises [ReferenceError]. *)
Definition as_material (v : pyval) (attr : string) : M (nat * Material) :=
  fun w =>
    match v with
    | PyMat r =>
        match materials w !! r with
        | Some m => (Ret (r, m), w)
        | None => (Raise ReferenceError, w)
        end
    | _ => (Raise (AttributeError (type_name_of v) attr), w)
    end.

Definition as_object (v : pyval) (attr : string) : M (nat * Object) :=
  fun w =>
    match v with
    | PyObj r =>
        match objects w !! r with
        | Some o => (Ret (r, o), w)
        | None => (Raise ReferenceError, w)
        end
    | _ => (Raise (AttributeError (type_name_of v) attr), w)
    end.

(** [v.name]: materials and objects both have a name. *)
Definition attr_name (v : pyval) : M string :=
  match v with
  | PyObj _ => let* ro := as_object v "name" in ret (obj_name (snd ro))
  | _ => let* rm := as_material v "name" in ret (mat_name (snd rm))
  end.

(** [str(v)], as an f-string formats it.  (For a material or an object the
    host prints the type, the name and an address; the address is left out.) *)
Definition py_str (w : World) (v : pyval) : string :=
  match v with
  | PyNone => "None"
  | PyStr s => s
  | PyMat r =>
      "<bpy_struct, Material(" +:+
      match materials w !! r with Some m => mat_name m | None => "" end +:+ ")>"
  | PyObj r =>
      "<bpy_struct, Object(" +:+
      match objects w !! r with Some o => obj_name o | None => "" end +:+ ")>"
  end.

Definition is_none (v : pyval) : bool :=
  match v with PyNone => true | _ => false end.

(** ** Host API: node trees *)

(** A reference to a node: the material that owns the tree, and the node's
    identity in it. *)
Record NodeRef : Type := mkNodeRef {
  nr_mat : nat;
  nr_id : nat
}.

(** A reference to a socket of a node: [inputs[i]] or [outputs[i]]. *)
Record SockRef : Type := mkSockRef {
  sr_node : NodeRef;
  sr_is_output : bool;
  sr_index : nat
}.

(** The sockets a node of each type is created with, and its default name.
    Only the node types that the module creates, or that the host creates
    when a material starts using nodes, are listed; sockets that the module
    never reads are left out of the Principled BSDF. *)
Definition grey : SockVal :=
  VColor [0x1.99999ap-1; 0x1.99999ap-1; 0x1.99999ap-1; 1]%float.
Definition black : SockVal := VColor [0; 0; 0; 1]%float.

(** The inputs of a Principled BSDF with the given roughness, metallic and
    specular values. *)
Definition principled_inputs (roughness metallic specular : float)
    : list Socket :=
  [mkSocket "Base Color" grey;
   mkSocket "Subsurface" (VFloat 0);
   mkSocket "Metallic" (VFloat metallic);
   mkSocket "Specular" (VFloat specular);
   mkSocket "Specular Tint" (VFloat 0);
   mkSocket "Roughness" (VFloat roughness)].

Definition output_inputs : list Socket :=
  [mkSocket "Surface" black;
   mkSocket "Volume" black;
   mkSocket "Displacement" (VColor [0; 0; 0]%float)].

Definition node_template (type : string)
    : option (string * list Socket * list Socket) :=
  if String.eqb type "ShaderNodeBsdfPrincipled" then
    Some ("Principled BSDF", principled_inputs 0.5 0 0.5,
          [mkSocket "BSDF" black])
  else if String.eqb type "ShaderNodeOutputMaterial" then
    Some ("Material Output", output_inputs, [])
  else if String.eqb type "ShaderNodeBsdfDiffuse" then
    Some ("Diffuse BSDF",
          [mkSocket "Color" grey;
           mkSocket "Roughness" (VFloat 0);
           mkSocket "Normal" (VColor [0; 0; 0]%float)],
          [mkSocket "BSDF" black])
  else if String.eqb type "ShaderNodeVertexColor" then
    Some ("Vertex Color",
          [],
          [mkSocket "Color" black; mkSocket "Alpha" (VFloat 0)])
  else if String.eqb type "ShaderNodeOutputAOV" then
    Some ("AOV Output",
          [mkSocket "Color" black; mkSocket "Value" (VFloat 0)],
          [])
  else None.

(** A Principled BSDF wired to the surface input of a Material Output. *)
Definition principled_tree (roughness metallic specular : float) : NodeTree :=
  mkNodeTree
    [mkNode 0 "Principled BSDF" "ShaderNodeBsdfPrincipled" ""
       (principled_inputs roughness metallic specular)
       [mkSocket "BSDF" black];
     mkNode 1 "Material Output" "ShaderNodeOutputMaterial" ""
       output_inputs []]
    [mkLink 0 0 1 0]
    2.

(** The tree a material gets when it starts using nodes. *)
Definition default_tree : NodeTree := principled_tree 0.5 0 0.5.

Definition set_material (r : nat) (m : Material) : M unit :=
  fun w => (Ret tt, set_materials (<[r := m]> (materials w)) w).

(** [mat.use_nodes] *)
Definition get_use_nodes (mat : pyval) : M bool :=
  let* rm := as_material mat "use_nodes" in
  ret (use_nodes (snd rm)).

(** [mat.use_nodes = True]: the host builds the default tree the first
    time. *)
Definition set_use_nodes_true (mat : pyval) : M unit :=
  let* rm := as_material mat "use_nodes" in
  let m := snd rm in
  set_material (fst rm)
    (mkMaterial (mat_name m) true
       (match node_tree m with
        | Some t => Some t
        | None => Some default_tree
        end)).

(** [mat.node_tree.nodes]: the material and its tree; [mat.node_tree] is
    [None] for a material that never used nodes. *)
Definition tree_of (mat : pyval) : M (nat * NodeTree) :=
  let* rm := as_material mat "node_tree" in
  match node_tree (snd rm) with
  | Some t => ret (fst rm, t)
  | None => raise (AttributeError "NoneType" "nodes")
  end.

Definition set_tree (r : nat) (t : NodeTree) : M unit :=
  fun w =>
    match materials w !! r with
    | Some m =>
        (Ret tt,
         set_materials
           (<[r := mkMaterial (mat_name m) (use_nodes m) (Some t)]>
              (materials w)) w)
    | None => (Raise ReferenceError, w)
    end.

(** [mat.node_tree.nodes.get(name)] *)
Definition nodes_get (mat : pyval) (name : string) : M (option NodeRef) :=
  let* rt := tree_of mat in
  match index_of_name node_name name (nodes (snd rt)) with
  | Some i =>
      match nodes (snd rt) !! i with
      | Some n => ret (Some (mkNodeRef (fst rt) (node_id n)))
      | None => ret None
      end
  | None => ret None
  end.

(** [mat.node_tree.nodes.new(type)] *)
Definition nodes_new (mat : pyval) (type : string) : M NodeRef :=
  let* rt := tree_of mat in
  let t := snd rt in
  match node_template type with
  | Some (name, ins, outs) =>
      let n := mkNode (next_node_id t)
                 (unique_name (map node_name (nodes t)) name) type "" ins outs in
      set_tree (fst rt)
        (mkNodeTree (nodes t ++ [n]) (links t) (S (next_node_id t))) >>
      ret (mkNodeRef (fst rt) (next_node_id t))
  | None => raise (RuntimeError ("Node type " +:+ type +:+ " undefined"))
  end.

(** What the host raises when [None] is passed where a node is required. *)
Definition remove_none_error : exn :=
  TypeError
    "Nodes.remove(): error with argument 1, node - expected a Node type, not NoneType".

(** [mat.node_tree.nodes.remove(node)]: the host refuses [None] with a
    [TypeError]; otherwise the node goes, and so do the links on it. *)
Definition nodes_remove (mat : pyval) (node : option NodeRef) : M unit :=
  let* rt := tree_of mat in
  let t := snd rt in
  match node with
  | None =>
      raise remove_none_error
  | Some nr =>
      if existsb (fun n => Nat.eqb (node_id n) (nr_id nr)) (nodes t) then
        set_tree (fst rt)
          (mkNodeTree
             (filter (fun n => node_id n <> nr_id nr) (nodes t))
             (filter (fun l => from_node l <> nr_id nr /\ to_node l <> nr_id nr)
                (links t))
             (next_node_id t))
      else raise (RuntimeError "Unable to locate node in node tree")
  end.

Definition find_node (t : NodeTree) (id : nat) : option Node :=
  find (fun n => Nat.eqb (node_id n) id) (nodes t).

(** Read a node through its reference. *)
Definition node_of (nr : NodeRef) : M Node :=
  let* rt := tree_of (PyMat (nr_mat nr)) in
  match find_node (snd rt) (nr_id nr) with
  | Some n => ret n
  | None => raise ReferenceError
  end.

(** Replace a node, found by identity, by its image under [f]. *)
Definition update_node (nr : NodeRef) (f : Node -> Node) : M unit :=
  let* rt := tree_of (PyMat (nr_mat nr)) in
  let t := snd rt in
  match find_node t (nr_id nr) with
  | Some _ =>
      set_tree (fst rt)
        (mkNodeTree
           (map (fun n => if Nat.eqb (node_id n) (nr_id nr) then f n else n)
              (nodes t))
           (links t) (next_node_id t))
  | None => raise ReferenceError
  end.

(** [node.name = s].  (The host would make [s] unique in the tree; the module
    only assigns a name that the node already has or that no node of the
    tree has.) *)
Definition set_node_name (nr : NodeRef) (s : string) : M unit :=
  update_node nr (fun n =>
    mkNode (node_id n) s (bl_idname n) (layer_name n) (inputs n) (outputs n)).

(** [node.layer_name = s] *)
Definition set_layer_name (nr : NodeRef) (s : string) : M unit :=
  update_node nr (fun n =>
    mkNode (node_id n) (node_name n) (bl_idname n) s (inputs n) (outputs n)).

Definition sockets_of (is_output : bool) (n : Node) : list Socket :=
  if is_output then outputs n else inputs n.

(** The double quote, as a string. *)
Definition dquote : string :=
  String (Ascii.Ascii false true false false false true false false)
    EmptyString.

(** What the host raises when a collection is indexed by a name that none of
    its elements has: the [KeyError] carries a sentence around the key. *)
Definition key_not_found (key : string) : exn :=
  KeyError ("bpy_prop_collection[key]: key " +:+ dquote +:+ key +:+ dquote
            +:+ " not found").

(** [node.inputs[key]] and [node.outputs[key]]: [KeyError] when no socket has
    that name. *)
Definition socket_by_key (nr : NodeRef) (is_output : bool) (key : string)
    : M SockRef :=
  let* n := node_of nr in
  match index_of_name sock_name key (sockets_of is_output n) with
  | Some i => ret (mkSockRef nr is_output i)
  | None => raise (key_not_found key)
  end.

(** [node.inputs[i]] and [node.outputs[i]] *)
Definition socket_by_index (nr : NodeRef) (is_output : bool) (i : nat)
    : M SockRef :=
  let* n := node_of nr in
  match sockets_of is_output n !! i with
  | Some _ => ret (mkSockRef nr is_output i)
  | None => raise IndexError
  end.

(** [socket.default_value] *)
Definition get_default_value (sr : SockRef) : M SockVal :=
  let* n := node_of (sr_node sr) in
  match sockets_of (sr_is_output sr) n !! sr_index sr with
  | Some s => ret (default_value s)
  | None => raise ReferenceError
  end.

Definition set_socket_value (i : nat) (v : SockVal) (l : list Socket)
    : list Socket :=
  match l !! i with
  | Some s => <[i := mkSocket (sock_name s) v]> l
  | None => l
  end.

Definition write_default_value (sr : SockRef) (v : SockVal) : M unit :=
  update_node (sr_node sr) (fun n =>
    if sr_is_output sr
    then mkNode (node_id n) (node_name n) (bl_idname n) (layer_name n)
           (inputs n) (set_socket_value (sr_index sr) v (outputs n))
    else mkNode (node_id n) (node_name n) (bl_idname n) (layer_name n)
           (set_socket_value (sr_index sr) v (inputs n)) (outputs n)).

(** [socket.default_value = v]: a scalar socket takes a float, an array
    socket takes a sequence of its own length; the socket keeps the value in
    single precision. *)
Definition set_default_value (sr : SockRef) (v : SockVal) : M unit :=
  let* old := get_default_value sr in
  match old, v with
  | VFloat _, VFloat _ => write_default_value sr (stored v)
  | VColor c, VColor c' =>
      if Nat.eqb (length c) (length c') then write_default_value sr (stored v)
      else raise (ValueError "the sequence has not the length of the socket")
  | VFloat _, VColor _ => raise (TypeError "expected a float type")
  | VColor _, VFloat _ => raise (TypeError "expected a sequence")
  end.

(** [mat.node_tree.links.new(a, b)]: the host accepts the two sockets in
    either order, refuses two sockets of the same direction, and an input
    keeps one incoming link only. *)
Definition links_new (mat : pyval) (a b : SockRef) : M unit :=
  let* rt := tree_of mat in
  let t := snd rt in
  if Bool.eqb (sr_is_output a) (sr_is_output b) then
    raise (RuntimeError "Same input/output direction of sockets")
  else
    let o := if sr_is_output a then a else b in
    let i := if sr_is_output a then b else a in
    let l := mkLink (nr_id (sr_node o)) (sr_index o)
               (nr_id (sr_node i)) (sr_index i) in
    set_tree (fst rt)
      (mkNodeTree (nodes t)
         (filter (fun l' => ~ (to_node l' = to_node l
                               /\ to_socket l' = to_socket l)) (links t)
            ++ [l])
         (next_node_id t)).

(** ** Host API: the random generator *)

(** [random.gauss(mu, sigma)] with [mu = 0]: the next standard normal sample
    [z] is drawn and [mu + z * sigma] is returned. *)
Definition gauss0 (sigma : float) : M float :=
  fun w =>
    (Ret (0 + rng_samples w (rng_pos w) * sigma)%float,
     set_rng_pos (S (rng_pos w)) w).

(** [a + b] on the values a socket can hold: two floats add; an array does
    not support [+]. *)
Definition py_add (a b : SockVal) : M SockVal :=
  match a, b with
  | VFloat x, VFloat y => ret (VFloat (x + y)%float)
  | _, _ => raise (TypeError "unsupported operand type(s) for +")
  end.

(** ** [zpy.material] *)

(** [verify(mat, check_none=True)].  The name is looked up and the result is
    bound to [mat] again, so the message of the [ValueError] is formatted
    from the rebound variable. *)
Definition verify (mat : pyval) (check_none : bool) : M pyval :=
  let* mat :=
    match mat with
    | PyStr s => materials_get s
    | _ => ret mat
    end in
  if check_none && is_none mat then
    let* w := get_world in
    raise (ValueError ("Could not find material " +:+ py_str w mat +:+ "."))
  else ret mat.

(** [_SAVED_MATERIALS.get(key, None)] *)
Fixpoint dict_get {V : Type} (key : string) (d : list (string * V))
    : option V :=
  match d with
  | [] => None
  | (k, v) :: d' => if String.eqb k key then Some v else dict_get key d'
  end.

(** [d[key] = v]: an existing key keeps its place, a new one goes last. *)
Fixpoint dict_set {V : Type} (key : string) (v : V) (d : list (string * V))
    : list (string * V) :=
  match d with
  | [] => [(key, v)]
  | (k, v') :: d' =>
      if String.eqb k key then (k, v) :: d' else (k, v') :: dict_set key v d'
  end.

Definition get_saved : M (list (string * props)) :=
  fun w => (Ret (_SAVED_MATERIALS w), w).

Definition put_saved (d : list (string * props)) : M unit :=
  fun w => (Ret tt, set_saved d w).

(** [log.info], [log.warning], [log.debug]: the message is built (which
    evaluates the attributes it formats) and the record is not kept. *)
Definition log (msg : string) : M unit := ret tt.

Definition zero_props : props := (VFloat 0, VFloat 0, VFloat 0).

(** [get_mat_props(mat)] *)
Definition get_mat_props (mat : pyval) : M props :=
  let* mat := verify mat true in
  let* bsdf_node := nodes_get mat "Principled BSDF" in
  match bsdf_node with
  | None =>
      let* name := attr_name mat in
      log ("No BSDF node in " +:+ name) >>
      ret zero_props
  | Some bsdf_node =>
      let* s0 := socket_by_key bsdf_node false "Roughness" in
      let* v0 := get_default_value s0 in
      let* s1 := socket_by_key bsdf_node false "Metallic" in
      let* v1 := get_default_value s1 in
      let* s2 := socket_by_key bsdf_node false "Specular" in
      let* v2 := get_default_value s2 in
      ret (v0, v1, v2)
  end.

(** [node.inputs[key].default_value += p]: the socket is looked up, its
    value read, the sum computed and assigned. *)
Definition iadd_default_value (node : NodeRef) (key : string) (p : SockVal)
    : M unit :=
  let* s := socket_by_key node false key in
  let* v := get_default_value s in
  let* v' := py_add v p in
  set_default_value s v'.

(** [set_mat_props(mat, prop_tuple)] *)
Definition set_mat_props (mat : pyval) (prop_tuple : props) : M unit :=
  let* mat := verify mat true in
  let* bsdf_node := nodes_get mat "Principled BSDF" in
  match bsdf_node with
  | None =>
      let* name := attr_name mat in
      log ("No BSDF node in " +:+ name)
  | Some bsdf_node =>
      iadd_default_value bsdf_node "Roughness" (fst (fst prop_tuple)) >>
      iadd_default_value bsdf_node "Metallic" (snd (fst prop_tuple)) >>
      iadd_default_value bsdf_node "Specular" (snd prop_tuple)
  end.

(** [save_material_props(mat)].  No [verify] here: [mat.name] is read off
    the argument as it comes. *)
Definition save_material_props (mat : pyval) : M unit :=
  let* name := attr_name mat in
  log ("Saving material properties for " +:+ name) >>
  let* p := get_mat_props mat in
  let* name := attr_name mat in
  let* d := get_saved in
  put_saved (dict_set name p d).

(** [restore_material_props(mat)] *)
Definition restore_material_props (mat : pyval) : M unit :=
  let* name := attr_name mat in
  log ("Restoring material properties for " +:+ name) >>
  let* name := attr_name mat in
  let* d := get_saved in
  match dict_get name d with
  | Some p => set_mat_props mat p
  | None => raise (KeyError name)
  end.

(** [restore_all_material_props()] *)
Definition restore_all_material_props : M unit :=
  let* d := get_saved in
  for_each d (fun kv => set_mat_props (PyStr (fst kv)) (snd kv)).

(** [p + random.gauss(0, std)] *)
Definition jitter_one (std : float) (p : SockVal) : M SockVal :=
  let* g := gauss0 std in
  py_add p (VFloat g).

(** [jitter(mat, std=0.2, save_first_time=True)] *)
Definition jitter (mat : pyval) (std : float) (save_first_time : bool)
    : M unit :=
  let* mat := verify mat true in
  (if save_first_time then
     let* name := attr_name mat in
     let* d := get_saved in
     match dict_get name d with
     | None => save_material_props mat
     | Some _ => restore_material_props mat
     end
   else ret tt) >>
  let* name := attr_name mat in
  log ("Jittering material " +:+ name) >>
  let* mat_props := get_mat_props mat in
  let* j0 := jitter_one std (fst (fst mat_props)) in
  let* j1 := jitter_one std (snd (fst mat_props)) in
  let* j2 := jitter_one std (snd mat_props) in
  set_mat_props mat (j0, j1, j2).

Section MakeMat.

(** [str(color)], the default name of a colour material: printing a tuple of
    floats is left to the host. *)
Variable str_tuple : list float -> string.

(** [make_mat_from_color(color, name=None)] *)
Definition make_mat_from_color (color : list float) (name : option string)
    : M pyval :=
  let name := match name with Some s => s | None => str_tuple color end in
  let* mat := materials_get name in
  let* mat :=
    (if is_none mat then
       log ("Material " +:+ name +:+ " does not exist, creating it.") >>
       materials_new name
     else ret mat) in
  set_use_nodes_true mat >>
  let* bsdf_node := nodes_get mat "Principled BSDF" in
  let* out_node := nodes_get mat "Material Output" in
  nodes_remove mat bsdf_node >>
  let* bsdf_node := nodes_new mat "ShaderNodeBsdfDiffuse" in
  let* c := socket_by_key bsdf_node false "Color" in
  set_default_value c (VColor (color ++ [1%float])) >>
  match out_node with
  | None => raise (AttributeError "NoneType" "inputs")
  | Some out_node =>
      let* i := socket_by_index out_node false 0 in
      let* o := socket_by_index bsdf_node true 0 in
      links_new mat i o >>
      ret mat
  end.

End MakeMat.

(** ** Host API: [bpy.data.objects] and the scene *)

(** [bpy.data.objects.get(name)] *)
Definition objects_get (name : string) : M pyval :=
  fun w =>
    match index_of_name obj_name name (objects w) with
    | Some r => (Ret (PyObj r), w)
    | None => (Ret PyNone, w)
    end.

(** Modelled from the spec: [zpy.objects.verify] is not part of
    [material.py].  The spec has [set_mat] resolve its object argument
    "accepting either a name string or a direct reference" and has a lookup
    failure raise "a value error with the offending identifier". *)
Definition objects_verify (obj : pyval) : M pyval :=
  match obj with
  | PyStr s =>
      let* o := objects_get s in
      if is_none o
      then raise (ValueError ("Could not find object " +:+ s +:+ "."))
      else ret o
  | PyNone => raise (ValueError "Could not find object None.")
  | _ => ret obj
  end.

(** [hasattr(obj, 'active_material')] *)
Definition hasattr_active_material (obj : pyval) : M bool :=
  fun w =>
    match obj with
    | PyObj r =>
        match objects w !! r with
        | Some o => (Ret (has_active_material o), w)
        | None => (Raise ReferenceError, w)
        end
    | _ => (Ret false, w)
    end.

(** The slots after slot [i] has been given [m]: the host adds slots up to
    the [i]-th when there are fewer. *)
Definition assign_slot (i : nat) (m : option nat) (slots : list (option nat))
    : list (option nat) :=
  if Nat.ltb i (length slots) then <[i := m]> slots
  else slots ++ replicate (i - length slots) None ++ [m].

(** The object after [obj.active_material = m].  The material goes into the
    slot in use, which is added when the object has no slot yet.  The host
    drops the assignment, without an error, when the data of the object does
    not carry materials. *)
Definition assign_active_material (m : option nat) (o : Object) : Object :=
  if data_has_materials o then
    mkObject (obj_name o) (has_active_material o) (data_has_materials o) m
      (assign_slot (active_material_index o) m (material_slots o))
      (active_material_index o) (children o)
  else o.

(** [obj.active_material = mat] *)
Definition set_active_material (obj : pyval) (mat : pyval) : M unit :=
  let* ro := as_object obj "active_material" in
  let o := snd ro in
  match mat with
  | PyMat m =>
      fun w =>
        (Ret tt,
         set_objects
           (<[fst ro := assign_active_material (Some m) o]> (objects w)) w)
  | PyNone =>
      fun w =>
        (Ret tt,
         set_objects
           (<[fst ro := assign_active_material None o]> (objects w)) w)
  | _ => raise (TypeError "expected a Material type")
  end.

(** [obj.children] *)
Definition get_children (obj : pyval) : M (list pyval) :=
  let* ro := as_object obj "children" in
  ret (map PyObj (children (snd ro))).

Definition get_engine : M string := fun w => (Ret (engine w), w).

(** ** [zpy.material], continued *)

(** [set_mat(obj, mat, recursive=True)].  [depth] is the number of Python
    frames left before the interpreter's recursion limit. *)
Fixpoint set_mat (depth : nat) (obj mat : pyval) (recursive : bool)
    : M unit :=
  match depth with
  | 0 => raise RecursionError
  | S depth' =>
      let* obj := objects_verify obj in
      let* mat := verify mat true in
      let* has := hasattr_active_material obj in
      if has then
        let* oname := attr_name obj in
        let* mname := attr_name mat in
        log ("Setting object " +:+ oname +:+ " material " +:+ mname) >>
        set_active_material obj mat >>
        if recursive then
          let* cs := get_children obj in
          for_each cs (fun child => set_mat depth' child mat true)
        else ret tt
      else
        log "Object does not have material property"
  end.

Definition valid_styles : list string := ["instance"; "category"].

(** [style in valid_styles] *)
Definition style_in (style : string) (l : list string) : bool :=
  existsb (String.eqb style) l.

(** [str(valid_styles)] *)
Definition valid_styles_str : string := "['instance', 'category']".

(** The last node of the tree whose name is [name]:
    [for _node in _tree.nodes: if _node.name == _name: aovoutput_node = _node] *)
Definition last_node_named (mat : pyval) (name : string)
    : M (option NodeRef) :=
  let* rt := tree_of mat in
  ret (fold_left
         (fun acc n =>
            if String.eqb (node_name n) name
            then Some (mkNodeRef (fst rt) (node_id n)) else acc)
         (nodes (snd rt)) None).

(** The body of the loop over [all_mats]. *)
Definition aov_wire (style : string) (mat : pyval) : M unit :=
  let* un := get_use_nodes mat in
  (if un then ret tt else set_use_nodes_true mat) >>
  let _name := style +:+ " Vertex Color" in
  let* vertexcolor_node := nodes_get mat _name in
  let* vertexcolor_node :=
    match vertexcolor_node with
    | None => nodes_new mat "ShaderNodeVertexColor"
    | Some n => ret n
    end in
  set_layer_name vertexcolor_node style >>
  set_node_name vertexcolor_node _name >>
  let _name := style in
  let* aovoutput_node := last_node_named mat _name in
  let* aovoutput_node :=
    match aovoutput_node with
    | None => nodes_new mat "ShaderNodeOutputAOV"
    | Some n => ret n
    end in
  set_node_name aovoutput_node style >>
  let* o := socket_by_key vertexcolor_node true "Color" in
  let* i := socket_by_key aovoutput_node false "Color" in
  links_new mat o i.

Definition slot_material (slot : option nat) : pyval :=
  match slot with Some m => PyMat m | None => PyNone end.

(** [make_aov_material_output_node(mat=None, obj=None, style='instance')].
    The statement after the warning compares the engine with ["CYCLES"] and
    drops the result: it assigns nothing. *)
Definition make_aov_material_output_node (mat obj : pyval) (style : string)
    : M unit :=
  let* e := get_engine in
  (if negb (String.eqb e "CYCLES") then
     log " Setting render engine to CYCLES to use AOV" >>
     let* e' := get_engine in
     let _ := String.eqb e' "CYCLES" in
     ret tt
   else ret tt) >>
  if negb (style_in style valid_styles) then
    raise (AssertionError
             ("Invalid style " +:+ style +:+
              " for AOV material output node, must be in " +:+
              valid_styles_str +:+ "."))
  else
    let* all_mats :=
      (if negb (is_none mat) then ret (Some [mat])
       else if negb (is_none obj) then
         let* ro := as_object obj "active_material" in
         match active_material (snd ro) with
         | None =>
             log ("No active material found for " +:+ obj_name (snd ro)) >>
             ret None
         | Some am =>
             if Nat.ltb 1 (length (material_slots (snd ro)))
             then ret (Some (map slot_material (material_slots (snd ro))))
             else ret (Some [PyMat am])
         end
       else raise (ValueError "Must pass in an Object or Material")) in
    match all_mats with
    | None => ret tt
    | Some all_mats => for_each all_mats (aov_wire style)
    end.

(** * Vocabulary of the properties *)

(** ** Messages *)

(** [needle in hay], on strings. *)
Fixpoint contains (needle hay : string) : bool :=
  String.prefix needle hay
  || match hay with
     | EmptyString => false
     | String _ hay' => contains needle hay'
     end.

(** Every byte of [s] is an ASCII character. *)
Fixpoint is_ascii (s : string) : bool :=
  match s with
  | EmptyString => true
  | String c s' => Nat.ltb (Ascii.nat_of_ascii c) 128 && is_ascii s'
  end.

(** ** Scenes *)

(** An empty scene. *)
Definition empty_world : World :=
  mkWorld [] [] "BLENDER_EEVEE" [] (fun _ => 0%float) 0.

(** A material that uses nodes but has lost its Principled BSDF. *)
Definition bare_world : World :=
  mkWorld
    [mkMaterial "bare" true
       (Some (mkNodeTree
                [mkNode 1 "Material Output" "ShaderNodeOutputMaterial" ""
                   [mkSocket "Surface" black] []]
                [] 2))]
    [] "CYCLES" [] (fun _ => 1%float) 0.

(** A scene with one material ["m"] that uses nodes, whose Principled BSDF
    has the given roughness, metallic and specular values, and with the
    given registry. *)
Definition principled_world (roughness metallic specular : float)
    (registry : list (string * props)) : World :=
  mkWorld
    [mkMaterial "m" true (Some (principled_tree roughness metallic specular))]
    [] "CYCLES" registry (fun _ => 1.5%float) 0.

(** The material ["m"] after a jitter: it reads (1, 0.5, 1) and its
    snapshot is (0.5, 0.25, 0.5). *)
Definition snapshot_world : World :=
  principled_world 1 0.5 1 [("m", (VFloat 0.5, VFloat 0.25, VFloat 0.5))].

(** A material whose Principled BSDF has no input named 'Specular'. *)
Definition no_specular_world : World :=
  mkWorld
    [mkMaterial "m" true
       (Some (mkNodeTree
                [mkNode 0 "Principled BSDF" "ShaderNodeBsdfPrincipled" ""
                   [mkSocket "Base Color" grey;
                    mkSocket "Metallic" (VFloat 0);
                    mkSocket "Roughness" (VFloat 0.5);
                    mkSocket "Specular IOR Level" (VFloat 0.5)]
                   [mkSocket "BSDF" black]]
                [] 1))]
    [] "CYCLES" [] (fun _ => 0%float) 0.

(** The node tree that [make_mat_from_color] leaves in a new material: the
    Material Output, fed by a Diffuse BSDF of the given colour, as the
    socket keeps it (in single precision, no component below zero). *)
Definition color_tree (r g b : float) : NodeTree :=
  mkNodeTree
    [mkNode 1 "Material Output" "ShaderNodeOutputMaterial" "" output_inputs [];
     mkNode 2 "Diffuse BSDF" "ShaderNodeBsdfDiffuse" ""
       [mkSocket "Color"
          (VColor [to_f32_color r; to_f32_color g; to_f32_color b; 1%float]);
        mkSocket "Roughness" (VFloat 0);
        mkSocket "Normal" (VColor [0; 0; 0]%float)]
       [mkSocket "BSDF" black]]
    [mkLink 2 0 1 0]
    3.

(** The default tree after [make_aov_material_output_node] has wired it for
    [style]: a Vertex Color node that reads the layer [style], linked to an
    AOV Output node named [style]. *)
Definition aov_tree (a b c : float) (style : string) : NodeTree :=
  mkNodeTree
    (nodes (principled_tree a b c)
     ++ [mkNode 2 (style +:+ " Vertex Color") "ShaderNodeVertexColor" style
           []
           [mkSocket "Color" black; mkSocket "Alpha" (VFloat 0)];
         mkNode 3 style "ShaderNodeOutputAOV" ""
           [mkSocket "Color" black; mkSocket "Value" (VFloat 0)]
           []])
    [mkLink 0 0 1 0; mkLink 2 0 3 0]
    4.

(** A parent with two children, all with a slot and no material yet, and one
    material. *)
Definition family_world : World :=
  mkWorld
    [mkMaterial "M" false None]
    [mkObject "parent" true true None [] 0 [1; 2];
     mkObject "child1" true true None [] 0 [];
     mkObject "child2" true true None [] 0 []]
    "CYCLES" [] (fun _ => 0%float) 0.

(** A parent without a slot, whose child has one. *)
Definition slotless_parent_world : World :=
  mkWorld
    [mkMaterial "M" false None]
    [mkObject "rig" false false None [] 0 [1];
     mkObject "mesh" true true None [] 0 []]
    "CYCLES" [] (fun _ => 0%float) 0.

(** An empty with two meshes as children: the empty has the attribute
    [active_material], as every object has, and no data. *)
Definition rig_world : World :=
  mkWorld
    [mkMaterial "M" false None]
    [mkObject "rig" true false None [] 0 [1; 2];
     mkObject "body" true true None [] 0 [];
     mkObject "head" true true None [] 0 []]
    "CYCLES" [] (fun _ => 0%float) 0.

(** An object whose one slot holds the material it shows. *)
Definition single_slot_world : World :=
  mkWorld
    [mkMaterial "m" true (Some (principled_tree 0.5 0 0.5))]
    [mkObject "cube" true true (Some 0) [Some 0] 0 []]
    "CYCLES" [] (fun _ => 0%float) 0.

(** ** What a call may change *)

(** Only [bpy.data.materials] differs. *)
Definition materials_only : relation World :=
  fun w w' => exists ms, w' = set_materials ms w.

(** Only the position in the stream of random samples differs. *)
Definition rng_only : relation World :=
  fun w w' => exists n, w' = set_rng_pos n w.

(** Only [bpy.data.objects] differs. *)
Definition objects_only : relation World :=
  fun w w' => exists os, w' = set_objects os w.

(** Only the registry differs. *)
Definition registry_only : relation World :=
  fun w w' => exists d, w' = set_saved d w.

(** The objects and the render engine are as before. *)
Definition scene_kept : relation World :=
  fun w w' => objects w' = objects w /\ engine w' = engine w.

(** The registry is exactly as before. *)
Definition same_saved : relation World :=
  fun w w' => _SAVED_MATERIALS w' = _SAVED_MATERIALS w.

(** The registry after is the registry before, possibly with one more
    name: every entry is still there with the value it had, and no name
    occurs twice if none did. *)
Definition registry_grows : relation World :=
  fun w w' =>
    (forall k v,
       dict_get k (_SAVED_MATERIALS w) = Some v ->
       dict_get k (_SAVED_MATERIALS w') = Some v)
    /\ (NoDup (map fst (_SAVED_MATERIALS w)) ->
        NoDup (map fst (_SAVED_MATERIALS w'))).

(** The save-or-restore step of [jitter]. *)
Definition jitter_save_or_restore (mat : pyval) : M unit :=
  let* name := attr_name mat in
  let* d := get_saved in
  match dict_get name d with
  | None => save_material_props mat
  | Some _ => restore_material_props mat
  end.

(** The materials have the names they had, in the order they had. *)
Definition names_kept : relation World :=
  fun w w' => map mat_name (materials w') = map mat_name (materials w).

(** ** The Principled BSDF of a material *)

(** The node that [nodes.get(name)] finds in a tree. *)
Definition node_named (name : string) (t : NodeTree) : option Node :=
  match index_of_name node_name name (nodes t) with
  | Some k => nodes t !! k
  | None => None
  end.

(** [node.inputs[key].default_value], when the node has such an input. *)
Definition input_value (key : string) (n : Node) : option SockVal :=
  match index_of_name sock_name key (inputs n) with
  | Some j => default_value <$> inputs n !! j
  | None => None
  end.

(** The node [n] with [v] as the value of its input [key]. *)
Definition set_input (key : string) (v : SockVal) (n : Node) : Node :=
  match index_of_name sock_name key (inputs n) with
  | Some j =>
      mkNode (node_id n) (node_name n) (bl_idname n) (layer_name n)
        (set_socket_value j v (inputs n)) (outputs n)
  | None => n
  end.

(** Material [r] is live and has a node tree, in which [n] is the node
    named 'Principled BSDF'; the nodes of the tree are distinct objects (no
    two have the same identity). *)
Definition bsdf_of (w : World) (r : nat) (n : Node) : Prop :=
  exists m t,
    materials w !! r = Some m
    /\ node_tree m = Some t
    /\ NoDup (map node_id (nodes t))
    /\ node_named "Principled BSDF" t = Some n.

(** Material [r] has a Principled BSDF whose roughness, metallic and
    specular inputs hold the triple [p]. *)
Definition reads_as (w : World) (r : nat) (p : props) : Prop :=
  exists n,
    bsdf_of w r n
    /\ input_value "Roughness" n = Some (fst (fst p))
    /\ input_value "Metallic" n = Some (snd (fst p))
    /\ input_value "Specular" n = Some (snd p).

(** [random.gauss(0, std)] at the [i]-th draw from now. *)
Definition noise (w : World) (std : float) (i : nat) : float :=
  (0 + rng_samples w (rng_pos w + i) * std)%float.

(** The world [w] with [ms1 ++ x :: ms2] as its materials: [x] is the
    material at index [length ms1]. *)
Definition focus (ms1 : list Material) (x : Material) (ms2 : list Material)
    (w : World) : World :=
  set_materials (ms1 ++ x :: ms2) w.

(** Every material but [r] is as before, and so is all that is not a
    material. *)
Definition only_material (r : nat) : relation World :=
  fun w w' =>
    exists ms,
      w' = set_materials ms w
      /\ length ms = length (materials w)
      /\ forall r', r' <> r -> ms !! r' = materials w !! r'.

(** ** The object hierarchy *)

(** The hierarchy under object [p] is a tree of height below [depth]: every
    reference in it is live, and no object is its own descendant (the host
    refuses parenting loops).  With [depth] the frames that Python has left,
    this says that the recursion of [set_mat] stays within the limit. *)
Inductive bounded (w : World) : nat -> nat -> Prop :=
  | bounded_node (depth p : nat) (o : Object) :
      objects w !! p = Some o ->
      (forall c, c ∈ children o -> bounded w depth c) ->
      bounded w (S depth) p.

(** The object [o] after [o.active_material = materials[mr]]. *)
Definition with_material (mr : nat) (o : Object) : Object :=
  assign_active_material (Some mr) o.

(** [o'] is [o], or [o] after material [mr] has been assigned to it. *)
Definition assigned (mr : nat) (o o' : Object) : Prop :=
  o' = o \/ o' = with_material mr o.

(** Only objects differ, and only by assignments of material [mr]. *)
Definition assigns_only (mr : nat) : relation World :=
  fun w w' =>
    exists os, w' = set_objects os w /\ Forall2 (assigned mr) (objects w) os.

(** [objects[i].active_material], when [i] is a live reference. *)
Definition active_of (w : World) (i : nat) : option (option nat) :=
  active_material <$> objects w !! i.

(** [hasattr(objects[i], 'active_material')] *)
Definition has_slot (w : World) (i : nat) : bool :=
  match objects w !! i with
  | Some o => has_active_material o
  | None => false
  end.

(** The data of [objects[i]] carries materials. *)
Definition takes_materials (w : World) (i : nat) : bool :=
  match objects w !! i with
  | Some o => data_has_materials o
  | None => false
  end.

(** [objects[i]] is as an assignment of material [mr] leaves an object:
    assigning [mr] to it again changes nothing. *)
Definition settled (mr : nat) (w : World) (i : nat) : Prop :=
  exists o, objects w !! i = Some o /\ with_material mr o = o.

(** [q] is reached from [p]: a chain of children leads from [p] to [q], and
    every object on it, [q] included, has the attribute [active_material].
    These are the objects that [set_mat] on [p] visits and assigns to. *)
Inductive reaches (w : World) : nat -> nat -> Prop :=
  | reaches_here (p : nat) :
      has_slot w p = true -> reaches w p p
  | reaches_child (p c q : nat) (o : Object) :
      objects w !! p = Some o ->
      has_active_material o = true ->
      c ∈ children o ->
      reaches w c q ->
      reaches w p q.

(** What one call of [set_mat] achieves on the object [p]. *)
Definition set_mat_achieves (mr : nat) (m : Material) (depth : nat) : Prop :=
  forall w p,
    materials w !! mr = Some m -> bounded w depth p ->
    exists w',
      set_mat depth (PyObj p) (PyMat mr) true w = (Ret tt, w')
      /\ assigns_only mr w w'
      /\ (forall q, reaches w p q -> settled mr w' q).

(** * Properties *)

(** ** Running a computation *)

Lemma bind_ret_eq {A B : Type} (m : M A) (k : A -> M B) (w w' : World) (a : A) :
  m w = (Ret a, w') -> bind m k w = k a w'.
Proof. intros H. unfold bind. now rewrite H. Qed.

Lemma bind_raise_eq {A B : Type} (m : M A) (k : A -> M B) (w w' : World)
    (e : exn) :
  m w = (Raise e, w') -> bind m k w = (Raise e, w').
Proof. intros H. unfold bind. now rewrite H. Qed.

(** ** Frames: what a computation leaves related

    [respects R m]: whatever [m] does, and whether it returns or raises, the
    world it leaves is [R]-related to the one it started in. *)

Definition respects (R : relation World) {A : Type} (m : M A) : Prop :=
  forall w, R w (snd (m w)).

Section Respects.
Context (R : relation World) `{!PreOrder R}.

Lemma respects_ret {A : Type} (a : A) : respects R (ret a).
Proof. intros w. simpl. reflexivity. Qed.

Lemma respects_raise {A : Type} (e : exn) : respects R (@raise A e).
Proof. intros w. simpl. reflexivity. Qed.

Lemma respects_log (s : string) : respects R (log s).
Proof. intros w. simpl. reflexivity. Qed.

Lemma respects_bind {A B : Type} (m : M A) (k : A -> M B) :
  respects R m -> (forall a, respects R (k a)) -> respects R (bind m k).
Proof.
  intros Hm Hk w. unfold bind.
  specialize (Hm w). destruct (m w) as [[a|e] w1]; simpl in *.
  - specialize (Hk a w1). etransitivity; eassumption.
  - assumption.
Qed.

Lemma respects_for_each {A : Type} (l : list A) (body : A -> M unit) :
  (forall a, respects R (body a)) -> respects R (for_each l body).
Proof.
  intros Hb. induction l as [|x l IH]; simpl.
  - apply respects_ret.
  - apply respects_bind; auto.
Qed.

(** A computation that only reads respects every preorder. *)
Lemma respects_read {A : Type} (m : M A) :
  respects eq m -> respects R m.
Proof. intros H w. rewrite <- (H w). reflexivity. Qed.
End Respects.

(** One step of a frame proof, following the shape of the computation. *)
Ltac frame_step :=
  lazymatch goal with
  | |- respects _ (bind _ _) =>
      apply respects_bind; [typeclasses eauto | | intros ?]
  | |- respects _ (ret _) => apply respects_ret; typeclasses eauto
  | |- respects _ (raise _) => apply respects_raise; typeclasses eauto
  | |- respects _ (log _) => apply respects_log; typeclasses eauto
  | |- respects _ (for_each _ _) =>
      apply respects_for_each; [typeclasses eauto | intros ?]
  | |- respects _ (match ?x with _ => _ end) => destruct x
  end.

Create HintDb reads.
Create HintDb frames.

Ltac frame :=
  repeat (first
    [ assumption
    | frame_step
    | solve [eauto with reads frames]
    | solve [apply respects_read; [typeclasses eauto | eauto with reads]] ]).

(** *** The host's readers only read *)

Lemma read_get_world : respects eq get_world.
Proof. intros w. reflexivity. Qed.

Lemma read_get_saved : respects eq get_saved.
Proof. intros w. reflexivity. Qed.

Lemma read_get_engine : respects eq get_engine.
Proof. intros w. reflexivity. Qed.

Lemma read_materials_get (name : string) : respects eq (materials_get name).
Proof. intros w. unfold materials_get. now destruct index_of_name. Qed.

Lemma read_objects_get (name : string) : respects eq (objects_get name).
Proof. intros w. unfold objects_get. now destruct index_of_name. Qed.

Lemma read_as_material (v : pyval) (attr : string) :
  respects eq (as_material v attr).
Proof.
  intros w. unfold as_material.
  destruct v; try reflexivity. now destruct (materials w !! r).
Qed.

Lemma read_as_object (v : pyval) (attr : string) :
  respects eq (as_object v attr).
Proof.
  intros w. unfold as_object.
  destruct v; try reflexivity. now destruct (objects w !! r).
Qed.

Lemma read_hasattr_active_material (obj : pyval) :
  respects eq (hasattr_active_material obj).
Proof.
  intros w. unfold hasattr_active_material.
  destruct obj; try reflexivity. now destruct (objects w !! r).
Qed.

#[local] Hint Resolve read_get_world read_get_saved read_get_engine
  read_materials_get read_objects_get read_as_material read_as_object
  read_hasattr_active_material : reads.

Lemma read_attr_name (v : pyval) : respects eq (attr_name v).
Proof. unfold attr_name. destruct v; frame. Qed.

Lemma read_verify (mat : pyval) (check_none : bool) :
  respects eq (verify mat check_none).
Proof. unfold verify. frame. Qed.

Lemma read_tree_of (mat : pyval) : respects eq (tree_of mat).
Proof. unfold tree_of. frame. Qed.

#[local] Hint Resolve read_attr_name read_verify read_tree_of : reads.

Lemma read_nodes_get (mat : pyval) (name : string) :
  respects eq (nodes_get mat name).
Proof. unfold nodes_get. frame. Qed.

Lemma read_node_of (nr : NodeRef) : respects eq (node_of nr).
Proof. unfold node_of. frame. Qed.

#[local] Hint Resolve read_nodes_get read_node_of : reads.

Lemma read_socket_by_key (nr : NodeRef) (is_output : bool) (key : string) :
  respects eq (socket_by_key nr is_output key).
Proof. unfold socket_by_key. frame. Qed.

Lemma read_socket_by_index (nr : NodeRef) (is_output : bool) (i : nat) :
  respects eq (socket_by_index nr is_output i).
Proof. unfold socket_by_index. frame. Qed.

Lemma read_get_default_value (sr : SockRef) :
  respects eq (get_default_value sr).
Proof. unfold get_default_value. frame. Qed.

Lemma read_py_add (a b : SockVal) : respects eq (py_add a b).
Proof. unfold py_add. frame. Qed.

Lemma read_get_use_nodes (mat : pyval) : respects eq (get_use_nodes mat).
Proof. unfold get_use_nodes. frame. Qed.

Lemma read_last_node_named (mat : pyval) (name : string) :
  respects eq (last_node_named mat name).
Proof. unfold last_node_named. frame. Qed.

Lemma read_objects_verify (obj : pyval) : respects eq (objects_verify obj).
Proof. unfold objects_verify. frame. Qed.

Lemma read_get_children (obj : pyval) : respects eq (get_children obj).
Proof. unfold get_children. frame. Qed.

#[local] Hint Resolve read_socket_by_key read_socket_by_index
  read_get_default_value read_py_add read_get_use_nodes read_last_node_named
  read_objects_verify read_get_children : reads.

(** [get_mat_props] reads the material and changes nothing. *)
Lemma read_get_mat_props (mat : pyval) : respects eq (get_mat_props mat).
Proof. unfold get_mat_props. frame. Qed.

#[local] Hint Resolve read_get_mat_props : reads.

(** ** Strings inside messages *)

Lemma prefix_app (s t : string) : String.prefix s (s +:+ t) = true.
Proof.
  induction s as [|c s IH]; simpl.
  - now destruct t.
  - destruct (Ascii.ascii_dec c c); [exact IH | congruence].
Qed.

Lemma prefix_split (s t : string) :
  String.prefix s t = true -> exists post, t = s +:+ post.
Proof.
  revert t. induction s as [|c s IH]; intros t H.
  - now exists t.
  - destruct t as [|d t]; simpl in H; [discriminate|].
    destruct (Ascii.ascii_dec c d) as [->|]; [|discriminate].
    destruct (IH t H) as [post ->]. now exists post.
Qed.

(** [contains] decides the presence of [needle] somewhere in [hay]. *)
Lemma contains_spec (needle hay : string) :
  contains needle hay = true <->
  exists pre post, hay = pre +:+ needle +:+ post.
Proof.
  split.
  - induction hay as [|c hay IH]; cbn [contains]; intros H.
    + apply orb_true_iff in H as [H|H]; [|discriminate].
      destruct (prefix_split _ _ H) as [post ->]. now exists "", post.
    + apply orb_true_iff in H as [H|H].
      * destruct (prefix_split _ _ H) as [post E]. exists "", post. exact E.
      * destruct (IH H) as (pre & post & ->). now exists (String c pre), post.
  - intros (pre & post & ->). induction pre as [|c pre IH].
    + change ("" +:+ needle +:+ post) with (needle +:+ post).
      destruct (needle +:+ post) eqn:E; cbn [contains];
        rewrite <- E, prefix_app; reflexivity.
    + change (String c pre +:+ needle +:+ post)
        with (String c (pre +:+ needle +:+ post)).
      cbn [contains]. rewrite IH. apply orb_true_r.
Qed.

(** ** Name resolution *)

(** [verify] hands a reference back as it is. *)
Lemma verify_ref (r : nat) (check_none : bool) (w : World) :
  verify (PyMat r) check_none w = (Ret (PyMat r), w).
Proof. unfold verify, bind, ret. simpl. now rewrite andb_false_r. Qed.

(** [verify] resolves the name of an existing material to it. *)
Lemma verify_name_found (s : string) (r : nat) (check_none : bool) (w : World) :
  index_of_name mat_name s (materials w) = Some r ->
  verify (PyStr s) check_none w = (Ret (PyMat r), w).
Proof.
  intros H. unfold verify, bind, materials_get, ret. rewrite H. simpl.
  now rewrite andb_false_r.
Qed.

(** A name that no material has: the error message is formatted after the
    lookup has rebound [mat] to [None]. *)
Lemma verify_name_missing (s : string) (w : World) :
  index_of_name mat_name s (materials w) = None ->
  verify (PyStr s) true w
  = (Raise (ValueError "Could not find material None."), w).
Proof. intros H. unfold verify, bind, materials_get. now rewrite H. Qed.

(** The operations that start with [verify] take a name for the material it
    resolves to. *)
Lemma get_mat_props_by_name (s : string) (r : nat) (w : World) :
  index_of_name mat_name s (materials w) = Some r ->
  get_mat_props (PyStr s) w = get_mat_props (PyMat r) w.
Proof.
  intros H. unfold get_mat_props.
  rewrite (bind_ret_eq _ _ _ _ _ (verify_name_found s r true w H)).
  now rewrite (bind_ret_eq _ _ _ _ _ (verify_ref r true w)).
Qed.

Lemma set_mat_props_by_name (s : string) (r : nat) (p : props) (w : World) :
  index_of_name mat_name s (materials w) = Some r ->
  set_mat_props (PyStr s) p w = set_mat_props (PyMat r) p w.
Proof.
  intros H. unfold set_mat_props.
  rewrite (bind_ret_eq _ _ _ _ _ (verify_name_found s r true w H)).
  now rewrite (bind_ret_eq _ _ _ _ _ (verify_ref r true w)).
Qed.

Lemma jitter_by_name (s : string) (r : nat) (std : float) (sft : bool)
    (w : World) :
  index_of_name mat_name s (materials w) = Some r ->
  jitter (PyStr s) std sft w = jitter (PyMat r) std sft w.
Proof.
  intros H. unfold jitter.
  rewrite (bind_ret_eq _ _ _ _ _ (verify_name_found s r true w H)).
  now rewrite (bind_ret_eq _ _ _ _ _ (verify_ref r true w)).
Qed.

(** C10. [save_material_props] and [restore_material_props] do not resolve
    names.  Given a name string, each raises the attribute error of reading
    [.name] off a [str], and leaves the world, the registry included, as it
    was; this holds whether or not a material of that name exists. *)
Theorem save_restore_reject_name_string (s : string) (w : World) :
  save_material_props (PyStr s) w = (Raise (AttributeError "str" "name"), w)
  /\ restore_material_props (PyStr s) w
     = (Raise (AttributeError "str" "name"), w).
Proof. split; reflexivity. Qed.

(** C5, at the name ["red"] in a scene without materials: [verify] raises a
    value error, and its message is ["Could not find material None."], which
    does not contain the name that was looked up. *)
Theorem verify_missing_name_message :
  verify (PyStr "red") true empty_world
  = (Raise (ValueError "Could not find material None."), empty_world)
  /\ contains "red" "Could not find material None." = false.
Proof. split; reflexivity. Qed.

(** C6. A style other than ['instance'] and ['category'] is refused with an
    assertion error, whatever the material and object arguments are, and the
    world is left exactly as it was: no scene setting and no node tree has
    been touched. *)
Theorem make_aov_rejects_invalid_style
    (mat obj : pyval) (style : string) (w : World) :
  style <> "instance" -> style <> "category" ->
  make_aov_material_output_node mat obj style w
  = (Raise (AssertionError
              ("Invalid style " +:+ style +:+
               " for AOV material output node, must be in " +:+
               "['instance', 'category']" +:+ ".")), w).
Proof.
  intros Hi Hc.
  assert (Hs : style_in style valid_styles = false).
  { unfold style_in, valid_styles. simpl.
    apply String.eqb_neq in Hi, Hc. now rewrite Hi, Hc. }
  unfold make_aov_material_output_node, bind, get_engine.
  destruct (negb (engine w =? "CYCLES")%string);
    cbn -[style_in String.append]; now rewrite Hs.
Qed.

Lemma make_aov_rejects_invalid_style_witness :
  make_aov_material_output_node PyNone PyNone "bogus" empty_world
  = (Raise (AssertionError
              "Invalid style bogus for AOV material output node, must be in ['instance', 'category']."),
     empty_world).
Proof.
  apply (make_aov_rejects_invalid_style PyNone PyNone "bogus" empty_world);
    discriminate.
Defined.

(** ** A material without a Principled BSDF node *)

Lemma attr_name_mat (r : nat) (m : Material) (w : World) :
  materials w !! r = Some m ->
  attr_name (PyMat r) w = (Ret (mat_name m), w).
Proof. intros H. unfold attr_name, bind, as_material. now rewrite H. Qed.

Lemma tree_of_mat (r : nat) (m : Material) (t : NodeTree) (w : World) :
  materials w !! r = Some m -> node_tree m = Some t ->
  tree_of (PyMat r) w = (Ret (r, t), w).
Proof.
  intros H Ht. unfold tree_of, bind, as_material. rewrite H. simpl.
  now rewrite Ht.
Qed.

Lemma nodes_get_none (r : nat) (m : Material) (t : NodeTree) (name : string)
    (w : World) :
  materials w !! r = Some m -> node_tree m = Some t ->
  index_of_name node_name name (nodes t) = None ->
  nodes_get (PyMat r) name w = (Ret None, w).
Proof.
  intros H Ht Hn. unfold nodes_get.
  rewrite (bind_ret_eq _ _ _ _ _ (tree_of_mat r m t w H Ht)). simpl.
  now rewrite Hn.
Qed.

Lemma bind_log {B : Type} (s : string) (k : unit -> M B) (w : World) :
  bind (log s) k w = k tt w.
Proof. reflexivity. Qed.

Lemma bind_get_saved {B : Type} (k : list (string * props) -> M B) (w : World) :
  bind get_saved k w = k (_SAVED_MATERIALS w) w.
Proof. reflexivity. Qed.

Section NoBsdf.
Variables (r : nat) (m : Material) (t : NodeTree).
Hypothesis Ht : node_tree m = Some t.
Hypothesis Hn : index_of_name node_name "Principled BSDF" (nodes t) = None.

Lemma get_mat_props_no_bsdf (w : World) :
  materials w !! r = Some m ->
  get_mat_props (PyMat r) w = (Ret zero_props, w).
Proof.
  intros H. unfold get_mat_props.
  rewrite (bind_ret_eq _ _ _ _ _ (verify_ref r true w)).
  rewrite (bind_ret_eq _ _ _ _ _ (nodes_get_none r m t _ w H Ht Hn)).
  now rewrite (bind_ret_eq _ _ _ _ _ (attr_name_mat r m w H)).
Qed.

Lemma set_mat_props_no_bsdf (p : props) (w : World) :
  materials w !! r = Some m ->
  set_mat_props (PyMat r) p w = (Ret tt, w).
Proof.
  intros H. unfold set_mat_props.
  rewrite (bind_ret_eq _ _ _ _ _ (verify_ref r true w)).
  rewrite (bind_ret_eq _ _ _ _ _ (nodes_get_none r m t _ w H Ht Hn)).
  now rewrite (bind_ret_eq _ _ _ _ _ (attr_name_mat r m w H)).
Qed.

Lemma save_material_props_no_bsdf (w : World) :
  materials w !! r = Some m ->
  save_material_props (PyMat r) w
  = (Ret tt,
     set_saved (dict_set (mat_name m) zero_props (_SAVED_MATERIALS w)) w).
Proof.
  intros H. unfold save_material_props.
  rewrite (bind_ret_eq _ _ _ _ _ (attr_name_mat r m w H)).
  rewrite bind_log.
  rewrite (bind_ret_eq _ _ _ _ _ (get_mat_props_no_bsdf w H)).
  now rewrite (bind_ret_eq _ _ _ _ _ (attr_name_mat r m w H)).
Qed.

Lemma restore_material_props_no_bsdf (p : props) (w : World) :
  materials w !! r = Some m ->
  dict_get (mat_name m) (_SAVED_MATERIALS w) = Some p ->
  restore_material_props (PyMat r) w = (Ret tt, w).
Proof.
  intros H Hd. unfold restore_material_props.
  rewrite (bind_ret_eq _ _ _ _ _ (attr_name_mat r m w H)).
  rewrite bind_log.
  rewrite (bind_ret_eq _ _ _ _ _ (attr_name_mat r m w H)).
  rewrite bind_get_saved.
  rewrite Hd. now apply set_mat_props_no_bsdf.
Qed.

(** What [jitter] does after the save-or-restore step. *)
Lemma jitter_tail_no_bsdf (std : float) (w : World) :
  materials w !! r = Some m ->
  exists w',
    (let* name := attr_name (PyMat r) in
     log ("Jittering material " +:+ name) >>
     let* mat_props := get_mat_props (PyMat r) in
     let* j0 := jitter_one std (fst (fst mat_props)) in
     let* j1 := jitter_one std (snd (fst mat_props)) in
     let* j2 := jitter_one std (snd mat_props) in
     set_mat_props (PyMat r) (j0, j1, j2)) w = (Ret tt, w')
    /\ materials w' = materials w.
Proof.
  intros H.
  rewrite (bind_ret_eq _ _ _ _ _ (attr_name_mat r m w H)).
  rewrite bind_log.
  rewrite (bind_ret_eq _ _ _ _ _ (get_mat_props_no_bsdf w H)).
  unfold jitter_one, gauss0, py_add, zero_props, bind at 1 2 3 4 5 6. simpl.
  eexists. split; [apply set_mat_props_no_bsdf; exact H | reflexivity].
Qed.

Lemma jitter_no_bsdf (std : float) (sft : bool) (w : World) :
  materials w !! r = Some m ->
  exists w',
    jitter (PyMat r) std sft w = (Ret tt, w')
    /\ materials w' = materials w.
Proof.
  intros H. unfold jitter.
  rewrite (bind_ret_eq _ _ _ _ _ (verify_ref r true w)).
  destruct sft;
    [destruct (dict_get (mat_name m) (_SAVED_MATERIALS w)) as [p|] eqn:Hd|].
  - erewrite bind_ret_eq; cycle 1.
    { rewrite (bind_ret_eq _ _ _ _ _ (attr_name_mat r m w H)).
      rewrite bind_get_saved, Hd.
      now apply (restore_material_props_no_bsdf p). }
    now apply jitter_tail_no_bsdf.
  - erewrite bind_ret_eq; cycle 1.
    { rewrite (bind_ret_eq _ _ _ _ _ (attr_name_mat r m w H)).
      rewrite bind_get_saved, Hd.
      now apply save_material_props_no_bsdf. }
    destruct (jitter_tail_no_bsdf std
                (set_saved (dict_set (mat_name m) zero_props (_SAVED_MATERIALS w)) w) H)
      as (w' & E & Hm).
    exists w'. split; [exact E | exact Hm].
  - erewrite bind_ret_eq; [|reflexivity].
    now apply jitter_tail_no_bsdf.
Qed.
End NoBsdf.

(** C7. A material whose node tree has no node named 'Principled BSDF':
    [get_mat_props] returns the zero triple and [set_mat_props] returns
    without writing (both leave the world as it was), and [jitter], for
    every [std] and either value of [save_first_time], returns normally and
    leaves every material, this one's node graph included, unchanged. *)
Theorem jitter_inert_without_bsdf
    (r : nat) (m : Material) (t : NodeTree) (w : World)
    (p : props) (std : float) (save_first_time : bool) :
  materials w !! r = Some m ->
  node_tree m = Some t ->
  index_of_name node_name "Principled BSDF" (nodes t) = None ->
  get_mat_props (PyMat r) w = (Ret (VFloat 0, VFloat 0, VFloat 0), w)
  /\ set_mat_props (PyMat r) p w = (Ret tt, w)
  /\ fst (jitter (PyMat r) std save_first_time w) = Ret tt
  /\ materials (snd (jitter (PyMat r) std save_first_time w)) = materials w.
Proof.
  intros H Ht Hn. split; [|split].
  - exact (get_mat_props_no_bsdf r m t Ht Hn w H).
  - exact (set_mat_props_no_bsdf r m t Ht Hn p w H).
  - destruct (jitter_no_bsdf r m t Ht Hn std save_first_time w H)
      as (w' & E & Hm).
    rewrite E. split; [reflexivity | exact Hm].
Qed.

Lemma jitter_inert_without_bsdf_witness :
  get_mat_props (PyMat 0) bare_world
  = (Ret (VFloat 0, VFloat 0, VFloat 0), bare_world)
  /\ set_mat_props (PyMat 0) (VFloat 1, VFloat 1, VFloat 1) bare_world
     = (Ret tt, bare_world)
  /\ fst (jitter (PyMat 0) 0.5 true bare_world) = Ret tt
  /\ materials (snd (jitter (PyMat 0) 0.5 true bare_world))
     = materials bare_world.
Proof.
  eapply (jitter_inert_without_bsdf 0 _ _ bare_world); reflexivity.
Defined.

(** ** Frames of the mutators *)

#[local] Instance materials_only_preorder : PreOrder materials_only.
Proof.
  split.
  - intros w. exists (materials w). now destruct w.
  - intros w1 w2 w3 [ms ->] [ms' ->]. now exists ms'.
Qed.

Lemma frame_set_material (r : nat) (m : Material) :
  respects materials_only (set_material r m).
Proof. intros w. now eexists. Qed.

Lemma frame_set_tree (r : nat) (t : NodeTree) :
  respects materials_only (set_tree r t).
Proof.
  intros w. unfold set_tree. destruct (materials w !! r).
  - now eexists.
  - reflexivity.
Qed.

#[local] Hint Resolve frame_set_material frame_set_tree : frames.

Lemma frame_update_node (nr : NodeRef) (f : Node -> Node) :
  respects materials_only (update_node nr f).
Proof. unfold update_node. frame. Qed.

#[local] Hint Resolve frame_update_node : frames.

Lemma frame_set_default_value (sr : SockRef) (v : SockVal) :
  respects materials_only (set_default_value sr v).
Proof. unfold set_default_value, write_default_value. frame. Qed.

#[local] Hint Resolve frame_set_default_value : frames.

Lemma frame_iadd_default_value (node : NodeRef) (key : string) (p : SockVal) :
  respects materials_only (iadd_default_value node key p).
Proof. unfold iadd_default_value. frame. Qed.

#[local] Hint Resolve frame_iadd_default_value : frames.

(** [set_mat_props] writes to materials and to nothing else. *)
Lemma frame_set_mat_props (mat : pyval) (p : props) :
  respects materials_only (set_mat_props mat p).
Proof. unfold set_mat_props. frame. Qed.

#[local] Hint Resolve frame_set_mat_props : frames.

(** [restore_material_props] and [restore_all_material_props] write to
    materials only: they read the registry and never assign to it. *)
Lemma frame_restore_material_props (mat : pyval) :
  respects materials_only (restore_material_props mat).
Proof. unfold restore_material_props. frame. Qed.

Lemma frame_restore_all_material_props :
  respects materials_only restore_all_material_props.
Proof. unfold restore_all_material_props. frame. Qed.

Lemma materials_only_saved (w w' : World) :
  materials_only w w' -> _SAVED_MATERIALS w' = _SAVED_MATERIALS w.
Proof. now intros [ms ->]. Qed.

(** ** The snapshot registry *)

Lemma dict_get_set_eq {V : Type} (k : string) (v : V) (d : list (string * V)) :
  dict_get k (dict_set k v d) = Some v.
Proof.
  induction d as [|[k' v'] d IH]; simpl.
  - now rewrite String.eqb_refl.
  - destruct (String.eqb k' k) eqn:E; simpl; now rewrite E.
Qed.

Lemma dict_get_set_ne {V : Type} (k k' : string) (v : V)
    (d : list (string * V)) :
  k <> k' -> dict_get k' (dict_set k v d) = dict_get k' d.
Proof.
  intros Hne. induction d as [|[k0 v0] d IH]; simpl.
  - apply String.eqb_neq in Hne. now rewrite Hne.
  - destruct (String.eqb k0 k) eqn:E; simpl.
    + apply String.eqb_eq in E. subst k0.
      apply String.eqb_neq in Hne. now rewrite Hne.
    + now rewrite IH.
Qed.

Lemma dict_get_None_keys {V : Type} (k : string) (d : list (string * V)) :
  dict_get k d = None <-> k ∉ map fst d.
Proof.
  induction d as [|[k0 v0] d IH]; simpl.
  - split; [intros _; apply not_elem_of_nil | reflexivity].
  - rewrite not_elem_of_cons. destruct (String.eqb k0 k) eqn:E.
    + apply String.eqb_eq in E. subst. split; [discriminate | intros [? _]; congruence].
    + apply String.eqb_neq in E. rewrite IH. split; [intros; split; congruence | tauto].
Qed.

(** Assigning to a key that the dict lacks appends the entry. *)
Lemma dict_set_fresh {V : Type} (k : string) (v : V) (d : list (string * V)) :
  dict_get k d = None -> dict_set k v d = d ++ [(k, v)].
Proof.
  induction d as [|[k0 v0] d IH]; simpl; [reflexivity|].
  destruct (String.eqb k0 k); [discriminate|]. intros H. now rewrite IH.
Qed.

(** Assigning never changes the keys already there, nor their order. *)
Lemma dict_set_keys {V : Type} (k : string) (v : V) (d : list (string * V)) :
  map fst (dict_set k v d)
  = match dict_get k d with
    | Some _ => map fst d
    | None => map fst d ++ [k]
    end.
Proof.
  induction d as [|[k0 v0] d IH]; simpl; [reflexivity|].
  destruct (String.eqb k0 k); simpl; [reflexivity|].
  rewrite IH. now destruct (dict_get k d).
Qed.

(** A dict holds each key once: assignment keeps it so. *)
Lemma dict_set_NoDup {V : Type} (k : string) (v : V) (d : list (string * V)) :
  NoDup (map fst d) -> NoDup (map fst (dict_set k v d)).
Proof.
  intros H. rewrite dict_set_keys.
  destruct (dict_get k d) eqn:E; [exact H|].
  apply NoDup_app. split; [exact H|]. split.
  - intros x Hx Hx'. apply list_elem_of_singleton in Hx'. subst x.
    now apply dict_get_None_keys in E.
  - apply NoDup_singleton.
Qed.

#[local] Instance registry_grows_preorder : PreOrder registry_grows.
Proof.
  split.
  - intros w. split; auto.
  - intros w1 w2 w3 [H1 N1] [H2 N2]. split; auto.
Qed.

Lemma materials_only_grows (w w' : World) :
  materials_only w w' -> registry_grows w w'.
Proof. intros [ms ->]. split; auto. Qed.

Lemma respects_materials_only_grows {A : Type} (m : M A) :
  respects materials_only m -> respects registry_grows m.
Proof. intros H w. apply materials_only_grows, H. Qed.

#[local] Instance rng_only_preorder : PreOrder rng_only.
Proof.
  split.
  - intros w. exists (rng_pos w). now destruct w.
  - intros w1 w2 w3 [n ->] [n' ->]. now exists n'.
Qed.

Lemma frame_gauss0 (sigma : float) : respects rng_only (gauss0 sigma).
Proof. intros w. now eexists. Qed.

#[local] Hint Resolve frame_gauss0 : frames.

Lemma frame_jitter_one (std : float) (p : SockVal) :
  respects rng_only (jitter_one std p).
Proof. unfold jitter_one. frame. Qed.

Lemma respects_rng_only_grows {A : Type} (m : M A) :
  respects rng_only m -> respects registry_grows m.
Proof. intros H w. destruct (H w) as [n ->]. split; auto. Qed.

(** Reading leaves the world as it was. *)
Lemma read_world {A : Type} (m : M A) (w w' : World) (o : outcome A) :
  respects eq m -> m w = (o, w') -> w' = w.
Proof. intros H E. specialize (H w). rewrite E in H. now symmetry. Qed.

(** [save_material_props]: either it raises and the registry is as before,
    or it assigns the material's current properties to the material's
    name. *)
Lemma save_material_props_registry (mat : pyval) (w : World) :
  _SAVED_MATERIALS (snd (save_material_props mat w)) = _SAVED_MATERIALS w
  \/ exists name p,
       attr_name mat w = (Ret name, w)
       /\ get_mat_props mat w = (Ret p, w)
       /\ save_material_props mat w
          = (Ret tt, set_saved (dict_set name p (_SAVED_MATERIALS w)) w).
Proof.
  unfold save_material_props.
  destruct (attr_name mat w) as [[name|e] w1] eqn:En.
  2:{ left. rewrite (bind_raise_eq _ _ _ _ _ En). simpl.
      now rewrite (read_world _ _ _ _ (read_attr_name mat) En). }
  assert (w1 = w) as -> by exact (read_world _ _ _ _ (read_attr_name mat) En).
  rewrite (bind_ret_eq _ _ _ _ _ En), bind_log.
  destruct (get_mat_props mat w) as [[p|e] w1] eqn:Ep.
  2:{ left. rewrite (bind_raise_eq _ _ _ _ _ Ep). simpl.
      now rewrite (read_world _ _ _ _ (read_get_mat_props mat) Ep). }
  assert (w1 = w) as -> by exact (read_world _ _ _ _ (read_get_mat_props mat) Ep).
  rewrite (bind_ret_eq _ _ _ _ _ Ep), (bind_ret_eq _ _ _ _ _ En).
  right. exists name, p. repeat split.
Qed.

(** [save_material_props] is the one writer of the registry; it overwrites
    in place, so it too keeps every name at most once. *)
Lemma save_material_props_NoDup (mat : pyval) (w : World) :
  NoDup (map fst (_SAVED_MATERIALS w)) ->
  NoDup (map fst (_SAVED_MATERIALS (snd (save_material_props mat w)))).
Proof.
  intros H.
  destruct (save_material_props_registry mat w) as [E | (name & p & _ & _ & E)].
  - now rewrite E.
  - rewrite E. simpl. now apply dict_set_NoDup.
Qed.

Lemma same_saved_grows (w w' : World) :
  _SAVED_MATERIALS w' = _SAVED_MATERIALS w -> registry_grows w w'.
Proof. intros E. unfold registry_grows. rewrite E. auto. Qed.

(** Assigning to a name that the registry lacks keeps what it has. *)
Lemma dict_set_fresh_grows (name : string) (p : props) (w : World) :
  dict_get name (_SAVED_MATERIALS w) = None ->
  registry_grows w (set_saved (dict_set name p (_SAVED_MATERIALS w)) w).
Proof.
  intros Hd. split; simpl.
  - intros k v Hk. rewrite dict_get_set_ne; [exact Hk | congruence].
  - apply dict_set_NoDup.
Qed.

Lemma jitter_save_or_restore_grows (mat : pyval) :
  respects registry_grows (jitter_save_or_restore mat).
Proof.
  intros w. unfold jitter_save_or_restore.
  destruct (attr_name mat w) as [[name|e] w1] eqn:En.
  2:{ rewrite (bind_raise_eq _ _ _ _ _ En). simpl.
      rewrite (read_world _ _ _ _ (read_attr_name mat) En). reflexivity. }
  assert (w1 = w) as -> by exact (read_world _ _ _ _ (read_attr_name mat) En).
  rewrite (bind_ret_eq _ _ _ _ _ En), bind_get_saved.
  destruct (dict_get name (_SAVED_MATERIALS w)) as [p|] eqn:Hd.
  - apply materials_only_grows, frame_restore_material_props.
  - destruct (save_material_props_registry mat w)
      as [E | (name' & p & En' & _ & E)].
    + now apply same_saved_grows.
    + rewrite E. simpl. rewrite En in En'. injection En' as <-.
      now apply dict_set_fresh_grows.
Qed.

#[local] Hint Resolve respects_materials_only_grows respects_rng_only_grows
  frame_jitter_one jitter_save_or_restore_grows : frames.

(** [jitter] only ever adds to the registry. *)
Lemma jitter_grows (mat : pyval) (std : float) (save_first_time : bool) :
  respects registry_grows (jitter mat std save_first_time).
Proof.
  unfold jitter. frame_step; [frame|]. frame_step.
  - destruct save_first_time; [apply jitter_save_or_restore_grows | frame].
  - frame.
Qed.

#[local] Instance same_saved_preorder : PreOrder same_saved.
Proof.
  split.
  - intros w. reflexivity.
  - intros w1 w2 w3 H1 H2. unfold same_saved in *. congruence.
Qed.

Lemma respects_materials_only_saved {A : Type} (m : M A) :
  respects materials_only m -> respects same_saved m.
Proof. intros H w. apply materials_only_saved, H. Qed.

Lemma respects_rng_only_saved {A : Type} (m : M A) :
  respects rng_only m -> respects same_saved m.
Proof. intros H w. destruct (H w) as [n ->]. reflexivity. Qed.

#[local] Hint Resolve respects_materials_only_saved respects_rng_only_saved
  : frames.

(** The first [jitter] of a material with [save_first_time] enters the
    material's current properties in the registry under its name. *)
Lemma jitter_creates_entry (r : nat) (m : Material) (p : props) (std : float)
    (w : World) :
  materials w !! r = Some m ->
  get_mat_props (PyMat r) w = (Ret p, w) ->
  dict_get (mat_name m) (_SAVED_MATERIALS w) = None ->
  _SAVED_MATERIALS (snd (jitter (PyMat r) std true w))
  = _SAVED_MATERIALS w ++ [(mat_name m, p)].
Proof.
  intros H Hp Hd. unfold jitter.
  rewrite (bind_ret_eq _ _ _ _ _ (verify_ref r true w)).
  erewrite bind_ret_eq; cycle 1.
  { rewrite (bind_ret_eq _ _ _ _ _ (attr_name_mat r m w H)).
    rewrite bind_get_saved, Hd.
    unfold save_material_props.
    rewrite (bind_ret_eq _ _ _ _ _ (attr_name_mat r m w H)), bind_log.
    rewrite (bind_ret_eq _ _ _ _ _ Hp).
    rewrite (bind_ret_eq _ _ _ _ _ (attr_name_mat r m w H)).
    reflexivity. }
  match goal with
  | |- _SAVED_MATERIALS (snd (?tail ?w1)) = _ =>
      assert (Hk : respects same_saved tail) by frame;
      rewrite (Hk w1)
  end.
  simpl. now apply dict_set_fresh.
Qed.

Lemma dict_get_app_fresh {V : Type} (k : string) (v : V)
    (d : list (string * V)) :
  dict_get k d = None -> dict_get k (d ++ [(k, v)]) = Some v.
Proof. intros H. rewrite <- (dict_set_fresh k v d H). apply dict_get_set_eq. Qed.

(** C9. The registry under [jitter], [restore_material_props] and
    [restore_all_material_props], from any world and for any arguments,
    whether the call returns or raises:
    - a name that occurs once in the registry still occurs once after
      [jitter] (at most one snapshot per name);
    - every entry is still there after [jitter], with the value it had;
    - the two restore operations leave the registry exactly as it was;
    - the first [jitter] with [save_first_time] of a material whose
      properties can be read appends an entry for its name, holding the
      properties it had at the call. *)
Theorem registry_entries_write_once
    (mat : pyval) (std : float) (save_first_time : bool) (w : World) :
  (NoDup (map fst (_SAVED_MATERIALS w)) ->
   NoDup (map fst
            (_SAVED_MATERIALS (snd (jitter mat std save_first_time w)))))
  /\ (forall k v,
        dict_get k (_SAVED_MATERIALS w) = Some v ->
        dict_get k (_SAVED_MATERIALS (snd (jitter mat std save_first_time w)))
        = Some v)
  /\ _SAVED_MATERIALS (snd (restore_material_props mat w)) = _SAVED_MATERIALS w
  /\ _SAVED_MATERIALS (snd (restore_all_material_props w)) = _SAVED_MATERIALS w
  /\ (forall r m p,
        materials w !! r = Some m ->
        get_mat_props (PyMat r) w = (Ret p, w) ->
        dict_get (mat_name m) (_SAVED_MATERIALS w) = None ->
        _SAVED_MATERIALS (snd (jitter (PyMat r) std true w))
        = _SAVED_MATERIALS w ++ [(mat_name m, p)]
        /\ dict_get (mat_name m)
             (_SAVED_MATERIALS (snd (jitter (PyMat r) std true w)))
           = Some p).
Proof.
  destruct (jitter_grows mat std save_first_time w) as [Hkeep Hnodup].
  split; [exact Hnodup|]. split; [exact Hkeep|]. split; [|split].
  - apply materials_only_saved, frame_restore_material_props.
  - apply materials_only_saved, frame_restore_all_material_props.
  - intros r m p H Hp Hd.
    rewrite (jitter_creates_entry r m p std w H Hp Hd).
    split; [reflexivity | now apply dict_get_app_fresh].
Qed.

Lemma registry_entries_write_once_witness :
  _SAVED_MATERIALS
    (snd (jitter (PyMat 0) 0.5 true (principled_world 0.5 0.25 0.5 [])))
  = [("m", (VFloat 0.5, VFloat 0.25, VFloat 0.5))]
  /\ _SAVED_MATERIALS (snd (restore_all_material_props
                   (principled_world 0.5 0.25 0.5
                      [("m", (VFloat 0.5, VFloat 0.25, VFloat 0.5))])))
     = [("m", (VFloat 0.5, VFloat 0.25, VFloat 0.5))].
Proof.
  split.
  - destruct (registry_entries_write_once (PyMat 0) 0.5 true
                (principled_world 0.5 0.25 0.5 [])) as (_ & _ & _ & _ & H).
    destruct (H 0 (mkMaterial "m" true (Some (principled_tree 0.5 0.25 0.5)))
                (VFloat 0.5, VFloat 0.25, VFloat 0.5)
                eq_refl eq_refl eq_refl) as [E _].
    exact E.
  - destruct (registry_entries_write_once (PyMat 0) 0.5 true
                (principled_world 0.5 0.25 0.5
                   [("m", (VFloat 0.5, VFloat 0.25, VFloat 0.5))]))
      as (_ & _ & _ & E & _).
    exact E.
Defined.

(** ** Assigning a material down the object hierarchy *)

Lemma assign_slot_lookup (i : nat) (m : option nat) (slots : list (option nat)) :
  assign_slot i m slots !! i = Some m.
Proof.
  unfold assign_slot. destruct (Nat.ltb i (length slots)) eqn:E.
  - apply Nat.ltb_lt in E. now apply list_lookup_insert_eq.
  - apply Nat.ltb_ge in E.
    rewrite lookup_app_r by exact E.
    rewrite lookup_app_r by (rewrite length_replicate; reflexivity).
    rewrite length_replicate, Nat.sub_diag. reflexivity.
Qed.

(** Assigning the same material again changes no slot. *)
Lemma assign_slot_idem (i : nat) (m : option nat) (slots : list (option nat)) :
  assign_slot i m (assign_slot i m slots) = assign_slot i m slots.
Proof.
  pose proof (assign_slot_lookup i m slots) as Hl.
  unfold assign_slot at 1.
  rewrite (proj2 (Nat.ltb_lt _ _) (lookup_lt_Some _ _ _ Hl)).
  now apply list_insert_id.
Qed.

Lemma with_material_idem (mr : nat) (o : Object) :
  with_material mr (with_material mr o) = with_material mr o.
Proof.
  unfold with_material, assign_active_material.
  destruct (data_has_materials o) eqn:E; cbn [data_has_materials]; rewrite ?E;
    [|reflexivity].
  cbn [obj_name has_active_material material_slots active_material_index
       children].
  now rewrite assign_slot_idem.
Qed.

(** An assignment keeps the name, the attribute, the kind of data and the
    children. *)
Lemma with_material_shape (mr : nat) (o : Object) :
  obj_name (with_material mr o) = obj_name o
  /\ has_active_material (with_material mr o) = has_active_material o
  /\ data_has_materials (with_material mr o) = data_has_materials o
  /\ children (with_material mr o) = children o.
Proof.
  unfold with_material, assign_active_material.
  destruct (data_has_materials o) eqn:E; cbn; auto.
Qed.

(** An object whose data carries materials shows the material assigned. *)
Lemma with_material_active (mr : nat) (o : Object) :
  data_has_materials o = true ->
  active_material (with_material mr o) = Some mr.
Proof.
  intros E. unfold with_material, assign_active_material. now rewrite E.
Qed.

(** The host drops the assignment on an object whose data carries no
    materials. *)
Lemma with_material_dropped (mr : nat) (o : Object) :
  data_has_materials o = false -> with_material mr o = o.
Proof.
  intros E. unfold with_material, assign_active_material. now rewrite E.
Qed.

Lemma assigned_refl (mr : nat) (o : Object) : assigned mr o o.
Proof. now left. Qed.

Lemma assigned_trans (mr : nat) (o1 o2 o3 : Object) :
  assigned mr o1 o2 -> assigned mr o2 o3 -> assigned mr o1 o3.
Proof.
  unfold assigned. intros [-> | ->] [-> | ->]; auto.
  right. apply with_material_idem.
Qed.

Lemma assigned_shape (mr : nat) (o o' : Object) :
  assigned mr o o' ->
  obj_name o' = obj_name o
  /\ has_active_material o' = has_active_material o
  /\ data_has_materials o' = data_has_materials o
  /\ children o' = children o.
Proof. intros [-> | ->]; [tauto | apply with_material_shape]. Qed.

#[local] Instance assigns_only_preorder (mr : nat) : PreOrder (assigns_only mr).
Proof.
  split.
  - intros w. exists (objects w). split; [now destruct w|].
    apply Forall2_same_length_lookup_2; [reflexivity|].
    intros i x y Hx Hy. rewrite Hx in Hy. injection Hy as <-.
    apply assigned_refl.
  - intros w1 w2 w3 (os & -> & H1) (os' & -> & H2). simpl in H2.
    exists os'. split; [reflexivity|].
    eapply Forall2_trans; [|exact H1|exact H2].
    intros ? ? ?. apply assigned_trans.
Qed.

Lemma assigns_only_lookup (mr : nat) (w w' : World) (i : nat) (o : Object) :
  assigns_only mr w w' -> objects w !! i = Some o ->
  exists o', objects w' !! i = Some o' /\ assigned mr o o'.
Proof.
  intros (os & -> & H) Ho. simpl.
  destruct (Forall2_lookup_l _ _ _ _ _ H Ho) as (o' & ? & ?). eauto.
Qed.

Lemma assigns_only_materials (mr : nat) (w w' : World) :
  assigns_only mr w w' -> materials w' = materials w.
Proof. now intros (os & -> & _). Qed.

(** The shape of the hierarchy is untouched by assignments. *)
Lemma bounded_assigns_only (mr : nat) (w w' : World) (depth p : nat) :
  assigns_only mr w w' -> bounded w depth p -> bounded w' depth p.
Proof.
  intros Hw. revert p. induction depth as [|d IH]; intros p Hb.
  - inversion Hb.
  - inversion Hb as [d' p' o Ho Hc]; subst.
    destruct (assigns_only_lookup mr w w' p o Hw Ho) as (o' & Ho' & Ha).
    apply (bounded_node w' d p o' Ho').
    intros c Hin. apply IH, Hc.
    destruct (assigned_shape mr o o' Ha) as (_ & _ & _ & <-). exact Hin.
Qed.

Lemma assigns_only_has_slot (mr : nat) (w w' : World) (i : nat) :
  assigns_only mr w w' -> has_slot w i = true -> has_slot w' i = true.
Proof.
  intros Hw. unfold has_slot. destruct (objects w !! i) as [o|] eqn:Ho;
    [|discriminate].
  destruct (assigns_only_lookup mr w w' i o Hw Ho) as (o' & -> & Ha).
  destruct (assigned_shape mr o o' Ha) as (_ & -> & _). auto.
Qed.

Lemma assigns_only_takes_materials (mr : nat) (w w' : World) (i : nat) :
  assigns_only mr w w' ->
  takes_materials w i = true -> takes_materials w' i = true.
Proof.
  intros Hw. unfold takes_materials.
  destruct (objects w !! i) as [o|] eqn:Ho; [|discriminate].
  destruct (assigns_only_lookup mr w w' i o Hw Ho) as (o' & -> & Ha).
  destruct (assigned_shape mr o o' Ha) as (_ & _ & -> & _). auto.
Qed.

(** Once an object has been assigned the material, later assignments leave
    it as it is. *)
Lemma assigns_only_settled (mr : nat) (w w' : World) (i : nat) :
  assigns_only mr w w' -> settled mr w i -> settled mr w' i.
Proof.
  intros Hw (o & Ho & Hs).
  destruct (assigns_only_lookup mr w w' i o Hw Ho) as (o' & Ho' & [-> | ->]).
  - now exists o.
  - exists (with_material mr o). split; [exact Ho'|]. apply with_material_idem.
Qed.

(** A settled object whose data carries materials shows the material. *)
Lemma settled_active (mr : nat) (w : World) (i : nat) :
  settled mr w i -> takes_materials w i = true ->
  active_of w i = Some (Some mr).
Proof.
  intros (o & Ho & Hs). unfold takes_materials, active_of. rewrite Ho.
  intros Hd. simpl. rewrite <- Hs. now rewrite with_material_active.
Qed.

Lemma set_mat_unfold (depth : nat) (obj mat : pyval) (recursive : bool) :
  set_mat (S depth) obj mat recursive
  = (let* obj := objects_verify obj in
     let* mat := verify mat true in
     let* has := hasattr_active_material obj in
     if has then
       let* oname := attr_name obj in
       let* mname := attr_name mat in
       log ("Setting object " +:+ oname +:+ " material " +:+ mname) >>
       set_active_material obj mat >>
       if recursive then
         let* cs := get_children obj in
         for_each cs (fun child => set_mat depth child mat true)
       else ret tt
     else
       log "Object does not have material property").
Proof. reflexivity. Qed.

Lemma hasattr_obj (p : nat) (o : Object) (w : World) :
  objects w !! p = Some o ->
  hasattr_active_material (PyObj p) w = (Ret (has_active_material o), w).
Proof. intros H. unfold hasattr_active_material. now rewrite H. Qed.

Lemma attr_name_obj (p : nat) (o : Object) (w : World) :
  objects w !! p = Some o ->
  attr_name (PyObj p) w = (Ret (obj_name o), w).
Proof. intros H. unfold attr_name, bind, as_object. now rewrite H. Qed.

Lemma set_active_material_obj (p mr : nat) (o : Object) (w : World) :
  objects w !! p = Some o ->
  set_active_material (PyObj p) (PyMat mr) w
  = (Ret tt, set_objects (<[p := with_material mr o]> (objects w)) w).
Proof.
  intros H. unfold set_active_material, bind, as_object. now rewrite H.
Qed.

Lemma get_children_obj (p : nat) (o : Object) (w : World) :
  objects w !! p = Some o ->
  get_children (PyObj p) w = (Ret (map PyObj (children o)), w).
Proof. intros H. unfold get_children, bind, as_object. now rewrite H. Qed.

(** The assignment itself is an [assigns_only] step. *)
Lemma assigns_only_insert (p mr : nat) (o : Object) (w : World) :
  objects w !! p = Some o ->
  assigns_only mr w (set_objects (<[p := with_material mr o]> (objects w)) w).
Proof.
  intros H. eexists. split; [reflexivity|].
  rewrite <- (list_insert_id (objects w) p o H) at 1.
  apply Forall2_insert.
  - apply Forall2_same_length_lookup_2; [reflexivity|].
    intros i x y Hx Hy. rewrite Hx in Hy. injection Hy as <-.
    apply assigned_refl.
  - now right.
Qed.

(** Assignments change neither the attribute nor the children, so they keep
    what is reached. *)
Lemma reaches_assigns_only (mr : nat) (w w' : World) (p q : nat) :
  assigns_only mr w w' -> reaches w p q -> reaches w' p q.
Proof.
  intros Hw Hr. induction Hr as [p Hs | p c q o Ho Hhas Hin _ IH].
  - apply reaches_here. now apply (assigns_only_has_slot mr w w').
  - destruct (assigns_only_lookup mr w w' p o Hw Ho) as (o' & Ho' & Ha).
    destruct (assigned_shape mr o o' Ha) as (_ & Hh & _ & Hch).
    apply (reaches_child w' p c q o' Ho'); [congruence | | exact IH].
    now rewrite Hch.
Qed.

(** The loop over the children, given what each call achieves. *)
Lemma set_mat_children (mr : nat) (m : Material) (depth : nat)
    (cs : list nat) :
  set_mat_achieves mr m depth ->
  forall w,
    materials w !! mr = Some m ->
    (forall c, c ∈ cs -> bounded w depth c) ->
    exists w',
      for_each (map PyObj cs)
        (fun child => set_mat depth child (PyMat mr) true) w = (Ret tt, w')
      /\ assigns_only mr w w'
      /\ (forall c q, c ∈ cs -> reaches w c q -> settled mr w' q).
Proof.
  intros IH. induction cs as [|x cs IHcs]; intros w Hm Hb.
  - exists w. split; [reflexivity|]. split; [reflexivity|].
    intros c q Hc. now apply elem_of_nil in Hc.
  - destruct (IH w x Hm (Hb x (list_elem_of_here _ _)))
      as (w1 & E1 & A1 & S1).
    assert (Hm1 : materials w1 !! mr = Some m)
      by now rewrite (assigns_only_materials mr w w1 A1).
    destruct (IHcs w1 Hm1) as (w2 & E2 & A2 & S2).
    { intros c Hc. apply (bounded_assigns_only mr w w1); [exact A1|].
      apply Hb. now apply list_elem_of_further. }
    exists w2. split; [|split].
    + cbn [map for_each]. now rewrite (bind_ret_eq _ _ _ _ _ E1).
    + etransitivity; eassumption.
    + intros c q Hc Hr. apply elem_of_cons in Hc as [-> | Hc].
      * apply (assigns_only_settled mr w1 w2 q A2). now apply S1.
      * apply (S2 c q Hc). now apply (reaches_assigns_only mr w w1).
Qed.

(** One call, given what the calls one frame deeper achieve. *)
Lemma set_mat_step (mr : nat) (m : Material) (depth : nat) (w : World)
    (p : nat) (o : Object) :
  set_mat_achieves mr m depth ->
  materials w !! mr = Some m ->
  objects w !! p = Some o ->
  (forall c, c ∈ children o -> bounded w depth c) ->
  exists w',
    set_mat (S depth) (PyObj p) (PyMat mr) true w = (Ret tt, w')
    /\ assigns_only mr w w'
    /\ (forall q, reaches w p q -> settled mr w' q).
Proof.
  intros IH Hm Ho Hc.
  rewrite set_mat_unfold.
  rewrite (bind_ret_eq (objects_verify (PyObj p)) _ w w (PyObj p) eq_refl).
  rewrite (bind_ret_eq _ _ _ _ _ (verify_ref mr true w)).
  rewrite (bind_ret_eq _ _ _ _ _ (hasattr_obj p o w Ho)).
  destruct (has_active_material o) eqn:Hhas.
  - rewrite (bind_ret_eq _ _ _ _ _ (attr_name_obj p o w Ho)).
    rewrite (bind_ret_eq _ _ _ _ _ (attr_name_mat mr m w Hm)).
    rewrite bind_log.
    rewrite (bind_ret_eq _ _ _ _ _ (set_active_material_obj p mr o w Ho)).
    set (w1 := set_objects (<[p := with_material mr o]> (objects w)) w).
    assert (A1 : assigns_only mr w w1) by now apply assigns_only_insert.
    assert (Ho1 : objects w1 !! p = Some (with_material mr o)).
    { unfold w1. simpl. apply list_lookup_insert_eq.
      now apply lookup_lt_Some in Ho. }
    rewrite (bind_ret_eq _ _ _ _ _ (get_children_obj p _ w1 Ho1)).
    destruct (with_material_shape mr o) as (_ & _ & _ & Hch).
    rewrite Hch.
    destruct (set_mat_children mr m depth (children o) IH w1)
      as (w2 & E2 & A2 & S2).
    { exact Hm. }
    { intros c Hin. apply (bounded_assigns_only mr w w1 depth c A1), Hc, Hin. }
    exists w2. split; [exact E2|]. split; [etransitivity; eassumption|].
    intros q Hr. inversion Hr as [p' Hs | p' c q' o' Ho' _ Hin Hr']; subst.
    + apply (assigns_only_settled mr w1 w2 q A2).
      exists (with_material mr o). split; [exact Ho1|].
      apply with_material_idem.
    + rewrite Ho in Ho'. injection Ho' as <-.
      apply (S2 c q Hin). now apply (reaches_assigns_only mr w w1).
  - exists w. split; [reflexivity|]. split; [reflexivity|].
    intros q Hr. inversion Hr as [p' Hs | p' c q' o' Ho' Hh _ _]; subst.
    + unfold has_slot in Hs. rewrite Ho in Hs. congruence.
    + rewrite Ho in Ho'. injection Ho' as <-. congruence.
Qed.

(** [set_mat] returns on every hierarchy within the recursion limit, and
    assigns the material to every object it reaches. *)
Lemma set_mat_run (mr : nat) (m : Material) (depth : nat) :
  set_mat_achieves mr m depth.
Proof.
  induction depth as [|d IH]; intros w p Hm Hb.
  - inversion Hb.
  - inversion Hb as [d' p' o Ho Hc]; subst.
    exact (set_mat_step mr m d w p o IH Hm Ho Hc).
Qed.

Lemma objects_verify_name_found (s : string) (p : nat) (w : World) :
  index_of_name obj_name s (objects w) = Some p ->
  objects_verify (PyStr s) w = (Ret (PyObj p), w).
Proof.
  intros H. unfold objects_verify, bind, objects_get. now rewrite H.
Qed.

(** [set_mat] takes names for the object and the material they resolve
    to. *)
Lemma set_mat_by_name (depth : nat) (s t : string) (p mr : nat)
    (recursive : bool) (w : World) :
  index_of_name obj_name s (objects w) = Some p ->
  index_of_name mat_name t (materials w) = Some mr ->
  set_mat depth (PyStr s) (PyStr t) recursive w
  = set_mat depth (PyObj p) (PyMat mr) recursive w.
Proof.
  intros Ho Hm. destruct depth as [|d]; [reflexivity|].
  rewrite !set_mat_unfold.
  rewrite (bind_ret_eq _ _ _ _ _ (objects_verify_name_found s p w Ho)).
  rewrite (bind_ret_eq _ _ _ _ _ (verify_name_found t mr true w Hm)).
  rewrite (bind_ret_eq (objects_verify (PyObj p)) _ w w (PyObj p) eq_refl).
  now rewrite (bind_ret_eq _ _ _ _ _ (verify_ref mr true w)).
Qed.

(** What [set_mat] leaves in an object that it reaches and whose data
    carries materials. *)
Lemma reached_active (mr : nat) (w w' : World) (q : nat) :
  assigns_only mr w w' -> settled mr w' q -> takes_materials w q = true ->
  active_of w' q = Some (Some mr).
Proof.
  intros A S T. apply settled_active; [exact S|].
  now apply (assigns_only_takes_materials mr w w').
Qed.

(** C8, as the code has it.  [set_mat(parent, M, recursive=True)], for a
    live material [M] and a parent whose hierarchy is a tree within the
    recursion limit: if the parent and each of its children have the
    attribute [active_material] and data that carries materials (a mesh, a
    curve, ...), the call returns normally, and afterwards the parent and
    every one of its children have [M] as active material.  So has every
    object further down that the recursion reaches (through objects that
    have the attribute) and whose data carries materials. *)
Theorem set_mat_recursive_assigns
    (depth parent mr : nat) (o : Object) (m : Material) (w : World) :
  bounded w depth parent ->
  materials w !! mr = Some m ->
  objects w !! parent = Some o ->
  has_active_material o = true ->
  data_has_materials o = true ->
  (forall c, c ∈ children o ->
     has_slot w c = true /\ takes_materials w c = true) ->
  exists w',
    set_mat depth (PyObj parent) (PyMat mr) true w = (Ret tt, w')
    /\ active_of w' parent = Some (Some mr)
    /\ (forall c, c ∈ children o -> active_of w' c = Some (Some mr))
    /\ (forall q,
          reaches w parent q -> takes_materials w q = true ->
          active_of w' q = Some (Some mr)).
Proof.
  intros Hb Hm Ho Hhas Hdata Hslots.
  destruct (set_mat_run mr m depth w parent Hm Hb) as (w' & E & A & S).
  exists w'. split; [exact E|]. split; [|split].
  - apply (reached_active mr w w' parent A).
    + apply S, reaches_here. unfold has_slot. now rewrite Ho.
    + unfold takes_materials. now rewrite Ho.
  - intros c Hin. destruct (Hslots c Hin) as [Hs Ht].
    apply (reached_active mr w w' c A); [|exact Ht].
    apply S, (reaches_child w parent c c o Ho Hhas Hin).
    now apply reaches_here.
  - intros q Hr Ht. apply (reached_active mr w w' q A); [|exact Ht].
    now apply S.
Qed.

Lemma family_bounded : bounded family_world 2 0.
Proof.
  eapply bounded_node; [reflexivity|].
  intros c Hc.
  assert (Hl : exists o, objects family_world !! c = Some o /\ children o = []).
  { simpl in Hc. apply elem_of_cons in Hc as [-> | Hc]; [eexists; split; reflexivity|].
    apply elem_of_cons in Hc as [-> | Hc]; [eexists; split; reflexivity|].
    now apply elem_of_nil in Hc. }
  destruct Hl as (oc & Hoc & Hch).
  eapply bounded_node; [exact Hoc|].
  intros c' Hc'. rewrite Hch in Hc'. now apply elem_of_nil in Hc'.
Qed.

Lemma rig_bounded : bounded rig_world 2 0.
Proof.
  eapply bounded_node; [reflexivity|].
  intros c Hc.
  assert (Hl : exists o, objects rig_world !! c = Some o /\ children o = []).
  { simpl in Hc. apply elem_of_cons in Hc as [-> | Hc]; [eexists; split; reflexivity|].
    apply elem_of_cons in Hc as [-> | Hc]; [eexists; split; reflexivity|].
    now apply elem_of_nil in Hc. }
  destruct Hl as (oc & Hoc & Hch).
  eapply bounded_node; [exact Hoc|].
  intros c' Hc'. rewrite Hch in Hc'. now apply elem_of_nil in Hc'.
Qed.

Lemma set_mat_recursive_assigns_witness :
  exists w',
    set_mat 2 (PyObj 0) (PyMat 0) true family_world = (Ret tt, w')
    /\ active_of w' 0 = Some (Some 0)
    /\ (forall c, c ∈ [1; 2] -> active_of w' c = Some (Some 0))
    /\ (forall q,
          reaches family_world 0 q -> takes_materials family_world q = true ->
          active_of w' q = Some (Some 0)).
Proof.
  apply (set_mat_recursive_assigns 2 0 0
           (mkObject "parent" true true None [] 0 [1; 2])
           (mkMaterial "M" false None) family_world).
  - exact family_bounded.
  - reflexivity.
  - reflexivity.
  - reflexivity.
  - reflexivity.
  - intros c Hc. simpl in Hc.
    apply elem_of_cons in Hc as [-> | Hc]; [split; reflexivity|].
    apply elem_of_cons in Hc as [-> | Hc]; [split; reflexivity|].
    now apply elem_of_nil in Hc.
Defined.

(** C8, as the claim has it, fails on an empty.  In [rig_world] the parent
    is an empty with two meshes as children; all three have the attribute
    [active_material], and the hierarchy is a tree of height two.
    [set_mat(rig, M, recursive=True)] returns and gives [M] to the two
    meshes, but the empty still has no active material: the host has dropped
    the assignment. *)
Lemma set_mat_keeps_empty_without_material :
  bounded rig_world 2 0
  /\ materials rig_world !! 0 = Some (mkMaterial "M" false None)
  /\ has_slot rig_world 0 = true
  /\ has_slot rig_world 1 = true
  /\ has_slot rig_world 2 = true
  /\ (children <$> objects rig_world !! 0) = Some [1; 2]
  /\ exists w',
       set_mat 2 (PyObj 0) (PyMat 0) true rig_world = (Ret tt, w')
       /\ active_of w' 0 = Some None
       /\ active_of w' 1 = Some (Some 0)
       /\ active_of w' 2 = Some (Some 0).
Proof.
  split; [exact rig_bounded|].
  repeat split. eexists. repeat split.
Qed.

(** ** Writing properties back *)

Lemma get_mat_props_principled (a b c : float) (reg : list (string * props)) :
  get_mat_props (PyMat 0) (principled_world a b c reg)
  = (Ret (VFloat a, VFloat b, VFloat c), principled_world a b c reg).
Proof. reflexivity. Qed.

(** [set_mat_props] adds the triple to the values the node has; the
    sockets keep the sums in single precision. *)
Lemma set_mat_props_principled (a b c x y z : float)
    (reg : list (string * props)) :
  set_mat_props (PyMat 0) (VFloat x, VFloat y, VFloat z)
    (principled_world a b c reg)
  = (Ret tt,
     principled_world (to_f32 (a + x)) (to_f32 (b + y)) (to_f32 (c + z)) reg).
Proof. reflexivity. Qed.

(** [restore_material_props] adds the snapshot to the values the node has. *)
Lemma restore_material_props_principled (a b c x y z : float) :
  restore_material_props (PyMat 0)
    (principled_world a b c [("m", (VFloat x, VFloat y, VFloat z))])
  = (Ret tt,
     principled_world (to_f32 (a + x)) (to_f32 (b + y)) (to_f32 (c + z))
       [("m", (VFloat x, VFloat y, VFloat z))]).
Proof. reflexivity. Qed.

(** C1, at a material jittered to (0.75, 0.25, 0.25) whose snapshot is
    (0.5, 0, 0.5): [restore_material_props] returns, and the material then
    reads (1.25, 0.25, 0.75), the sum of what it had and the snapshot, not
    the snapshot. *)
Theorem restore_material_props_adds_at_input :
  fst (restore_material_props (PyMat 0)
         (principled_world 0.75 0.25 0.25
            [("m", (VFloat 0.5, VFloat 0, VFloat 0.5))]))
  = Ret tt
  /\ fst (get_mat_props (PyMat 0)
            (snd (restore_material_props (PyMat 0)
                    (principled_world 0.75 0.25 0.25
                       [("m", (VFloat 0.5, VFloat 0, VFloat 0.5))]))))
     = Ret (VFloat 1.25, VFloat 0.25, VFloat 0.75).
Proof. split; reflexivity. Qed.

(** C2, at a material that reads (0.5, 0.25, 0.5): after
    [save_material_props] and then [restore_material_props], both of which
    return, it reads (1, 0.5, 1): every value has doubled. *)
Theorem save_then_restore_doubles_at_input :
  fst (save_material_props (PyMat 0) (principled_world 0.5 0.25 0.5 []))
  = Ret tt
  /\ fst (restore_material_props (PyMat 0)
            (snd (save_material_props (PyMat 0)
                    (principled_world 0.5 0.25 0.5 []))))
     = Ret tt
  /\ fst (get_mat_props (PyMat 0)
            (snd (restore_material_props (PyMat 0)
                    (snd (save_material_props (PyMat 0)
                            (principled_world 0.5 0.25 0.5 []))))))
     = Ret (VFloat 1, VFloat 0.5, VFloat 1).
Proof. repeat split; reflexivity. Qed.

(** C3, at a material that reads (0.5, 0.25, 0.5) and has no registry
    entry: [jitter] with [std = 0] and [save_first_time] returns twice; the
    material reads (1, 0.5, 1) after the first call and (3, 1.5, 3) after
    the second, while the registry holds the baseline (0.5, 0.25, 0.5). *)
Theorem jitter_zero_std_twice_at_input :
  fst (jitter (PyMat 0) 0 true (principled_world 0.5 0.25 0.5 [])) = Ret tt
  /\ fst (get_mat_props (PyMat 0)
            (snd (jitter (PyMat 0) 0 true (principled_world 0.5 0.25 0.5 []))))
     = Ret (VFloat 1, VFloat 0.5, VFloat 1)
  /\ fst (jitter (PyMat 0) 0 true
            (snd (jitter (PyMat 0) 0 true (principled_world 0.5 0.25 0.5 []))))
     = Ret tt
  /\ fst (get_mat_props (PyMat 0)
            (snd (jitter (PyMat 0) 0 true
                    (snd (jitter (PyMat 0) 0 true
                            (principled_world 0.5 0.25 0.5 []))))))
     = Ret (VFloat 3, VFloat 1.5, VFloat 3)
  /\ _SAVED_MATERIALS (snd (jitter (PyMat 0) 0 true
                   (snd (jitter (PyMat 0) 0 true
                           (principled_world 0.5 0.25 0.5 [])))))
     = [("m", (VFloat 0.5, VFloat 0.25, VFloat 0.5))].
Proof. repeat split; vm_compute; reflexivity. Qed.

(** ** Making a colour material twice *)

(** The first call, in a scene that has no material yet: the material gets
    the name that the host makes of [name]. *)
Lemma make_mat_from_color_fresh (str_tuple : list float -> string)
    (r g b : float) (name : string) (os : list Object) (e : string)
    (reg : list (string * props)) (z : nat -> float) (n : nat) :
  make_mat_from_color str_tuple [r; g; b] (Some name)
    (mkWorld [] os e reg z n)
  = (Ret (PyMat 0),
     mkWorld [mkMaterial (id_name name) true (Some (color_tree r g b))]
       os e reg z n).
Proof. reflexivity. Qed.

(** A call for the name of a colour material, for every name and every RGB
    colour: it raises, and the scene is as it was. *)
Lemma make_mat_from_color_again (str_tuple : list float -> string)
    (r g b : float) (name : string) (os : list Object) (e : string)
    (reg : list (string * props)) (z : nat -> float) (n : nat) :
  make_mat_from_color str_tuple [r; g; b] (Some name)
    (mkWorld [mkMaterial name true (Some (color_tree r g b))] os e reg z n)
  = (Raise remove_none_error,
     mkWorld [mkMaterial name true (Some (color_tree r g b))] os e reg z n).
Proof.
  unfold make_mat_from_color.
  erewrite bind_ret_eq; cycle 1.
  { unfold materials_get. cbn [materials index_of_name mat_name].
    rewrite String.eqb_refl. reflexivity. }
  reflexivity.
Qed.

(** C4, at [make_mat_from_color(color=(1,0,0), name="red")] in a scene
    without materials: the first call returns the new material, which is
    material 0; the second call finds that material by name, raises a type
    error at [nodes.remove(None)] because the first call removed the
    Principled BSDF node, and leaves the scene with the one material. *)
Theorem make_mat_from_color_twice_at_input (str_tuple : list float -> string) :
  fst (make_mat_from_color str_tuple [1; 0; 0]%float (Some "red") empty_world)
  = Ret (PyMat 0)
  /\ fst (make_mat_from_color str_tuple [1; 0; 0]%float (Some "red")
            (snd (make_mat_from_color str_tuple [1; 0; 0]%float (Some "red")
                    empty_world)))
     = Raise remove_none_error
  /\ length (materials
               (snd (make_mat_from_color str_tuple [1; 0; 0]%float (Some "red")
                       (snd (make_mat_from_color str_tuple [1; 0; 0]%float
                               (Some "red") empty_world)))))
     = 1.
Proof. repeat split; reflexivity. Qed.

(** * Further properties of the module *)

(** ** [verify] *)

(** The index that [index_of_name] gives is the first one with the name. *)
Lemma index_of_name_first {A : Type} (nm : A -> string) (name : string)
    (l : list A) (j : nat) :
  index_of_name nm name l = Some j ->
  forall i y, i < j -> l !! i = Some y -> nm y <> name.
Proof.
  revert j. induction l as [|x l IH]; intros j; simpl; [discriminate|].
  destruct (String.eqb_spec (nm x) name) as [E|E].
  - intros [= <-] i y Hi. lia.
  - destruct (index_of_name nm name l) as [j'|]; simpl; [|discriminate].
    intros [= <-] i y Hi. destruct i as [|i]; simpl.
    + now intros [= <-].
    + apply (IH j' eq_refl). lia.
Qed.

Lemma index_of_name_Some {A : Type} (nm : A -> string) (name : string)
    (l : list A) (j : nat) :
  index_of_name nm name l = Some j ->
  exists x, l !! j = Some x /\ nm x = name.
Proof.
  revert j. induction l as [|y l IH]; intros j; simpl; [discriminate|].
  destruct (String.eqb_spec (nm y) name) as [E|E].
  - intros [= <-]. now exists y.
  - destruct (index_of_name nm name l) as [j'|]; simpl; [|discriminate].
    intros [= <-]. now apply IH.
Qed.

(** X1. When [verify(mat)] (with [check_none]) returns, it has changed
    nothing.  For a name, what it returns is a reference to the material of
    that name, the first one in [bpy.data.materials]; anything else that is
    not [None] is handed back as it came, without a type check; and [None]
    never comes back. *)
Theorem verify_checked_result (mat v : pyval) (w w' : World) :
  verify mat true w = (Ret v, w') ->
  w' = w
  /\ v <> PyNone
  /\ (forall s,
        mat = PyStr s ->
        exists r m,
          v = PyMat r
          /\ materials w !! r = Some m
          /\ mat_name m = s
          /\ forall r' m',
               r' < r -> materials w !! r' = Some m' -> mat_name m' <> s)
  /\ ((forall s, mat <> PyStr s) -> v = mat).
Proof.
  unfold verify, bind, materials_get, ret.
  destruct mat as [|s|r|r]; simpl.
  - discriminate.
  - destruct (index_of_name mat_name s (materials w)) as [r|] eqn:E; simpl;
      [|discriminate].
    intros [= <- <-]. split; [reflexivity|]. split; [discriminate|]. split.
    + intros s' [= <-].
      destruct (index_of_name_Some _ _ _ _ E) as (m & Hm & Hs).
      exists r, m. repeat split; try assumption.
      intros r' m'. now apply (index_of_name_first _ _ _ _ E).
    + intros H. now destruct (H s).
  - intros [= <- <-]. repeat split; try discriminate.
  - intros [= <- <-]. repeat split; try discriminate.
Qed.

Lemma verify_checked_result_witness :
  principled_world 0.5 0.25 0.5 [] = principled_world 0.5 0.25 0.5 []
  /\ PyMat 0 <> PyNone
  /\ (forall s,
        PyStr "m" = PyStr s ->
        exists r m,
          PyMat 0 = PyMat r
          /\ materials (principled_world 0.5 0.25 0.5 []) !! r = Some m
          /\ mat_name m = s
          /\ forall r' m',
               r' < r ->
               materials (principled_world 0.5 0.25 0.5 []) !! r' = Some m' ->
               mat_name m' <> s)
  /\ ((forall s, PyStr "m" <> PyStr s) -> PyMat 0 = PyStr "m").
Proof.
  apply (verify_checked_result (PyStr "m") (PyMat 0)
           (principled_world 0.5 0.25 0.5 [])).
  reflexivity.
Defined.

(** X2. With [check_none=False], [verify] never raises and changes nothing;
    for a name that no material has, and for [None], it returns [None]. *)
Theorem verify_unchecked_returns (mat : pyval) (w : World) :
  exists v,
    verify mat false w = (Ret v, w)
    /\ (mat = PyNone -> v = PyNone)
    /\ (forall s,
          mat = PyStr s ->
          index_of_name mat_name s (materials w) = None -> v = PyNone).
Proof.
  unfold verify, bind, materials_get, ret.
  destruct mat as [|s|r|r]; simpl.
  - exists PyNone. repeat split; congruence.
  - destruct (index_of_name mat_name s (materials w)) as [r|] eqn:E; simpl.
    + exists (PyMat r). repeat split; [congruence|].
      intros s' [= <-]. congruence.
    + exists PyNone. repeat split; congruence.
  - exists (PyMat r). repeat split; congruence.
  - exists (PyObj r). repeat split; congruence.
Qed.

(** ** Reading properties *)

(** X3. [get_mat_props] only reads: for every argument, and whether it
    returns or raises, the world after is the world before. *)
Theorem get_mat_props_changes_nothing (mat : pyval) (w : World) :
  snd (get_mat_props mat w) = w.
Proof. symmetry. apply read_get_mat_props. Qed.

(** A material that never used nodes has no node tree: reading its
    properties fails on [mat.node_tree.nodes]. *)
Lemma nodes_get_no_tree (r : nat) (m : Material) (name : string) (w : World) :
  materials w !! r = Some m -> node_tree m = None ->
  nodes_get (PyMat r) name w = (Raise (AttributeError "NoneType" "nodes"), w).
Proof.
  intros H Ht. unfold nodes_get, tree_of, bind, as_material.
  rewrite H. simpl. now rewrite Ht.
Qed.

(** X4. For a material without a node tree, [get_mat_props] and
    [set_mat_props] raise the attribute error of [None.nodes] and change
    nothing; so does [jitter], for every [std] and either value of
    [save_first_time], and it then records no snapshot. *)
Theorem no_node_tree_raises
    (r : nat) (m : Material) (p : props) (std : float)
    (save_first_time : bool) (w : World) :
  materials w !! r = Some m ->
  node_tree m = None ->
  get_mat_props (PyMat r) w = (Raise (AttributeError "NoneType" "nodes"), w)
  /\ set_mat_props (PyMat r) p w
     = (Raise (AttributeError "NoneType" "nodes"), w)
  /\ jitter (PyMat r) std save_first_time w
     = (Raise (AttributeError "NoneType" "nodes"), w).
Proof.
  intros H Ht.
  assert (Hg : get_mat_props (PyMat r) w
               = (Raise (AttributeError "NoneType" "nodes"), w)).
  { unfold get_mat_props.
    rewrite (bind_ret_eq _ _ _ _ _ (verify_ref r true w)).
    now rewrite (bind_raise_eq _ _ _ _ _ (nodes_get_no_tree r m _ w H Ht)). }
  assert (Hs : forall q, set_mat_props (PyMat r) q w
                         = (Raise (AttributeError "NoneType" "nodes"), w)).
  { intros q. unfold set_mat_props.
    rewrite (bind_ret_eq _ _ _ _ _ (verify_ref r true w)).
    now rewrite (bind_raise_eq _ _ _ _ _ (nodes_get_no_tree r m _ w H Ht)). }
  split; [exact Hg|]. split; [apply Hs|].
  unfold jitter.
  rewrite (bind_ret_eq _ _ _ _ _ (verify_ref r true w)).
  destruct save_first_time.
  - erewrite bind_raise_eq; [reflexivity|].
    rewrite (bind_ret_eq _ _ _ _ _ (attr_name_mat r m w H)).
    rewrite bind_get_saved.
    destruct (dict_get (mat_name m) (_SAVED_MATERIALS w)) as [q|] eqn:Hd.
    + unfold restore_material_props.
      rewrite (bind_ret_eq _ _ _ _ _ (attr_name_mat r m w H)), bind_log.
      rewrite (bind_ret_eq _ _ _ _ _ (attr_name_mat r m w H)).
      rewrite bind_get_saved, Hd. apply Hs.
    + unfold save_material_props.
      rewrite (bind_ret_eq _ _ _ _ _ (attr_name_mat r m w H)), bind_log.
      now rewrite (bind_raise_eq _ _ _ _ _ Hg).
  - erewrite bind_ret_eq; [|reflexivity].
    rewrite (bind_ret_eq _ _ _ _ _ (attr_name_mat r m w H)), bind_log.
    now rewrite (bind_raise_eq _ _ _ _ _ Hg).
Qed.

Lemma no_node_tree_raises_witness :
  get_mat_props (PyMat 0) family_world
  = (Raise (AttributeError "NoneType" "nodes"), family_world)
  /\ set_mat_props (PyMat 0) zero_props family_world
     = (Raise (AttributeError "NoneType" "nodes"), family_world)
  /\ jitter (PyMat 0) 0.5 true family_world
     = (Raise (AttributeError "NoneType" "nodes"), family_world).
Proof.
  apply (no_node_tree_raises 0 (mkMaterial "M" false None) zero_props 0.5 true
           family_world); reflexivity.
Defined.

(** ** The registry *)

(** X5. [restore_material_props] on a material that has no snapshot raises
    the key error of [_SAVED_MATERIALS[mat.name]], with the material's name
    as key, and changes nothing. *)
Theorem restore_without_snapshot_raises (r : nat) (m : Material) (w : World) :
  materials w !! r = Some m ->
  dict_get (mat_name m) (_SAVED_MATERIALS w) = None ->
  restore_material_props (PyMat r) w = (Raise (KeyError (mat_name m)), w).
Proof.
  intros H Hd. unfold restore_material_props.
  rewrite (bind_ret_eq _ _ _ _ _ (attr_name_mat r m w H)), bind_log.
  rewrite (bind_ret_eq _ _ _ _ _ (attr_name_mat r m w H)).
  now rewrite bind_get_saved, Hd.
Qed.

Lemma restore_without_snapshot_raises_witness :
  restore_material_props (PyMat 0) (principled_world 0.5 0.25 0.5 [])
  = (Raise (KeyError "m"), principled_world 0.5 0.25 0.5 []).
Proof.
  apply (restore_without_snapshot_raises 0
           (mkMaterial "m" true (Some (principled_tree 0.5 0.25 0.5)))
           (principled_world 0.5 0.25 0.5 [])); reflexivity.
Defined.

(** [save_material_props] on a material whose properties can be read. *)
Lemma save_material_props_run (r : nat) (m : Material) (p : props) (w : World) :
  materials w !! r = Some m ->
  get_mat_props (PyMat r) w = (Ret p, w) ->
  save_material_props (PyMat r) w
  = (Ret tt, set_saved (dict_set (mat_name m) p (_SAVED_MATERIALS w)) w).
Proof.
  intros H Hp. unfold save_material_props.
  rewrite (bind_ret_eq _ _ _ _ _ (attr_name_mat r m w H)), bind_log.
  rewrite (bind_ret_eq _ _ _ _ _ Hp).
  now rewrite (bind_ret_eq _ _ _ _ _ (attr_name_mat r m w H)).
Qed.

(** X6. [save_material_props] on a material whose properties can be read
    returns, and then: the registry maps the material's name to the
    properties just read, whether or not it had an entry for that name; every
    other name maps to what it did; a name that was there keeps its place in
    the iteration order and a new one goes last; nothing but the registry has
    changed. *)
Theorem save_material_props_records
    (r : nat) (m : Material) (p : props) (w : World) :
  materials w !! r = Some m ->
  get_mat_props (PyMat r) w = (Ret p, w) ->
  exists d,
    save_material_props (PyMat r) w = (Ret tt, set_saved d w)
    /\ dict_get (mat_name m) d = Some p
    /\ (forall k, k <> mat_name m ->
        dict_get k d = dict_get k (_SAVED_MATERIALS w))
    /\ map fst d
       = match dict_get (mat_name m) (_SAVED_MATERIALS w) with
         | Some _ => map fst (_SAVED_MATERIALS w)
         | None => map fst (_SAVED_MATERIALS w) ++ [mat_name m]
         end.
Proof.
  intros H Hp. exists (dict_set (mat_name m) p (_SAVED_MATERIALS w)).
  split; [now apply save_material_props_run|]. split; [|split].
  - apply dict_get_set_eq.
  - intros k Hk. apply dict_get_set_ne. congruence.
  - apply dict_set_keys.
Qed.

Lemma save_material_props_records_witness :
  exists d,
    save_material_props (PyMat 0)
      (principled_world 0.5 0.25 0.5 [("m", zero_props)])
    = (Ret tt, set_saved d (principled_world 0.5 0.25 0.5 [("m", zero_props)]))
    /\ dict_get "m" d = Some (VFloat 0.5, VFloat 0.25, VFloat 0.5)
    /\ (forall k, k <> "m" -> dict_get k d = dict_get k [("m", zero_props)])
    /\ map fst d = ["m"].
Proof.
  apply (save_material_props_records 0
           (mkMaterial "m" true (Some (principled_tree 0.5 0.25 0.5)))
           (VFloat 0.5, VFloat 0.25, VFloat 0.5)
           (principled_world 0.5 0.25 0.5 [("m", zero_props)])); reflexivity.
Defined.

(** X7. [jitter] with [save_first_time=False] never touches the registry:
    for every argument, and whether it returns or raises, the registry after
    is the registry before. *)
Theorem jitter_without_saving_keeps_registry
    (mat : pyval) (std : float) (w : World) :
  _SAVED_MATERIALS (snd (jitter mat std false w)) = _SAVED_MATERIALS w.
Proof.
  assert (H : respects same_saved (jitter mat std false))
    by (unfold jitter; frame).
  apply H.
Qed.

#[local] Instance registry_only_preorder : PreOrder registry_only.
Proof.
  split.
  - intros w. exists (_SAVED_MATERIALS w). now destruct w.
  - intros w1 w2 w3 [d ->] [d' ->]. now exists d'.
Qed.

#[local] Instance scene_kept_preorder : PreOrder scene_kept.
Proof.
  split.
  - intros w. split; reflexivity.
  - intros w1 w2 w3 [H1 H2] [H3 H4]. split; congruence.
Qed.

Lemma frame_put_saved (d : list (string * props)) :
  respects registry_only (put_saved d).
Proof. intros w. now eexists. Qed.

Lemma respects_materials_only_scene {A : Type} (m : M A) :
  respects materials_only m -> respects scene_kept m.
Proof. intros H w. destruct (H w) as [ms ->]. split; reflexivity. Qed.

Lemma respects_rng_only_scene {A : Type} (m : M A) :
  respects rng_only m -> respects scene_kept m.
Proof. intros H w. destruct (H w) as [n ->]. split; reflexivity. Qed.

Lemma respects_registry_only_scene {A : Type} (m : M A) :
  respects registry_only m -> respects scene_kept m.
Proof. intros H w. destruct (H w) as [d ->]. split; reflexivity. Qed.

Lemma frame_save_material_props (mat : pyval) :
  respects registry_only (save_material_props mat).
Proof.
  unfold save_material_props. frame. apply frame_put_saved.
Qed.

#[local] Hint Resolve respects_materials_only_scene respects_rng_only_scene
  respects_registry_only_scene frame_save_material_props
  frame_restore_material_props frame_restore_all_material_props : frames.

(** X8. [jitter] stays within materials, the registry and the random
    generator: for every argument, and whether it returns or raises, the
    objects of the scene and the render engine are as before. *)
Theorem jitter_keeps_scene
    (mat : pyval) (std : float) (save_first_time : bool) (w : World) :
  objects (snd (jitter mat std save_first_time w)) = objects w
  /\ engine (snd (jitter mat std save_first_time w)) = engine w.
Proof.
  assert (H : respects scene_kept (jitter mat std save_first_time))
    by (unfold jitter; frame).
  apply H.
Qed.

(** ** [set_mat] *)

#[local] Instance objects_only_preorder : PreOrder objects_only.
Proof.
  split.
  - intros w. exists (objects w). now destruct w.
  - intros w1 w2 w3 [os ->] [os' ->]. now exists os'.
Qed.

Lemma frame_set_active_material (obj mat : pyval) :
  respects objects_only (set_active_material obj mat).
Proof.
  unfold set_active_material. frame_step; [frame|].
  destruct mat; try (apply respects_raise; typeclasses eauto);
    intros w; now eexists.
Qed.

#[local] Hint Resolve frame_set_active_material : frames.

Lemma frame_set_mat (depth : nat) (obj mat : pyval) (recursive : bool) :
  respects objects_only (set_mat depth obj mat recursive).
Proof.
  revert obj mat recursive.
  induction depth as [|d IH]; intros obj mat recursive.
  - apply respects_raise. typeclasses eauto.
  - rewrite set_mat_unfold. frame.
Qed.

(** X9. [set_mat] writes to objects and to nothing else: for every
    argument and every recursion limit, and whether it returns or raises,
    the materials, the registry and the render engine are as before. *)
Theorem set_mat_touches_objects_only
    (depth : nat) (obj mat : pyval) (recursive : bool) (w : World) :
  materials (snd (set_mat depth obj mat recursive w)) = materials w
  /\ _SAVED_MATERIALS (snd (set_mat depth obj mat recursive w))
     = _SAVED_MATERIALS w
  /\ engine (snd (set_mat depth obj mat recursive w)) = engine w.
Proof.
  destruct (frame_set_mat depth obj mat recursive w) as [os ->].
  repeat split.
Qed.

(** X10. An object without an active-material slot stops [set_mat]: the
    call returns and nothing has changed.  The children of such an object
    are not visited, whatever [recursive] is. *)
Theorem set_mat_skips_slotless
    (depth p mr : nat) (o : Object) (recursive : bool) (w : World) :
  objects w !! p = Some o ->
  has_active_material o = false ->
  set_mat (S depth) (PyObj p) (PyMat mr) recursive w = (Ret tt, w).
Proof.
  intros Ho Hhas. rewrite set_mat_unfold.
  rewrite (bind_ret_eq (objects_verify (PyObj p)) _ w w (PyObj p) eq_refl).
  rewrite (bind_ret_eq _ _ _ _ _ (verify_ref mr true w)).
  rewrite (bind_ret_eq _ _ _ _ _ (hasattr_obj p o w Ho)).
  now rewrite Hhas.
Qed.

Lemma set_mat_skips_slotless_witness :
  set_mat 5 (PyObj 0) (PyMat 0) true slotless_parent_world
  = (Ret tt, slotless_parent_world).
Proof.
  apply (set_mat_skips_slotless 4 0 0
           (mkObject "rig" false false None [] 0 [1]) true
           slotless_parent_world); reflexivity.
Defined.

(** X11. A material name that no material has: [set_mat] raises the value
    error of [verify] before it assigns anything, so nothing has changed. *)
Theorem set_mat_missing_material_raises
    (depth p : nat) (o : Object) (s : string) (recursive : bool) (w : World) :
  objects w !! p = Some o ->
  index_of_name mat_name s (materials w) = None ->
  set_mat (S depth) (PyObj p) (PyStr s) recursive w
  = (Raise (ValueError "Could not find material None."), w).
Proof.
  intros Ho Hs. rewrite set_mat_unfold.
  rewrite (bind_ret_eq (objects_verify (PyObj p)) _ w w (PyObj p) eq_refl).
  now rewrite (bind_raise_eq _ _ _ _ _ (verify_name_missing s w Hs)).
Qed.

Lemma set_mat_missing_material_raises_witness :
  set_mat 5 (PyObj 0) (PyStr "gold") true family_world
  = (Raise (ValueError "Could not find material None."), family_world).
Proof.
  apply (set_mat_missing_material_raises 4 0
           (mkObject "parent" true true None [] 0 [1; 2]) "gold" true
           family_world);
    reflexivity.
Defined.



Lemma reaches_assigns_only_inv (mr : nat) (w w' : World) (p q : nat) :
  assigns_only mr w w' -> reaches w' p q -> reaches w p q.
Proof.
  intros (os & -> & HF) Hr.
  induction Hr as [p Hs | p c q o' Ho' Hhas Hin _ IH].
  - apply reaches_here. unfold has_slot in *. simpl in Hs.
    destruct (os !! p) as [o'|] eqn:Ho'; [|discriminate].
    destruct (Forall2_lookup_r _ _ _ _ _ HF Ho') as (o & -> & Ha).
    destruct (assigned_shape mr o o' Ha) as (_ & Hh & _). congruence.
  - simpl in Ho'.
    destruct (Forall2_lookup_r _ _ _ _ _ HF Ho') as (o & Ho & Ha).
    destruct (assigned_shape mr o o' Ha) as (_ & Hh & _ & Hch).
    apply (reaches_child w p c q o Ho); [congruence | | exact IH].
    now rewrite <- Hch.
Qed.

Lemma set_objects_id (w : World) : set_objects (objects w) w = w.
Proof. now destruct w. Qed.

(** On a hierarchy whose reached objects have all been assigned the
    material already, [set_mat] returns and changes nothing. *)
Lemma set_mat_settled (mr : nat) (m : Material) (w : World) (depth : nat) :
  materials w !! mr = Some m ->
  forall p,
    bounded w depth p ->
    (forall q, reaches w p q -> settled mr w q) ->
    set_mat depth (PyObj p) (PyMat mr) true w = (Ret tt, w).
Proof.
  intros Hm. induction depth as [|d IH]; intros p Hb Hall.
  - inversion Hb.
  - inversion Hb as [d' p' o Ho Hc]; subst.
    rewrite set_mat_unfold.
    rewrite (bind_ret_eq (objects_verify (PyObj p)) _ w w (PyObj p) eq_refl).
    rewrite (bind_ret_eq _ _ _ _ _ (verify_ref mr true w)).
    rewrite (bind_ret_eq _ _ _ _ _ (hasattr_obj p o w Ho)).
    destruct (has_active_material o) eqn:Hhas; [|reflexivity].
    rewrite (bind_ret_eq _ _ _ _ _ (attr_name_obj p o w Ho)).
    rewrite (bind_ret_eq _ _ _ _ _ (attr_name_mat mr m w Hm)).
    rewrite bind_log.
    rewrite (bind_ret_eq _ _ _ _ _ (set_active_material_obj p mr o w Ho)).
    assert (Hp : with_material mr o = o).
    { assert (Hr : reaches w p p)
        by (apply reaches_here; unfold has_slot; now rewrite Ho).
      destruct (Hall p Hr) as (o' & Ho' & Hs). congruence. }
    rewrite Hp, (list_insert_id _ _ _ Ho), set_objects_id.
    rewrite (bind_ret_eq _ _ _ _ _ (get_children_obj p o w Ho)).
    assert (Hloop : forall cs,
               (forall c, c ∈ cs -> c ∈ children o) ->
               for_each (map PyObj cs)
                 (fun child => set_mat d child (PyMat mr) true) w
               = (Ret tt, w)).
    { induction cs as [|x cs IHcs]; intros Hsub; [reflexivity|].
      cbn [map for_each].
      assert (Hx : x ∈ children o) by (apply Hsub; apply list_elem_of_here).
      rewrite (bind_ret_eq _ _ w w tt); [apply IHcs|].
      - intros c Hin. apply Hsub. now apply list_elem_of_further.
      - apply IH; [now apply Hc|].
        intros q Hr. apply Hall.
        now apply (reaches_child w p x q o Ho Hhas Hx). }
    apply Hloop. auto.
Qed.

(** X13. [set_mat] is idempotent: on a hierarchy within the recursion
    limit and with a live material, a second call with the same arguments
    returns and leaves the world exactly as the first call left it. *)
Theorem set_mat_twice
    (depth p mr : nat) (m : Material) (w : World) :
  bounded w depth p ->
  materials w !! mr = Some m ->
  exists w',
    set_mat depth (PyObj p) (PyMat mr) true w = (Ret tt, w')
    /\ set_mat depth (PyObj p) (PyMat mr) true w' = (Ret tt, w').
Proof.
  intros Hb Hm.
  destruct (set_mat_run mr m depth w p Hm Hb) as (w' & E & A & S).
  exists w'. split; [exact E|].
  apply (set_mat_settled mr m w' depth).
  - now rewrite (assigns_only_materials mr w w' A).
  - now apply (bounded_assigns_only mr w w').
  - intros q Hr. apply S. now apply (reaches_assigns_only_inv mr w w').
Qed.

Lemma set_mat_twice_witness :
  exists w',
    set_mat 2 (PyObj 0) (PyMat 0) true family_world = (Ret tt, w')
    /\ set_mat 2 (PyObj 0) (PyMat 0) true w' = (Ret tt, w').
Proof.
  apply (set_mat_twice 2 0 0 (mkMaterial "M" false None) family_world).
  - exact family_bounded.
  - reflexivity.
Defined.

(** ** [make_aov_material_output_node] *)

Lemma style_in_valid (style : string) :
  style = "instance" \/ style = "category" ->
  style_in style valid_styles = true.
Proof. intros [-> | ->]; reflexivity. Qed.

Lemma as_object_obj (r : nat) (o : Object) (attr : string) (w : World) :
  objects w !! r = Some o -> as_object (PyObj r) attr w = (Ret (r, o), w).
Proof. intros H. unfold as_object. now rewrite H. Qed.

Lemma style_in_valid_inv (style : string) :
  style_in style valid_styles = true ->
  style = "instance" \/ style = "category".
Proof.
  unfold style_in, valid_styles. simpl.
  destruct (String.eqb_spec style "instance") as [->|_]; [now left|].
  destruct (String.eqb_spec style "category") as [->|_]; [now right|].
  discriminate.
Qed.

(** The assertion fails whatever the other arguments are. *)
Lemma make_aov_invalid_style (mat obj : pyval) (style : string) (w : World) :
  style_in style valid_styles = false ->
  make_aov_material_output_node mat obj style w
  = (Raise (AssertionError
              ("Invalid style " +:+ style +:+
               " for AOV material output node, must be in " +:+
               valid_styles_str +:+ ".")), w).
Proof.
  intros Hs. unfold make_aov_material_output_node.
  rewrite (bind_ret_eq get_engine _ w w (engine w) eq_refl).
  erewrite (bind_ret_eq _ _ w w tt).
  - now rewrite Hs.
  - now destruct (negb (engine w =? "CYCLES")%string).
Qed.

(** Past the engine check and the assertion, for a valid style. *)
Lemma make_aov_valid_style (mat obj : pyval) (style : string) (w : World) :
  style = "instance" \/ style = "category" ->
  make_aov_material_output_node mat obj style w
  = (let* all_mats :=
       (if negb (is_none mat) then ret (Some [mat])
        else if negb (is_none obj) then
          let* ro := as_object obj "active_material" in
          match active_material (snd ro) with
          | None =>
              log ("No active material found for " +:+ obj_name (snd ro)) >>
              ret None
          | Some am =>
              if Nat.ltb 1 (length (material_slots (snd ro)))
              then ret (Some (map slot_material (material_slots (snd ro))))
              else ret (Some [PyMat am])
          end
        else raise (ValueError "Must pass in an Object or Material")) in
     match all_mats with
     | None => ret tt
     | Some all_mats => for_each all_mats (aov_wire style)
     end) w.
Proof.
  intros Hs. apply style_in_valid in Hs.
  unfold make_aov_material_output_node.
  rewrite (bind_ret_eq get_engine _ w w (engine w) eq_refl).
  erewrite (bind_ret_eq _ _ w w tt).
  - now rewrite Hs.
  - now destruct (negb (engine w =? "CYCLES")%string).
Qed.

(** X14. With a valid style and neither a material nor an object,
    [make_aov_material_output_node] raises the value error
    'Must pass in an Object or Material' and changes nothing. *)
Theorem make_aov_needs_material_or_object (style : string) (w : World) :
  style = "instance" \/ style = "category" ->
  make_aov_material_output_node PyNone PyNone style w
  = (Raise (ValueError "Must pass in an Object or Material"), w).
Proof. intros Hs. now rewrite (make_aov_valid_style _ _ _ _ Hs). Qed.

Lemma make_aov_needs_material_or_object_witness :
  make_aov_material_output_node PyNone PyNone "category" empty_world
  = (Raise (ValueError "Must pass in an Object or Material"), empty_world).
Proof.
  apply (make_aov_needs_material_or_object "category" empty_world).
  now right.
Defined.

(** X15. Given an object that has no active material (and no material
    argument), [make_aov_material_output_node] returns without changing
    anything, whatever material slots the object has. *)
Theorem make_aov_object_without_material
    (r : nat) (o : Object) (style : string) (w : World) :
  style = "instance" \/ style = "category" ->
  objects w !! r = Some o ->
  active_material o = None ->
  make_aov_material_output_node PyNone (PyObj r) style w = (Ret tt, w).
Proof.
  intros Hs Ho Ham. rewrite (make_aov_valid_style _ _ _ _ Hs).
  cbn [is_none negb].
  erewrite (bind_ret_eq _ _ w w None); [reflexivity|].
  rewrite (bind_ret_eq _ _ _ _ _ (as_object_obj r o _ w Ho)).
  cbn [snd]. now rewrite Ham.
Qed.

Lemma make_aov_object_without_material_witness :
  make_aov_material_output_node PyNone (PyObj 1) "instance" family_world
  = (Ret tt, family_world).
Proof.
  apply (make_aov_object_without_material 1
           (mkObject "child1" true true None [] 0 [])
           "instance" family_world); [now left | reflexivity | reflexivity].
Defined.

(** X16. The material argument wins: when a material is passed, the object
    argument is never looked at, so the call does what it does without an
    object. *)
Theorem make_aov_material_takes_precedence
    (mat obj : pyval) (style : string) (w : World) :
  mat <> PyNone ->
  make_aov_material_output_node mat obj style w
  = make_aov_material_output_node mat PyNone style w.
Proof.
  intros Hm. unfold make_aov_material_output_node.
  destruct mat; [congruence | reflexivity | reflexivity | reflexivity].
Qed.

Lemma make_aov_material_takes_precedence_witness :
  make_aov_material_output_node (PyMat 0) (PyObj 0) "instance" family_world
  = make_aov_material_output_node (PyMat 0) PyNone "instance" family_world.
Proof.
  apply (make_aov_material_takes_precedence (PyMat 0) (PyObj 0) "instance"
           family_world).
  discriminate.
Defined.

(** X17. An object with an active material and at most one material slot
    is wired through its active material: the call does what it does when
    given that material instead of the object. *)
Theorem make_aov_object_single_slot
    (r am : nat) (o : Object) (style : string) (w : World) :
  objects w !! r = Some o ->
  active_material o = Some am ->
  length (material_slots o) <= 1 ->
  make_aov_material_output_node PyNone (PyObj r) style w
  = make_aov_material_output_node (PyMat am) PyNone style w.
Proof.
  intros Ho Ham Hlen.
  assert (Hl : Nat.ltb 1 (length (material_slots o)) = false)
    by (apply Nat.ltb_ge; exact Hlen).
  destruct (style_in style valid_styles) eqn:Hs.
  - apply style_in_valid_inv in Hs.
    rewrite !(make_aov_valid_style _ _ _ _ Hs).
    cbn [is_none negb].
    erewrite (bind_ret_eq _ _ w w (Some [PyMat am])); [reflexivity|].
    rewrite (bind_ret_eq _ _ _ _ _ (as_object_obj r o _ w Ho)).
    cbn [snd]. now rewrite Ham, Hl.
  - now rewrite !(make_aov_invalid_style _ _ _ _ Hs).
Qed.

Lemma make_aov_object_single_slot_witness :
  make_aov_material_output_node PyNone (PyObj 0) "instance" single_slot_world
  = make_aov_material_output_node (PyMat 0) PyNone "instance"
      single_slot_world.
Proof.
  apply (make_aov_object_single_slot 0 0
           (mkObject "cube" true true (Some 0) [Some 0] 0 []) "instance"
           single_slot_world); [reflexivity | reflexivity | simpl; lia].
Defined.

Lemma frame_set_use_nodes_true (mat : pyval) :
  respects materials_only (set_use_nodes_true mat).
Proof. unfold set_use_nodes_true. frame. Qed.

Lemma frame_nodes_new (mat : pyval) (type : string) :
  respects materials_only (nodes_new mat type).
Proof. unfold nodes_new. frame. Qed.

Lemma frame_nodes_remove (mat : pyval) (node : option NodeRef) :
  respects materials_only (nodes_remove mat node).
Proof. unfold nodes_remove, remove_none_error. frame. Qed.

Lemma frame_set_node_name (nr : NodeRef) (s : string) :
  respects materials_only (set_node_name nr s).
Proof. apply frame_update_node. Qed.

Lemma frame_set_layer_name (nr : NodeRef) (s : string) :
  respects materials_only (set_layer_name nr s).
Proof. apply frame_update_node. Qed.

Lemma frame_links_new (mat : pyval) (a b : SockRef) :
  respects materials_only (links_new mat a b).
Proof. unfold links_new. frame. Qed.

Lemma frame_materials_new (name : string) :
  respects materials_only (materials_new name).
Proof. intros w. now eexists. Qed.

#[local] Hint Resolve frame_set_use_nodes_true frame_nodes_new
  frame_nodes_remove frame_set_node_name frame_set_layer_name frame_links_new
  frame_materials_new : frames.

Lemma frame_aov_wire (style : string) (mat : pyval) :
  respects materials_only (aov_wire style mat).
Proof. unfold aov_wire. frame. Qed.

#[local] Hint Resolve frame_aov_wire : frames.

Lemma frame_make_aov (mat obj : pyval) (style : string) :
  respects materials_only (make_aov_material_output_node mat obj style).
Proof. unfold make_aov_material_output_node. frame. Qed.

(** X18. [make_aov_material_output_node] never changes the render engine:
    for every argument, and whether it returns or raises, the engine after
    is the engine before (the warning 'Setting render engine to CYCLES' is
    followed by a comparison, not by an assignment); the objects and the
    registry are as before too. *)
Theorem make_aov_keeps_engine
    (mat obj : pyval) (style : string) (w : World) :
  engine (snd (make_aov_material_output_node mat obj style w)) = engine w
  /\ objects (snd (make_aov_material_output_node mat obj style w))
     = objects w
  /\ _SAVED_MATERIALS (snd (make_aov_material_output_node mat obj style w))
     = _SAVED_MATERIALS w.
Proof.
  destruct (frame_make_aov mat obj style w) as [ms ->]. repeat split.
Qed.

Lemma frame_make_mat_from_color (str_tuple : list float -> string)
    (color : list float) (name : option string) :
  respects materials_only (make_mat_from_color str_tuple color name).
Proof. unfold make_mat_from_color. frame. Qed.

(** X19. [make_mat_from_color] writes to materials and to nothing else:
    for every argument, and whether it returns or raises, the objects, the
    render engine and the registry are as before. *)
Theorem make_mat_from_color_touches_materials_only
    (str_tuple : list float -> string) (color : list float)
    (name : option string) (w : World) :
  objects (snd (make_mat_from_color str_tuple color name w)) = objects w
  /\ engine (snd (make_mat_from_color str_tuple color name w)) = engine w
  /\ _SAVED_MATERIALS (snd (make_mat_from_color str_tuple color name w))
     = _SAVED_MATERIALS w.
Proof.
  destruct (frame_make_mat_from_color str_tuple color name w) as [ms ->].
  repeat split.
Qed.

(** ** Writing to the Principled BSDF *)

Lemma index_of_name_map {A : Type} (nm : A -> string) (g : A -> A)
    (name : string) (l : list A) :
  (forall x, nm (g x) = nm x) ->
  index_of_name nm name (map g l) = index_of_name nm name l.
Proof.
  intros Hg. induction l as [|y l IH]; simpl; [reflexivity|].
  now rewrite Hg, IH.
Qed.

Lemma index_of_name_insert {A : Type} (nm : A -> string) (name : string)
    (l : list A) (j : nat) (x y : A) :
  l !! j = Some x -> nm y = nm x ->
  index_of_name nm name (<[j := y]> l) = index_of_name nm name l.
Proof.
  revert j. induction l as [|z l IH]; intros j Hj Hy; [reflexivity|].
  destruct j as [|j]; simpl in *.
  - injection Hj as ->. now rewrite Hy.
  - now rewrite (IH j Hj Hy).
Qed.

(** Among nodes with distinct identities, the identity finds the node. *)
Lemma find_node_unique (t : NodeTree) (k : nat) (n : Node) :
  NoDup (map node_id (nodes t)) ->
  nodes t !! k = Some n ->
  find_node t (node_id n) = Some n.
Proof.
  unfold find_node. generalize (nodes t) as l. intros l. revert k.
  induction l as [|y l IH]; intros k Hnd Hk; [discriminate|].
  simpl. destruct (Nat.eqb_spec (node_id y) (node_id n)) as [E|E].
  - destruct k as [|k]; simpl in Hk; [congruence|].
    exfalso. apply NoDup_cons in Hnd as [Hnot _]. apply Hnot.
    rewrite E. apply list_elem_of_fmap. exists n. split; [reflexivity|].
    apply list_elem_of_lookup. now exists k.
  - destruct k as [|k]; simpl in Hk; [congruence|].
    apply NoDup_cons in Hnd as [_ Hnd]. now apply (IH k).
Qed.

Section Bsdf.
Context (w : World) (r : nat) (n : Node).
Hypothesis Hb : bsdf_of w r n.

Lemma bsdf_tree_of :
  exists t,
    tree_of (PyMat r) w = (Ret (r, t), w)
    /\ NoDup (map node_id (nodes t))
    /\ node_named "Principled BSDF" t = Some n
    /\ find_node t (node_id n) = Some n.
Proof.
  destruct Hb as (m & t & Hm & Ht & Hnd & Hn).
  exists t. split; [now apply (tree_of_mat r m)|].
  split; [exact Hnd|]. split; [exact Hn|].
  unfold node_named in Hn.
  destruct (index_of_name node_name "Principled BSDF" (nodes t)) as [k|];
    [|discriminate].
  now apply (find_node_unique t k).
Qed.

Lemma nodes_get_bsdf :
  nodes_get (PyMat r) "Principled BSDF" w
  = (Ret (Some (mkNodeRef r (node_id n))), w).
Proof.
  destruct bsdf_tree_of as (t & Ht & _ & Hn & _).
  unfold nodes_get. rewrite (bind_ret_eq _ _ _ _ _ Ht). cbn [fst snd].
  unfold node_named in Hn.
  destruct (index_of_name node_name "Principled BSDF" (nodes t)) as [k|];
    [|discriminate].
  now rewrite Hn.
Qed.

Lemma node_of_bsdf : node_of (mkNodeRef r (node_id n)) w = (Ret n, w).
Proof.
  destruct bsdf_tree_of as (t & Ht & _ & _ & Hf).
  unfold node_of. cbn [nr_mat nr_id].
  rewrite (bind_ret_eq _ _ _ _ _ Ht). cbn [fst snd]. now rewrite Hf.
Qed.

Lemma socket_by_key_bsdf (key : string) (j : nat) :
  index_of_name sock_name key (inputs n) = Some j ->
  socket_by_key (mkNodeRef r (node_id n)) false key w
  = (Ret (mkSockRef (mkNodeRef r (node_id n)) false j), w).
Proof.
  intros Hj. unfold socket_by_key.
  rewrite (bind_ret_eq _ _ _ _ _ node_of_bsdf). cbn [sockets_of].
  now rewrite Hj.
Qed.

Lemma socket_by_key_bsdf_missing (key : string) :
  index_of_name sock_name key (inputs n) = None ->
  socket_by_key (mkNodeRef r (node_id n)) false key w
  = (Raise (key_not_found key), w).
Proof.
  intros Hj. unfold socket_by_key.
  rewrite (bind_ret_eq _ _ _ _ _ node_of_bsdf). cbn [sockets_of].
  now rewrite Hj.
Qed.

Lemma get_default_value_bsdf (j : nat) (s : Socket) :
  inputs n !! j = Some s ->
  get_default_value (mkSockRef (mkNodeRef r (node_id n)) false j) w
  = (Ret (default_value s), w).
Proof.
  intros Hj. unfold get_default_value. cbn [sr_node sr_is_output sr_index].
  rewrite (bind_ret_eq _ _ _ _ _ node_of_bsdf). cbn [sockets_of].
  now rewrite Hj.
Qed.

(** Reading one input of the node through the API. *)
Lemma read_input_bsdf {B : Type} (key : string) (v : SockVal)
    (k : SockVal -> M B) :
  input_value key n = Some v ->
  (let* s := socket_by_key (mkNodeRef r (node_id n)) false key in
   let* x := get_default_value s in k x) w
  = k v w.
Proof.
  unfold input_value. intros Hv.
  destruct (index_of_name sock_name key (inputs n)) as [j|] eqn:Hj;
    [|discriminate].
  destruct (inputs n !! j) as [s|] eqn:Hs; [|discriminate].
  injection Hv as <-.
  rewrite (bind_ret_eq _ _ _ _ _ (socket_by_key_bsdf key j Hj)).
  now rewrite (bind_ret_eq _ _ _ _ _ (get_default_value_bsdf j s Hs)).
Qed.

(** [get_mat_props] reads the three inputs of the node. *)
Lemma get_mat_props_bsdf (a b c : SockVal) :
  input_value "Roughness" n = Some a ->
  input_value "Metallic" n = Some b ->
  input_value "Specular" n = Some c ->
  get_mat_props (PyMat r) w = (Ret (a, b, c), w).
Proof.
  intros Ha Hb' Hc. unfold get_mat_props.
  rewrite (bind_ret_eq _ _ _ _ _ (verify_ref r true w)).
  rewrite (bind_ret_eq _ _ _ _ _ nodes_get_bsdf).
  rewrite (read_input_bsdf "Roughness" a _ Ha).
  rewrite (read_input_bsdf "Metallic" b _ Hb').
  now rewrite (read_input_bsdf "Specular" c _ Hc).
Qed.

End Bsdf.

#[local] Instance only_material_preorder (r : nat) : PreOrder (only_material r).
Proof.
  split.
  - intros w. exists (materials w). split; [now destruct w|]. split; auto.
  - intros w1 w2 w3 (ms & -> & Hl & H) (ms' & -> & Hl' & H'). simpl in *.
    exists ms'. split; [reflexivity|]. split; [congruence|].
    intros r' Hr. rewrite (H' r' Hr). now apply H.
Qed.

(** Updating the Principled BSDF by a function that keeps identities and
    names: the node becomes its image, and no other material is touched. *)
Lemma update_node_bsdf (w : World) (r : nat) (n : Node) (f : Node -> Node) :
  bsdf_of w r n ->
  (forall x, node_id (f x) = node_id x) ->
  (forall x, node_name (f x) = node_name x) ->
  exists w',
    update_node (mkNodeRef r (node_id n)) f w = (Ret tt, w')
    /\ bsdf_of w' r (f n)
    /\ only_material r w w'.
Proof.
  intros Hb Hid Hname.
  destruct (bsdf_tree_of w r n Hb) as (t & Ht & Hnd & Hn & Hf).
  destruct Hb as (m & t0 & Hm & Ht0 & _ & _).
  assert (t0 = t) as ->.
  { rewrite (tree_of_mat r m t0 w Hm Ht0) in Ht. congruence. }
  set (g := fun x => if Nat.eqb (node_id x) (node_id n) then f x else x).
  assert (Hgid : forall x, node_id (g x) = node_id x).
  { intros x. unfold g. destruct (Nat.eqb _ _); auto. }
  assert (Hgname : forall x, node_name (g x) = node_name x).
  { intros x. unfold g. destruct (Nat.eqb _ _); auto. }
  set (t' := mkNodeTree (map g (nodes t)) (links t) (next_node_id t)).
  set (m' := mkMaterial (mat_name m) (use_nodes m) (Some t')).
  exists (set_materials (<[r := m']> (materials w)) w).
  split; [|split].
  - unfold update_node. cbn [nr_mat nr_id].
    rewrite (bind_ret_eq _ _ _ _ _ Ht). cbn [fst snd]. rewrite Hf.
    unfold set_tree. now rewrite Hm.
  - exists m', t'. split; [|split; [reflexivity|split]].
    + simpl. apply list_lookup_insert_eq. now apply lookup_lt_Some in Hm.
    + simpl. rewrite <- list_fmap_compose.
      erewrite list_fmap_ext; [exact Hnd|]. intros ? x _. apply Hgid.
    + unfold node_named in *. simpl.
      rewrite (index_of_name_map node_name g _ _ Hgname).
      destruct (index_of_name node_name "Principled BSDF" (nodes t)) as [k|];
        [|discriminate].
      rewrite list_lookup_fmap, Hn. simpl. unfold g.
      now rewrite Nat.eqb_refl.
  - eexists. split; [reflexivity|]. split; [apply length_insert|].
    intros r' Hr. apply list_lookup_insert_ne. congruence.
Qed.

Lemma set_socket_value_names (j : nat) (v : SockVal) (l : list Socket)
    (key : string) :
  index_of_name sock_name key (set_socket_value j v l)
  = index_of_name sock_name key l.
Proof.
  unfold set_socket_value. destruct (l !! j) as [s|] eqn:Hs; [|reflexivity].
  now apply (index_of_name_insert sock_name key l j s).
Qed.

(** The input that was written reads as the value written. *)
Lemma input_value_set_input_eq (key : string) (v v0 : SockVal) (n : Node) :
  input_value key n = Some v0 ->
  input_value key (set_input key v n) = Some v.
Proof.
  unfold input_value, set_input. intros H0.
  destruct (index_of_name sock_name key (inputs n)) as [j|] eqn:Hj;
    [|discriminate].
  cbn [inputs]. rewrite set_socket_value_names, Hj.
  unfold set_socket_value.
  destruct (inputs n !! j) as [s|] eqn:Hs; [|discriminate].
  rewrite list_lookup_insert_eq; [reflexivity|].
  now apply lookup_lt_Some in Hs.
Qed.

(** Every other input reads as before. *)
Lemma input_value_set_input_ne (key key' : string) (v : SockVal) (n : Node) :
  key <> key' ->
  input_value key' (set_input key v n) = input_value key' n.
Proof.
  unfold input_value, set_input. intros Hne.
  destruct (index_of_name sock_name key (inputs n)) as [j|] eqn:Hj;
    [|reflexivity].
  cbn [inputs]. rewrite set_socket_value_names.
  destruct (index_of_name sock_name key' (inputs n)) as [j'|] eqn:Hj';
    [|reflexivity].
  unfold set_socket_value.
  destruct (inputs n !! j) as [s|] eqn:Hs; [|reflexivity].
  rewrite list_lookup_insert_ne; [reflexivity|].
  intros ->.
  destruct (index_of_name_Some _ _ _ _ Hj) as (x & Hx & Hkx).
  destruct (index_of_name_Some _ _ _ _ Hj') as (x' & Hx' & Hkx').
  congruence.
Qed.

(** [node.inputs[key].default_value += x] on the Principled BSDF, when the
    input holds a float: it then holds the sum, in single precision. *)
Lemma iadd_default_value_bsdf (w : World) (r : nat) (n : Node)
    (key : string) (a x : float) :
  bsdf_of w r n ->
  input_value key n = Some (VFloat a) ->
  exists w',
    iadd_default_value (mkNodeRef r (node_id n)) key (VFloat x) w
    = (Ret tt, w')
    /\ bsdf_of w' r (set_input key (VFloat (to_f32 (a + x))) n)
    /\ only_material r w w'.
Proof.
  intros Hb Ha.
  assert (Hv := Ha). unfold input_value in Hv.
  destruct (index_of_name sock_name key (inputs n)) as [j|] eqn:Hj;
    [|discriminate].
  destruct (inputs n !! j) as [s|] eqn:Hs; [|discriminate].
  injection Hv as Hv.
  set (f := fun y =>
         mkNode (node_id y) (node_name y) (bl_idname y) (layer_name y)
           (set_socket_value j (VFloat (to_f32 (a + x))) (inputs y))
           (outputs y)).
  destruct (update_node_bsdf w r n f Hb) as (w' & E & Hb' & Hfr);
    [reflexivity | reflexivity |].
  exists w'. split; [|split; [|exact Hfr]].
  - unfold iadd_default_value.
    rewrite (bind_ret_eq _ _ _ _ _ (socket_by_key_bsdf w r n Hb key j Hj)).
    rewrite (bind_ret_eq _ _ _ _ _ (get_default_value_bsdf w r n Hb j s Hs)).
    rewrite Hv. cbn [py_add].
    rewrite (bind_ret_eq (ret (VFloat (a + x))) _ w w _ eq_refl).
    unfold set_default_value.
    rewrite (bind_ret_eq _ _ _ _ _ (get_default_value_bsdf w r n Hb j s Hs)).
    rewrite Hv. exact E.
  - unfold set_input. rewrite Hj. exact Hb'.
Qed.

Lemma get_mat_props_reads_as (w : World) (r : nat) (p : props) :
  reads_as w r p -> get_mat_props (PyMat r) w = (Ret p, w).
Proof.
  intros (n & Hb & Ha & Hb' & Hc). destruct p as [[a b] c].
  now apply (get_mat_props_bsdf w r n Hb).
Qed.

(** [reads_as] looks at materials only. *)
Lemma reads_as_materials (w1 w2 : World) (r : nat) (p : props) :
  materials w2 = materials w1 -> reads_as w1 r p -> reads_as w2 r p.
Proof.
  intros E (n & (m & t & Hm & Hrest) & Hv). exists n. split; [|exact Hv].
  exists m, t. now rewrite E.
Qed.

Lemma set_mat_props_reads_as (w : World) (r : nat) (a b c x y z : float) :
  reads_as w r (VFloat a, VFloat b, VFloat c) ->
  exists w',
    set_mat_props (PyMat r) (VFloat x, VFloat y, VFloat z) w = (Ret tt, w')
    /\ reads_as w' r
         (VFloat (to_f32 (a + x)), VFloat (to_f32 (b + y)),
          VFloat (to_f32 (c + z)))
    /\ only_material r w w'.
Proof.
  intros (n & Hb & Ha & Hb' & Hc). cbn [fst snd] in *.
  destruct (iadd_default_value_bsdf w r n "Roughness" a x Hb Ha)
    as (w1 & E1 & B1 & F1).
  set (n1 := set_input "Roughness" (VFloat (to_f32 (a + x))) n) in *.
  assert (Hb1 : input_value "Metallic" n1 = Some (VFloat b))
    by (unfold n1; now rewrite input_value_set_input_ne).
  destruct (iadd_default_value_bsdf w1 r n1 "Metallic" b y B1 Hb1)
    as (w2 & E2 & B2 & F2).
  set (n2 := set_input "Metallic" (VFloat (to_f32 (b + y))) n1) in *.
  assert (Hc2 : input_value "Specular" n2 = Some (VFloat c))
    by (unfold n2, n1; now rewrite !input_value_set_input_ne).
  destruct (iadd_default_value_bsdf w2 r n2 "Specular" c z B2 Hc2)
    as (w3 & E3 & B3 & F3).
  exists w3. split; [|split].
  - unfold set_mat_props.
    rewrite (bind_ret_eq _ _ _ _ _ (verify_ref r true w)).
    rewrite (bind_ret_eq _ _ _ _ _ (nodes_get_bsdf w r n Hb)).
    cbn [fst snd].
    assert (I1 : node_id n1 = node_id n).
    { unfold n1, set_input. now destruct (index_of_name _ _ _). }
    assert (I2 : node_id n2 = node_id n).
    { unfold n2, set_input. now destruct (index_of_name _ _ _). }
    rewrite I1 in E2. rewrite I2 in E3.
    rewrite (bind_ret_eq _ _ _ _ _ E1), (bind_ret_eq _ _ _ _ _ E2).
    exact E3.
  - exists (set_input "Specular" (VFloat (to_f32 (c + z))) n2).
    split; [exact B3|]. cbn [fst snd]. split; [|split].
    + rewrite input_value_set_input_ne by discriminate.
      unfold n2. rewrite input_value_set_input_ne by discriminate.
      unfold n1. now apply (input_value_set_input_eq _ _ (VFloat a)).
    + rewrite input_value_set_input_ne by discriminate.
      unfold n2. now apply (input_value_set_input_eq _ _ (VFloat b)).
    + now apply (input_value_set_input_eq _ _ (VFloat c)).
  - etransitivity; [exact F1|]. etransitivity; eassumption.
Qed.

(** X20. [set_mat_props] adds: on a material whose Principled BSDF holds
    the floats (a, b, c), [set_mat_props(mat, (x, y, z))] returns, after
    which [get_mat_props] returns the sums a + x, b + y and c + z as the
    sockets keep them, rounded to single precision; no other material and
    nothing outside the materials has changed. *)
Theorem set_mat_props_then_get (w : World) (r : nat) (a b c x y z : float) :
  reads_as w r (VFloat a, VFloat b, VFloat c) ->
  exists w',
    set_mat_props (PyMat r) (VFloat x, VFloat y, VFloat z) w = (Ret tt, w')
    /\ get_mat_props (PyMat r) w'
       = (Ret (VFloat (to_f32 (a + x)), VFloat (to_f32 (b + y)),
               VFloat (to_f32 (c + z))), w')
    /\ only_material r w w'.
Proof.
  intros H.
  destruct (set_mat_props_reads_as w r a b c x y z H) as (w' & E & R & F).
  exists w'. split; [exact E|]. split; [|exact F].
  now apply get_mat_props_reads_as.
Qed.

Lemma principled_world_reads_as (a b c : float) (reg : list (string * props)) :
  reads_as (principled_world a b c reg) 0 (VFloat a, VFloat b, VFloat c).
Proof.
  exists (mkNode 0 "Principled BSDF" "ShaderNodeBsdfPrincipled" ""
            (principled_inputs a b c) [mkSocket "BSDF" black]).
  split; [|repeat split; reflexivity].
  exists (mkMaterial "m" true (Some (principled_tree a b c))),
    (principled_tree a b c).
  split; [reflexivity|]. split; [reflexivity|]. split; [|reflexivity].
  simpl. apply NoDup_cons. split.
  - intros H. apply list_elem_of_singleton in H. discriminate.
  - apply NoDup_singleton.
Qed.

(** At (0.5, 0.25, 0.5) and (0.1, 0.5, 1): 0.5 + 0.1 is 0.6 in Python, and
    the socket reads 0.60000002384185791 afterwards. *)
Lemma set_mat_props_then_get_witness :
  exists w',
    set_mat_props (PyMat 0) (VFloat 0.1, VFloat 0.5, VFloat 1)
      (principled_world 0.5 0.25 0.5 [])
    = (Ret tt, w')
    /\ get_mat_props (PyMat 0) w'
       = (Ret (VFloat 0x1.333334p-1, VFloat 0.75, VFloat 1.5), w')
    /\ only_material 0 (principled_world 0.5 0.25 0.5 []) w'.
Proof.
  apply (set_mat_props_then_get (principled_world 0.5 0.25 0.5 []) 0
           0.5 0.25 0.5 0.1 0.5 1).
  apply principled_world_reads_as.
Defined.

Lemma reads_as_live (w : World) (r : nat) (p : props) :
  reads_as w r p -> exists m, materials w !! r = Some m.
Proof. intros (n & (m & t & Hm & _) & _). now exists m. Qed.

Lemma only_material_rng_pos (r : nat) (w w' : World) :
  only_material r w w' -> rng_pos w' = rng_pos w.
Proof. now intros (ms & -> & _). Qed.

Lemma only_material_registry (r : nat) (w w' : World) :
  only_material r w w' -> _SAVED_MATERIALS w' = _SAVED_MATERIALS w.
Proof. now intros (ms & -> & _). Qed.

(** The three draws of [jitter] on a triple of floats. *)
Lemma jitter_draws (std a b c : float) (w : World) {B : Type}
    (k : SockVal -> SockVal -> SockVal -> M B) :
  (let* j0 := jitter_one std (VFloat a) in
   let* j1 := jitter_one std (VFloat b) in
   let* j2 := jitter_one std (VFloat c) in
   k j0 j1 j2) w
  = k (VFloat (a + noise w std 0)) (VFloat (b + noise w std 1))
      (VFloat (c + noise w std 2)) (set_rng_pos (rng_pos w + 3) w).
Proof.
  unfold noise.
  replace (rng_pos w + 0) with (rng_pos w) by lia.
  replace (rng_pos w + 1) with (S (rng_pos w)) by lia.
  replace (rng_pos w + 2) with (S (S (rng_pos w))) by lia.
  replace (rng_pos w + 3) with (S (S (S (rng_pos w)))) by lia.
  reflexivity.
Qed.

(** What [jitter] does after the save-or-restore step, on a material whose
    Principled BSDF holds floats: each value [v] becomes [v + (v + noise)],
    in single precision, and three samples have been drawn. *)
Lemma jitter_tail_reads_as (w : World) (r : nat) (std a b c : float) :
  reads_as w r (VFloat a, VFloat b, VFloat c) ->
  exists w',
    (let* name := attr_name (PyMat r) in
     log ("Jittering material " +:+ name) >>
     let* mat_props := get_mat_props (PyMat r) in
     let* j0 := jitter_one std (fst (fst mat_props)) in
     let* j1 := jitter_one std (snd (fst mat_props)) in
     let* j2 := jitter_one std (snd mat_props) in
     set_mat_props (PyMat r) (j0, j1, j2)) w = (Ret tt, w')
    /\ reads_as w' r
         (VFloat (to_f32 (a + (a + noise w std 0))),
          VFloat (to_f32 (b + (b + noise w std 1))),
          VFloat (to_f32 (c + (c + noise w std 2))))
    /\ rng_pos w' = rng_pos w + 3
    /\ _SAVED_MATERIALS w' = _SAVED_MATERIALS w.
Proof.
  intros H. destruct (reads_as_live w r _ H) as [m Hm].
  rewrite (bind_ret_eq _ _ _ _ _ (attr_name_mat r m w Hm)), bind_log.
  rewrite (bind_ret_eq _ _ _ _ _ (get_mat_props_reads_as w r _ H)).
  cbn [fst snd].
  rewrite (jitter_draws std a b c w
             (fun j0 j1 j2 => set_mat_props (PyMat r) (j0, j1, j2))).
  set (w3 := set_rng_pos (rng_pos w + 3) w).
  assert (H3 : reads_as w3 r (VFloat a, VFloat b, VFloat c))
    by (apply (reads_as_materials w w3); [reflexivity | exact H]).
  destruct (set_mat_props_reads_as w3 r a b c
              (a + noise w std 0) (b + noise w std 1) (c + noise w std 2) H3)
    as (w' & E & R & F).
  exists w'. split; [exact E|]. split; [exact R|]. split.
  - now rewrite (only_material_rng_pos r w3 w' F).
  - now rewrite (only_material_registry r w3 w' F).
Qed.

(** X21. [jitter] without saving, on a material whose Principled BSDF
    holds the floats (a, b, c): it returns, it has drawn three samples, and
    each value [v] has become [v + (v + g)] rounded to single precision,
    where [g] is the draw of [random.gauss(0, std)] for that value; the
    registry is as before. *)
Theorem jitter_without_saving_values
    (w : World) (r : nat) (std a b c : float) :
  reads_as w r (VFloat a, VFloat b, VFloat c) ->
  exists w',
    jitter (PyMat r) std false w = (Ret tt, w')
    /\ get_mat_props (PyMat r) w'
       = (Ret (VFloat (to_f32 (a + (a + noise w std 0))),
               VFloat (to_f32 (b + (b + noise w std 1))),
               VFloat (to_f32 (c + (c + noise w std 2)))), w')
    /\ rng_pos w' = rng_pos w + 3
    /\ _SAVED_MATERIALS w' = _SAVED_MATERIALS w.
Proof.
  intros H.
  destruct (jitter_tail_reads_as w r std a b c H) as (w' & E & R & Hn & Hs).
  exists w'. split; [|split; [now apply get_mat_props_reads_as | now split]].
  unfold jitter.
  rewrite (bind_ret_eq _ _ _ _ _ (verify_ref r true w)).
  erewrite bind_ret_eq; [exact E | reflexivity].
Qed.

Lemma jitter_without_saving_values_witness :
  exists w',
    jitter (PyMat 0) 0.5 false snapshot_world = (Ret tt, w')
    /\ get_mat_props (PyMat 0) w'
       = (Ret (VFloat (to_f32 (1 + (1 + noise snapshot_world 0.5 0))),
               VFloat (to_f32 (0.5 + (0.5 + noise snapshot_world 0.5 1))),
               VFloat (to_f32 (1 + (1 + noise snapshot_world 0.5 2)))), w')
    /\ rng_pos w' = rng_pos snapshot_world + 3
    /\ _SAVED_MATERIALS w' = _SAVED_MATERIALS snapshot_world.
Proof.
  apply (jitter_without_saving_values snapshot_world 0).
  apply principled_world_reads_as.
Defined.

(** X22. The second and later [jitter] of a material with
    [save_first_time]: with a snapshot (x, y, z) in the registry and a
    Principled BSDF that holds (a, b, c), the snapshot is first added on,
    then each value [v] so obtained, which is the sum rounded to single
    precision, becomes [v + (v + g)], rounded again; the registry is as
    before. *)
Theorem jitter_with_snapshot_values
    (w : World) (r : nat) (m : Material) (std a b c x y z : float) :
  materials w !! r = Some m ->
  reads_as w r (VFloat a, VFloat b, VFloat c) ->
  dict_get (mat_name m) (_SAVED_MATERIALS w)
  = Some (VFloat x, VFloat y, VFloat z) ->
  exists w',
    jitter (PyMat r) std true w = (Ret tt, w')
    /\ get_mat_props (PyMat r) w'
       = (Ret (VFloat (to_f32 (to_f32 (a + x)
                               + (to_f32 (a + x) + noise w std 0))),
               VFloat (to_f32 (to_f32 (b + y)
                               + (to_f32 (b + y) + noise w std 1))),
               VFloat (to_f32 (to_f32 (c + z)
                               + (to_f32 (c + z) + noise w std 2)))), w')
    /\ _SAVED_MATERIALS w' = _SAVED_MATERIALS w.
Proof.
  intros Hm H Hd.
  destruct (set_mat_props_reads_as w r a b c x y z H) as (w1 & E1 & R1 & F1).
  destruct (jitter_tail_reads_as w1 r std _ _ _ R1) as (w' & E & R & _ & Hs).
  assert (Hnoise : forall i, noise w1 std i = noise w std i).
  { intros i. unfold noise. destruct F1 as (ms & -> & _). reflexivity. }
  rewrite !Hnoise in R.
  exists w'. split; [|split; [now apply get_mat_props_reads_as|]].
  - unfold jitter.
    rewrite (bind_ret_eq _ _ _ _ _ (verify_ref r true w)).
    erewrite bind_ret_eq; [exact E|].
    rewrite (bind_ret_eq _ _ _ _ _ (attr_name_mat r m w Hm)).
    rewrite bind_get_saved, Hd.
    unfold restore_material_props.
    rewrite (bind_ret_eq _ _ _ _ _ (attr_name_mat r m w Hm)), bind_log.
    rewrite (bind_ret_eq _ _ _ _ _ (attr_name_mat r m w Hm)).
    rewrite bind_get_saved, Hd. exact E1.
  - rewrite Hs. now apply (only_material_registry r w w1).
Qed.

Lemma jitter_with_snapshot_values_witness :
  exists w',
    jitter (PyMat 0) 0.5 true snapshot_world = (Ret tt, w')
    /\ get_mat_props (PyMat 0) w'
       = (Ret (VFloat (to_f32 (to_f32 (1 + 0.5)
                               + (to_f32 (1 + 0.5)
                                  + noise snapshot_world 0.5 0))),
               VFloat (to_f32 (to_f32 (0.5 + 0.25)
                               + (to_f32 (0.5 + 0.25)
                                  + noise snapshot_world 0.5 1))),
               VFloat (to_f32 (to_f32 (1 + 0.5)
                               + (to_f32 (1 + 0.5)
                                  + noise snapshot_world 0.5 2)))),
          w')
    /\ _SAVED_MATERIALS w' = _SAVED_MATERIALS snapshot_world.
Proof.
  apply (jitter_with_snapshot_values snapshot_world 0
           (mkMaterial "m" true (Some (principled_tree 1 0.5 1)))).
  - reflexivity.
  - apply principled_world_reads_as.
  - reflexivity.
Defined.

Lemma set_input_names (key k : string) (v : SockVal) (n : Node) :
  index_of_name sock_name k (inputs (set_input key v n))
  = index_of_name sock_name k (inputs n).
Proof.
  unfold set_input.
  destruct (index_of_name sock_name key (inputs n)); [|reflexivity].
  cbn [inputs]. apply set_socket_value_names.
Qed.

Lemma set_input_id (key : string) (v : SockVal) (n : Node) :
  node_id (set_input key v n) = node_id n.
Proof. unfold set_input. now destruct (index_of_name _ _ _). Qed.

(** X23. A Principled BSDF without an input named 'Specular' (its
    roughness and metallic inputs holding floats): [get_mat_props] raises
    the host's key error, whose message names the key 'Specular', and
    changes nothing; [set_mat_props] raises it too, but only after it has
    added to Roughness and to Metallic, which stay changed (to the sums, in
    single precision). *)
Theorem missing_specular_input
    (w : World) (r : nat) (n : Node) (a b x y : float) (z : SockVal) :
  bsdf_of w r n ->
  input_value "Roughness" n = Some (VFloat a) ->
  input_value "Metallic" n = Some (VFloat b) ->
  index_of_name sock_name "Specular" (inputs n) = None ->
  get_mat_props (PyMat r) w = (Raise (key_not_found "Specular"), w)
  /\ exists w' n',
       set_mat_props (PyMat r) (VFloat x, VFloat y, z) w
       = (Raise (key_not_found "Specular"), w')
       /\ bsdf_of w' r n'
       /\ input_value "Roughness" n' = Some (VFloat (to_f32 (a + x)))
       /\ input_value "Metallic" n' = Some (VFloat (to_f32 (b + y))).
Proof.
  intros Hb Ha Hm Hs. split.
  - unfold get_mat_props.
    rewrite (bind_ret_eq _ _ _ _ _ (verify_ref r true w)).
    rewrite (bind_ret_eq _ _ _ _ _ (nodes_get_bsdf w r n Hb)).
    rewrite (read_input_bsdf w r n Hb "Roughness" _ _ Ha).
    rewrite (read_input_bsdf w r n Hb "Metallic" _ _ Hm).
    now rewrite (bind_raise_eq _ _ _ _ _
                   (socket_by_key_bsdf_missing w r n Hb "Specular" Hs)).
  - destruct (iadd_default_value_bsdf w r n "Roughness" a x Hb Ha)
      as (w1 & E1 & B1 & _).
    set (n1 := set_input "Roughness" (VFloat (to_f32 (a + x))) n) in *.
    assert (Hm1 : input_value "Metallic" n1 = Some (VFloat b))
      by (unfold n1; now rewrite input_value_set_input_ne).
    destruct (iadd_default_value_bsdf w1 r n1 "Metallic" b y B1 Hm1)
      as (w2 & E2 & B2 & _).
    set (n2 := set_input "Metallic" (VFloat (to_f32 (b + y))) n1) in *.
    exists w2, n2. split; [|split; [exact B2|split]].
    + unfold set_mat_props.
      rewrite (bind_ret_eq _ _ _ _ _ (verify_ref r true w)).
      rewrite (bind_ret_eq _ _ _ _ _ (nodes_get_bsdf w r n Hb)).
      cbn [fst snd].
      assert (I1 : node_id n1 = node_id n) by apply set_input_id.
      assert (I2 : node_id n2 = node_id n)
        by (unfold n2; now rewrite set_input_id).
      rewrite I1 in E2.
      rewrite (bind_ret_eq _ _ _ _ _ E1), (bind_ret_eq _ _ _ _ _ E2).
      unfold iadd_default_value.
      erewrite bind_raise_eq; [reflexivity|].
      rewrite <- I2. apply (socket_by_key_bsdf_missing w2 r n2 B2).
      unfold n2, n1. now rewrite !set_input_names.
    + unfold n2. rewrite input_value_set_input_ne by discriminate.
      unfold n1. now apply (input_value_set_input_eq _ _ (VFloat a)).
    + unfold n2. now apply (input_value_set_input_eq _ _ (VFloat b)).
Qed.

Lemma missing_specular_input_witness :
  get_mat_props (PyMat 0) no_specular_world
  = (Raise (key_not_found "Specular"), no_specular_world)
  /\ exists w' n',
       set_mat_props (PyMat 0) (VFloat 0.25, VFloat 0.5, VFloat 1)
         no_specular_world
       = (Raise (key_not_found "Specular"), w')
       /\ bsdf_of w' 0 n'
       /\ input_value "Roughness" n' = Some (VFloat (to_f32 (0.5 + 0.25)))
       /\ input_value "Metallic" n' = Some (VFloat (to_f32 (0 + 0.5))).
Proof.
  apply (missing_specular_input no_specular_world 0
           (mkNode 0 "Principled BSDF" "ShaderNodeBsdfPrincipled" ""
              [mkSocket "Base Color" grey;
               mkSocket "Metallic" (VFloat 0);
               mkSocket "Roughness" (VFloat 0.5);
               mkSocket "Specular IOR Level" (VFloat 0.5)]
              [mkSocket "BSDF" black])).
  - eexists _, _. split; [reflexivity|]. split; [reflexivity|].
    split; [|reflexivity]. simpl. apply NoDup_singleton.
  - reflexivity.
  - reflexivity.
  - reflexivity.
Defined.

(** ** Making a colour material in a scene that has materials *)

Lemma bind_assoc {A B C : Type} (m : M A) (k1 : A -> M B) (k2 : B -> M C)
    (w : World) :
  bind (bind m k1) k2 w = bind m (fun a => bind (k1 a) k2) w.
Proof. unfold bind. now destruct (m w) as [[a|e] w']. Qed.

Lemma bind_ret_l {A B : Type} (a : A) (k : A -> M B) (w : World) :
  bind (ret a) k w = k a w.
Proof. reflexivity. Qed.

Lemma bind_raise_l {A B : Type} (e : exn) (k : A -> M B) (w : World) :
  bind (raise e) k w = (Raise e, w).
Proof. reflexivity. Qed.

Section Focus.
Context (ms1 ms2 : list Material) (w : World).

Lemma focus_lookup (x : Material) :
  materials (focus ms1 x ms2 w) !! length ms1 = Some x.
Proof.
  unfold focus. simpl. rewrite lookup_app_r by lia.
  now rewrite Nat.sub_diag.
Qed.

Lemma focus_insert (x y : Material) :
  set_materials (<[length ms1 := y]> (materials (focus ms1 x ms2 w)))
    (focus ms1 x ms2 w)
  = focus ms1 y ms2 w.
Proof.
  unfold focus, set_materials. simpl. f_equal.
  rewrite insert_app_r_alt by lia. now rewrite Nat.sub_diag.
Qed.

Lemma bind_as_material_focus {B : Type} (x : Material) (attr : string)
    (k : nat * Material -> M B) :
  bind (as_material (PyMat (length ms1)) attr) k (focus ms1 x ms2 w)
  = k (length ms1, x) (focus ms1 x ms2 w).
Proof.
  apply bind_ret_eq. unfold as_material. now rewrite focus_lookup.
Qed.

Lemma bind_set_material_focus {B : Type} (x y : Material) (k : unit -> M B) :
  bind (set_material (length ms1) y) k (focus ms1 x ms2 w)
  = k tt (focus ms1 y ms2 w).
Proof.
  apply bind_ret_eq. unfold set_material. now rewrite focus_insert.
Qed.

Lemma bind_set_tree_focus {B : Type} (x : Material) (t : NodeTree)
    (k : unit -> M B) :
  bind (set_tree (length ms1) t) k (focus ms1 x ms2 w)
  = k tt (focus ms1 (mkMaterial (mat_name x) (use_nodes x) (Some t)) ms2 w).
Proof.
  apply bind_ret_eq. unfold set_tree. rewrite focus_lookup.
  now rewrite focus_insert.
Qed.

End Focus.

Lemma name_taken_index {A : Type} (nm : A -> string) (name : string)
    (l : list A) :
  index_of_name nm name l = None -> name_taken (map nm l) name = false.
Proof.
  unfold name_taken. induction l as [|y l IH]; simpl; [reflexivity|].
  destruct (String.eqb_spec (nm y) name) as [E|E]; [discriminate|].
  destruct (index_of_name nm name l); [discriminate|]. intros _.
  rewrite IH by reflexivity.
  destruct (String.eqb_spec name (nm y)); [congruence | reflexivity].
Qed.

Lemma index_of_name_app_first {A : Type} (nm : A -> string) (name : string)
    (l1 l2 : list A) (x : A) :
  index_of_name nm name l1 = None -> nm x = name ->
  index_of_name nm name (l1 ++ x :: l2) = Some (length l1).
Proof.
  intros H Hx. induction l1 as [|y l1 IH]; simpl in *.
  - now rewrite Hx, String.eqb_refl.
  - destruct (String.eqb (nm y) name); [discriminate|].
    destruct (index_of_name nm name l1); [discriminate|].
    now rewrite IH.
Qed.

(** Running the host calls of a computation on the material in focus. *)
Ltac focus_step :=
  first
    [ rewrite bind_assoc
    | rewrite bind_ret_l
    | rewrite bind_raise_l
    | rewrite bind_log
    | rewrite bind_as_material_focus
    | rewrite bind_set_material_focus
    | rewrite bind_set_tree_focus
    | progress cbn -[focus bind as_material set_material set_tree]
    | progress lazy beta iota zeta delta [decide decide_rel not_dec
                                          Nat.eq_dec nat_rec nat_rect
                                          and_dec f_equal_nat f_equal eq_ind_r
                                          eq_ind eq_sym O_S not_eq_S
                                          Init.Nat.pred String.append] ].

Ltac focus_run :=
  unfold set_use_nodes_true, nodes_get, nodes_remove, nodes_new,
    socket_by_key, socket_by_index, set_default_value, get_default_value,
    write_default_value, links_new, update_node, node_of, tree_of;
  repeat focus_step.

(** An ASCII string is cut after [room] bytes. *)
Lemma utf8_cut_ascii_prefix (s : string) (room : nat) :
  is_ascii s = true -> utf8_cut room 0 s = String.substring 0 room s.
Proof.
  revert room. induction s as [|c s IH]; intros room Ha.
  - now destruct room.
  - cbn [is_ascii] in Ha. apply andb_true_iff in Ha as [Hc Ha].
    assert (Hs : utf8_size c = 1).
    { unfold utf8_size. apply Nat.ltb_lt in Hc.
      now rewrite (proj2 (Nat.ltb_lt _ 192)) by lia. }
    cbn [utf8_cut]. rewrite Hs. destruct room as [|room]; [reflexivity|].
    cbn [Nat.leb Nat.sub String.substring].
    rewrite Nat.sub_0_r. now rewrite IH.
Qed.

(** An ASCII string that fits is not cut. *)
Lemma utf8_cut_ascii (s : string) (room : nat) :
  is_ascii s = true -> String.length s <= room -> utf8_cut room 0 s = s.
Proof.
  revert room. induction s as [|c s IH]; intros room Ha Hl; [reflexivity|].
  cbn [is_ascii] in Ha. apply andb_true_iff in Ha as [Hc Ha].
  cbn [String.length] in Hl. cbn [utf8_cut].
  assert (Hs : utf8_size c = 1).
  { unfold utf8_size. apply Nat.ltb_lt in Hc.
    now rewrite (proj2 (Nat.ltb_lt _ 192)) by lia. }
  rewrite Hs. rewrite (proj2 (Nat.leb_le 1 room)) by lia.
  cbn [Nat.sub]. rewrite IH by (exact Ha || lia). reflexivity.
Qed.

(** The host keeps a name that is not empty, is in ASCII and has 63 bytes at
    most, when no material has it. *)
Lemma new_material_name_kept (name : string) (w : World) :
  index_of_name mat_name name (materials w) = None ->
  name <> "" -> is_ascii name = true -> String.length name <= 63 ->
  new_material_name w name = name.
Proof.
  intros Hn Hne Ha Hl. unfold new_material_name, id_name.
  destruct (String.eqb_spec name "") as [E|_]; [contradiction|].
  rewrite (utf8_cut_ascii name 63 Ha Hl). unfold unique_id_name.
  now rewrite (name_taken_index mat_name name _ Hn).
Qed.

(** A material asked for without a name is called 'Material', when no
    material has that name. *)
Lemma new_material_name_empty (w : World) :
  index_of_name mat_name "Material" (materials w) = None ->
  new_material_name w "" = "Material".
Proof.
  intros Hn. unfold new_material_name, id_name, unique_id_name.
  cbn [String.eqb]. now rewrite (name_taken_index mat_name "Material" _ Hn).
Qed.

(** Of a longer name in ASCII the host keeps the first 63 bytes, when no
    material has that name. *)
Lemma new_material_name_cut (name : string) (w : World) :
  is_ascii name = true -> 63 < String.length name ->
  index_of_name mat_name (String.substring 0 63 name) (materials w) = None ->
  new_material_name w name = String.substring 0 63 name.
Proof.
  intros Ha Hl Hn. unfold new_material_name, id_name.
  destruct (String.eqb_spec name "") as [E|_].
  { subst name. simpl in Hl. lia. }
  rewrite (utf8_cut_ascii_prefix name 63 Ha). unfold unique_id_name.
  now rewrite (name_taken_index mat_name _ _ Hn).
Qed.

(** The first call, for a name that no material of the scene has: the
    material gets the name that the host makes of it. *)
Lemma make_mat_from_color_new (str_tuple : list float -> string)
    (r g b : float) (name : string) (w : World) :
  index_of_name mat_name name (materials w) = None ->
  make_mat_from_color str_tuple [r; g; b] (Some name) w
  = (Ret (PyMat (length (materials w))),
     focus (materials w)
       (mkMaterial (new_material_name w name) true (Some (color_tree r g b)))
       [] w).
Proof.
  intros Hn. unfold make_mat_from_color.
  erewrite bind_ret_eq; cycle 1.
  { unfold materials_get. now rewrite Hn. }
  cbn [is_none]. rewrite bind_assoc, bind_log.
  erewrite bind_ret_eq; cycle 1.
  { unfold materials_new. reflexivity. }
  change (set_materials
            (materials w ++ [mkMaterial (new_material_name w name) false None])
            w)
    with (focus (materials w)
            (mkMaterial (new_material_name w name) false None) [] w).
  generalize (new_material_name w name) as name'. intros name'.
  generalize (materials w) as ms. intros ms.
  focus_run. reflexivity.
Qed.

(** A call for the name of a material that is there, at the first material
    of that name. *)
Lemma make_mat_from_color_found (str_tuple : list float -> string)
    (color : list float) (name : string) (ms1 ms2 : list Material)
    (x : Material) (w : World) :
  index_of_name mat_name name ms1 = None ->
  mat_name x = name ->
  make_mat_from_color str_tuple color (Some name) (focus ms1 x ms2 w)
  = (let mat := PyMat (length ms1) in
     set_use_nodes_true mat >>
     let* bsdf_node := nodes_get mat "Principled BSDF" in
     let* out_node := nodes_get mat "Material Output" in
     nodes_remove mat bsdf_node >>
     let* bsdf_node := nodes_new mat "ShaderNodeBsdfDiffuse" in
     let* c := socket_by_key bsdf_node false "Color" in
     set_default_value c (VColor (color ++ [1%float])) >>
     match out_node with
     | None => raise (AttributeError "NoneType" "inputs")
     | Some out_node =>
         let* i := socket_by_index out_node false 0 in
         let* o := socket_by_index bsdf_node true 0 in
         links_new mat i o >>
         ret mat
     end) (focus ms1 x ms2 w).
Proof.
  intros Hn Hx. unfold make_mat_from_color.
  erewrite bind_ret_eq; cycle 1.
  { unfold materials_get, focus. simpl.
    now rewrite (index_of_name_app_first mat_name name ms1 ms2 x Hn Hx). }
  cbn [is_none]. now rewrite bind_ret_l.
Qed.

(** A material with the default tree is converted in place. *)
Lemma make_mat_from_color_convert (str_tuple : list float -> string)
    (r g b a1 a2 a3 : float) (name : string) (u : bool)
    (ms1 ms2 : list Material) (w : World) :
  index_of_name mat_name name ms1 = None ->
  make_mat_from_color str_tuple [r; g; b] (Some name)
    (focus ms1 (mkMaterial name u (Some (principled_tree a1 a2 a3))) ms2 w)
  = (Ret (PyMat (length ms1)),
     focus ms1 (mkMaterial name true (Some (color_tree r g b))) ms2 w).
Proof.
  intros Hn. rewrite make_mat_from_color_found by (exact Hn || reflexivity).
  cbv zeta. focus_run. reflexivity.
Qed.

(** A colour material is refused. *)
Lemma make_mat_from_color_refused (str_tuple : list float -> string)
    (color : list float) (r g b : float) (name : string) (u : bool)
    (ms1 ms2 : list Material) (w : World) :
  index_of_name mat_name name ms1 = None ->
  make_mat_from_color str_tuple color (Some name)
    (focus ms1 (mkMaterial name u (Some (color_tree r g b))) ms2 w)
  = (Raise remove_none_error,
     focus ms1 (mkMaterial name true (Some (color_tree r g b))) ms2 w).
Proof.
  intros Hn. rewrite make_mat_from_color_found by (exact Hn || reflexivity).
  cbv zeta. focus_run. reflexivity.
Qed.

Lemma set_materials_id (w : World) : set_materials (materials w) w = w.
Proof. now destruct w. Qed.

Lemma focus_of_materials (ms1 ms2 : list Material) (x : Material) (w : World) :
  materials w = ms1 ++ x :: ms2 -> focus ms1 x ms2 w = w.
Proof. intros E. unfold focus. rewrite <- E. apply set_materials_id. Qed.

(** X24. [make_mat_from_color] with a name that no material has and an
    RGB colour: it returns a reference to a new material, which is appended
    to the materials; that material uses nodes, and its tree is a Diffuse
    BSDF of the colour (as the socket keeps it, alpha 1) wired to the
    Material Output; every material that was there, and everything that is
    not a material, is as before.  The name of the material is the host's to
    give: it is the name asked for when that is not empty, is in ASCII and
    has 63 bytes at most; a material asked for without a name is called
    'Material', and of a longer name in ASCII the first 63 bytes are kept,
    when no material has that name yet. *)
Theorem make_mat_from_color_creates
    (str_tuple : list float -> string) (r g b : float) (name : string)
    (w : World) :
  index_of_name mat_name name (materials w) = None ->
  exists name',
    make_mat_from_color str_tuple [r; g; b] (Some name) w
    = (Ret (PyMat (length (materials w))),
       set_materials
         (materials w ++ [mkMaterial name' true (Some (color_tree r g b))]) w)
    /\ (name <> "" -> is_ascii name = true -> String.length name <= 63 ->
        name' = name)
    /\ (name = "" ->
        index_of_name mat_name "Material" (materials w) = None ->
        name' = "Material")
    /\ (is_ascii name = true -> 63 < String.length name ->
        index_of_name mat_name (String.substring 0 63 name) (materials w)
        = None ->
        name' = String.substring 0 63 name).
Proof.
  intros Hn. exists (new_material_name w name).
  split; [now apply make_mat_from_color_new|]. split; [|split].
  - now apply new_material_name_kept.
  - intros ->. apply new_material_name_empty.
  - apply new_material_name_cut.
Qed.

Lemma make_mat_from_color_creates_witness :
  exists name',
    make_mat_from_color (fun _ => "(1, 0, 0)") [1; 0; 0]%float (Some "red")
      snapshot_world
    = (Ret (PyMat 1),
       set_materials
         (materials snapshot_world
          ++ [mkMaterial name' true (Some (color_tree 1 0 0))])
         snapshot_world)
    /\ name' = "red".
Proof.
  destruct (make_mat_from_color_creates (fun _ => "(1, 0, 0)") 1 0 0 "red"
              snapshot_world eq_refl) as (name' & E & K & _).
  exists name'. split; [exact E|].
  apply K; [discriminate | reflexivity | simpl; lia].
Defined.

(** Asked for a material without a name, in a scene without materials,
    [make_mat_from_color] makes the material 'Material'. *)
Lemma make_mat_from_color_nameless (str_tuple : list float -> string)
    (r g b : float) :
  make_mat_from_color str_tuple [r; g; b] (Some "") empty_world
  = (Ret (PyMat 0),
     set_materials [mkMaterial "Material" true (Some (color_tree r g b))]
       empty_world).
Proof. reflexivity. Qed.

(** X25. [make_mat_from_color] with the name of a material that has the
    default tree (a Principled BSDF wired to the Material Output): the
    material is converted in place.  The call returns a reference to that
    very material, no material is added, its tree becomes the Diffuse BSDF
    of the colour wired to the Material Output, and every other material
    is as before. *)
Theorem make_mat_from_color_reuses
    (str_tuple : list float -> string) (r g b a1 a2 a3 : float)
    (name : string) (u : bool) (ms1 ms2 : list Material) (w : World) :
  materials w
  = ms1 ++ mkMaterial name u (Some (principled_tree a1 a2 a3)) :: ms2 ->
  index_of_name mat_name name ms1 = None ->
  make_mat_from_color str_tuple [r; g; b] (Some name) w
  = (Ret (PyMat (length ms1)),
     set_materials
       (ms1 ++ mkMaterial name true (Some (color_tree r g b)) :: ms2) w).
Proof.
  intros E Hn. rewrite <- (focus_of_materials ms1 ms2 _ w E) at 1.
  rewrite (make_mat_from_color_convert str_tuple r g b a1 a2 a3 name u
             ms1 ms2 w Hn).
  reflexivity.
Qed.

Lemma make_mat_from_color_reuses_witness :
  make_mat_from_color (fun _ => "(1, 0, 0)") [1; 0; 0]%float (Some "m")
    snapshot_world
  = (Ret (PyMat 0),
     set_materials [mkMaterial "m" true (Some (color_tree 1 0 0))]
       snapshot_world).
Proof.
  apply (make_mat_from_color_reuses (fun _ => "(1, 0, 0)") 1 0 0 1 0.5 1 "m"
           true [] [] snapshot_world); reflexivity.
Defined.

(** X26. [make_mat_from_color] with the name of a material that it has
    made before (one that uses nodes and whose tree is a Diffuse BSDF wired
    to the Material Output), whatever the colour now asked for: the call
    raises the type error of [nodes.remove(None)], and the scene is exactly
    as it was. *)
Theorem make_mat_from_color_refuses_colour_material
    (str_tuple : list float -> string) (color : list float) (r g b : float)
    (name : string) (ms1 ms2 : list Material) (w : World) :
  materials w
  = ms1 ++ mkMaterial name true (Some (color_tree r g b)) :: ms2 ->
  index_of_name mat_name name ms1 = None ->
  make_mat_from_color str_tuple color (Some name) w
  = (Raise remove_none_error, w).
Proof.
  intros E Hn. rewrite <- (focus_of_materials ms1 ms2 _ w E).
  apply (make_mat_from_color_refused str_tuple color r g b name true
           ms1 ms2 w Hn).
Qed.

Lemma make_mat_from_color_refuses_colour_material_witness :
  make_mat_from_color (fun _ => "(0, 1, 0)") [0; 1; 0]%float (Some "red")
    (mkWorld [mkMaterial "red" true (Some (color_tree 1 0 0))] []
       "CYCLES" [] (fun _ => 0%float) 0)
  = (Raise remove_none_error,
     mkWorld [mkMaterial "red" true (Some (color_tree 1 0 0))] []
       "CYCLES" [] (fun _ => 0%float) 0).
Proof.
  apply (make_mat_from_color_refuses_colour_material (fun _ => "(0, 1, 0)")
           [0; 1; 0]%float 1 0 0 "red" [] []); reflexivity.
Defined.

(** X27. A material fresh from [make_mat_from_color] has no Principled
    BSDF: [get_mat_props] on it returns the zero triple, and [jitter] on it
    returns and leaves every material as it is. *)
Theorem colour_material_is_inert
    (str_tuple : list float -> string) (r g b std : float) (name : string)
    (save_first_time : bool) (w : World) :
  index_of_name mat_name name (materials w) = None ->
  exists mat w',
    make_mat_from_color str_tuple [r; g; b] (Some name) w = (Ret mat, w')
    /\ get_mat_props mat w' = (Ret (VFloat 0, VFloat 0, VFloat 0), w')
    /\ fst (jitter mat std save_first_time w') = Ret tt
    /\ materials (snd (jitter mat std save_first_time w')) = materials w'.
Proof.
  intros Hn.
  set (x := mkMaterial (new_material_name w name) true
              (Some (color_tree r g b))).
  exists (PyMat (length (materials w))), (focus (materials w) x [] w).
  split; [now apply make_mat_from_color_new|].
  assert (Hx : materials (focus (materials w) x [] w) !! length (materials w)
               = Some x) by apply focus_lookup.
  split.
  - now apply (get_mat_props_no_bsdf _ x (color_tree r g b)).
  - destruct (jitter_no_bsdf (length (materials w)) x (color_tree r g b)
                eq_refl eq_refl std save_first_time _ Hx) as (w2 & E & Hm).
    rewrite E. split; [reflexivity | exact Hm].
Qed.

Lemma colour_material_is_inert_witness :
  exists mat w',
    make_mat_from_color (fun _ => "(1, 0, 0)") [1; 0; 0]%float (Some "red")
      snapshot_world = (Ret mat, w')
    /\ get_mat_props mat w' = (Ret (VFloat 0, VFloat 0, VFloat 0), w')
    /\ fst (jitter mat 0.5 true w') = Ret tt
    /\ materials (snd (jitter mat 0.5 true w')) = materials w'.
Proof.
  apply (colour_material_is_inert (fun _ => "(1, 0, 0)") 1 0 0 0.5 "red" true
           snapshot_world).
  reflexivity.
Defined.

(** ** Saving twice *)

(** What a reader returns is decided by the materials and the objects. *)
Definition scene_reader {A : Type} (m : M A) : Prop :=
  respects eq m
  /\ forall w1 w2,
       materials w1 = materials w2 -> objects w1 = objects w2 ->
       fst (m w1) = fst (m w2).

Lemma scene_reader_ret {A : Type} (a : A) : scene_reader (ret a).
Proof. split; [intros w; reflexivity | reflexivity]. Qed.

Lemma scene_reader_raise {A : Type} (e : exn) : scene_reader (@raise A e).
Proof. split; [intros w; reflexivity | reflexivity]. Qed.

Lemma scene_reader_bind {A B : Type} (m : M A) (k : A -> M B) :
  scene_reader m -> (forall a, scene_reader (k a)) -> scene_reader (bind m k).
Proof.
  intros [Hr Hd] Hk. split.
  - apply respects_bind; [typeclasses eauto | exact Hr |].
    intros a. apply Hk.
  - intros w1 w2 Hm Ho. unfold bind.
    specialize (Hd w1 w2 Hm Ho).
    pose proof (Hr w1) as E1. pose proof (Hr w2) as E2.
    destruct (m w1) as [o1 w1'], (m w2) as [o2 w2']. simpl in *. subst.
    destruct o2 as [a|e]; [|reflexivity].
    now apply (Hk a).
Qed.

Ltac reader_step :=
  lazymatch goal with
  | |- scene_reader (bind _ _) => apply scene_reader_bind; [| intros ?]
  | |- scene_reader (ret _) => apply scene_reader_ret
  | |- scene_reader (raise _) => apply scene_reader_raise
  | |- scene_reader (log _) => apply scene_reader_ret
  | |- scene_reader (match ?x with _ => _ end) => destruct x
  end.

Create HintDb readers.

Ltac reader :=
  repeat (first [assumption | reader_step | solve [eauto with readers]]).

Lemma scene_reader_as_material (v : pyval) (attr : string) :
  scene_reader (as_material v attr).
Proof.
  split; [apply read_as_material|].
  intros w1 w2 Hm Ho. unfold as_material. destruct v; try reflexivity.
  rewrite Hm. now destruct (materials w2 !! r).
Qed.

Lemma scene_reader_as_object (v : pyval) (attr : string) :
  scene_reader (as_object v attr).
Proof.
  split; [apply read_as_object|].
  intros w1 w2 Hm Ho. unfold as_object. destruct v; try reflexivity.
  rewrite Ho. now destruct (objects w2 !! r).
Qed.

Lemma scene_reader_materials_get (name : string) :
  scene_reader (materials_get name).
Proof.
  split; [apply read_materials_get|].
  intros w1 w2 Hm Ho. unfold materials_get. rewrite Hm.
  now destruct (index_of_name mat_name name (materials w2)).
Qed.

#[local] Hint Resolve scene_reader_as_material scene_reader_as_object
  scene_reader_materials_get : readers.

Lemma scene_reader_verify (mat : pyval) (check_none : bool) :
  scene_reader (verify mat check_none).
Proof.
  split; [apply read_verify|].
  intros w1 w2 Hm Ho. unfold verify, bind, materials_get, ret.
  destruct mat as [|s|r|r]; simpl.
  - now destruct check_none.
  - rewrite Hm.
    destruct (index_of_name mat_name s (materials w2)); simpl;
      [now rewrite andb_false_r | now destruct check_none].
  - now rewrite andb_false_r.
  - now rewrite andb_false_r.
Qed.

Lemma scene_reader_attr_name (v : pyval) : scene_reader (attr_name v).
Proof. unfold attr_name. destruct v; reader. Qed.

Lemma scene_reader_tree_of (mat : pyval) : scene_reader (tree_of mat).
Proof. unfold tree_of. reader. Qed.

#[local] Hint Resolve scene_reader_verify scene_reader_attr_name
  scene_reader_tree_of : readers.

Lemma scene_reader_nodes_get (mat : pyval) (name : string) :
  scene_reader (nodes_get mat name).
Proof. unfold nodes_get. reader. Qed.

Lemma scene_reader_node_of (nr : NodeRef) : scene_reader (node_of nr).
Proof. unfold node_of. reader. Qed.

#[local] Hint Resolve scene_reader_nodes_get scene_reader_node_of : readers.

Lemma scene_reader_socket_by_key (nr : NodeRef) (o : bool) (key : string) :
  scene_reader (socket_by_key nr o key).
Proof. unfold socket_by_key. reader. Qed.

Lemma scene_reader_get_default_value (sr : SockRef) :
  scene_reader (get_default_value sr).
Proof. unfold get_default_value. reader. Qed.

#[local] Hint Resolve scene_reader_socket_by_key
  scene_reader_get_default_value : readers.

(** What [get_mat_props] returns is decided by the materials and the
    objects: the registry, the engine and the random generator play no
    part. *)
Lemma scene_reader_get_mat_props (mat : pyval) :
  scene_reader (get_mat_props mat).
Proof. unfold get_mat_props. reader. Qed.

Lemma dict_set_twice {V : Type} (k : string) (v : V) (d : list (string * V)) :
  dict_set k v (dict_set k v d) = dict_set k v d.
Proof.
  induction d as [|[k0 v0] d IH]; simpl.
  - now rewrite String.eqb_refl.
  - destruct (String.eqb k0 k) eqn:E; simpl; rewrite E; [reflexivity|].
    now rewrite IH.
Qed.

(** X28. [save_material_props] is idempotent: for every argument, a second
    call right after the first leaves the world exactly as the first call
    left it (and when the first call raises, so does the second). *)
Theorem save_material_props_twice (mat : pyval) (w : World) :
  save_material_props mat (snd (save_material_props mat w))
  = (fst (save_material_props mat w), snd (save_material_props mat w)).
Proof.
  destruct (save_material_props_registry mat w)
    as [E | (name & p & En & Ep & E)].
  - assert (Hw : snd (save_material_props mat w) = w).
    { destruct (frame_save_material_props mat w) as [d Hd].
      rewrite Hd in E |- *. simpl in E. rewrite E.
      unfold set_saved. now destruct w. }
    destruct (save_material_props mat w) as [o w'] eqn:Es.
    simpl in Hw |- *. subst w'. exact Es.
  - rewrite E. cbn [fst snd].
    set (w1 := set_saved (dict_set name p (_SAVED_MATERIALS w)) w).
    assert (En1 : attr_name mat w1 = (Ret name, w1)).
    { pose proof (proj2 (scene_reader_attr_name mat) w1 w eq_refl eq_refl)
        as Hf.
      pose proof (read_attr_name mat w1) as Hs.
      rewrite En in Hf. destruct (attr_name mat w1) as [o w']. simpl in *.
      now subst. }
    assert (Ep1 : get_mat_props mat w1 = (Ret p, w1)).
    { pose proof (proj2 (scene_reader_get_mat_props mat) w1 w eq_refl eq_refl)
        as Hf.
      pose proof (read_get_mat_props mat w1) as Hs.
      rewrite Ep in Hf. destruct (get_mat_props mat w1) as [o w']. simpl in *.
      now subst. }
    unfold save_material_props.
    rewrite (bind_ret_eq _ _ _ _ _ En1), bind_log.
    rewrite (bind_ret_eq _ _ _ _ _ Ep1), (bind_ret_eq _ _ _ _ _ En1).
    rewrite bind_get_saved. unfold put_saved, w1, set_saved. simpl.
    now rewrite dict_set_twice.
Qed.

(** ** Restoring after a material has gone *)

#[local] Instance names_kept_preorder : PreOrder names_kept.
Proof.
  split.
  - intros w. reflexivity.
  - intros w1 w2 w3 H1 H2. unfold names_kept in *. congruence.
Qed.

Lemma names_set_tree (r : nat) (t : NodeTree) :
  respects names_kept (set_tree r t).
Proof.
  intros w. unfold set_tree, names_kept.
  destruct (materials w !! r) as [m|] eqn:Hm; [|reflexivity].
  simpl. rewrite list_fmap_insert. simpl.
  apply list_insert_id. now rewrite list_lookup_fmap, Hm.
Qed.

#[local] Hint Resolve names_set_tree : frames.

Lemma names_update_node (nr : NodeRef) (f : Node -> Node) :
  respects names_kept (update_node nr f).
Proof. unfold update_node. frame. Qed.

#[local] Hint Resolve names_update_node : frames.

Lemma names_set_default_value (sr : SockRef) (v : SockVal) :
  respects names_kept (set_default_value sr v).
Proof. unfold set_default_value, write_default_value. frame. Qed.

#[local] Hint Resolve names_set_default_value : frames.

Lemma names_iadd_default_value (node : NodeRef) (key : string) (p : SockVal) :
  respects names_kept (iadd_default_value node key p).
Proof. unfold iadd_default_value. frame. Qed.

#[local] Hint Resolve names_iadd_default_value : frames.

(** [set_mat_props] renames no material. *)
Lemma names_set_mat_props (mat : pyval) (p : props) :
  respects names_kept (set_mat_props mat p).
Proof. unfold set_mat_props. frame. Qed.

Lemma index_of_name_names {A : Type} (nm : A -> string) (name : string)
    (l1 l2 : list A) :
  map nm l1 = map nm l2 ->
  index_of_name nm name l1 = index_of_name nm name l2.
Proof.
  revert l2. induction l1 as [|x l1 IH]; intros [|y l2]; simpl;
    try discriminate; [reflexivity|].
  intros [= Hx Hl]. now rewrite Hx, (IH l2 Hl).
Qed.

(** The loop of [restore_all_material_props] over entries of which one
    names no material. *)
Lemma restore_loop_stale (k : string) (l : list (string * props)) :
  k ∈ map fst l ->
  forall w,
    index_of_name mat_name k (materials w) = None ->
    exists e,
      fst (for_each l (fun kv => set_mat_props (PyStr (fst kv)) (snd kv)) w)
      = Raise e.
Proof.
  induction l as [|[k0 v0] l IH]; intros Hin w Hk.
  - now apply elem_of_nil in Hin.
  - cbn [for_each fst snd]. unfold bind.
    pose proof (names_set_mat_props (PyStr k0) v0 w) as Hn.
    destruct (set_mat_props (PyStr k0) v0 w) as [[[]|e] w1] eqn:E;
      [|now exists e].
    simpl in Hin. apply elem_of_cons in Hin as [<- | Hin].
    + exfalso. unfold set_mat_props in E.
      rewrite (bind_raise_eq _ _ _ _ _ (verify_name_missing k w Hk)) in E.
      discriminate.
    + apply (IH Hin). simpl in Hn. unfold names_kept in Hn.
      now rewrite (index_of_name_names mat_name k _ _ Hn).
Qed.

(** X29. Once the registry holds a name that no material has (the
    material was removed or renamed after its first jitter),
    [restore_all_material_props] cannot return: it raises, and whatever it
    restored before reaching the failing entry stays restored; the registry
    itself is as before. *)
Theorem restore_all_with_stale_entry (k : string) (w : World) :
  k ∈ map fst (_SAVED_MATERIALS w) ->
  index_of_name mat_name k (materials w) = None ->
  (exists e, fst (restore_all_material_props w) = Raise e)
  /\ _SAVED_MATERIALS (snd (restore_all_material_props w))
     = _SAVED_MATERIALS w.
Proof.
  intros Hin Hk. split.
  - unfold restore_all_material_props. rewrite bind_get_saved.
    now apply (restore_loop_stale k).
  - apply materials_only_saved, frame_restore_all_material_props.
Qed.

Lemma restore_all_with_stale_entry_witness :
  (exists e,
     fst (restore_all_material_props
            (mkWorld [] [] "CYCLES" [("gone", zero_props)]
               (fun _ => 0%float) 0))
     = Raise e)
  /\ _SAVED_MATERIALS
       (snd (restore_all_material_props
               (mkWorld [] [] "CYCLES" [("gone", zero_props)]
                  (fun _ => 0%float) 0)))
     = [("gone", zero_props)].
Proof.
  apply (restore_all_with_stale_entry "gone"
           (mkWorld [] [] "CYCLES" [("gone", zero_props)] (fun _ => 0%float) 0)).
  - simpl. apply list_elem_of_here.
  - reflexivity.
Defined.

(** ** Wiring the AOV output *)

Ltac aov_run :=
  cbn [is_none negb]; rewrite bind_ret_l; cbn [for_each];
  unfold aov_wire, get_use_nodes, set_layer_name, set_node_name,
    last_node_named;
  focus_run; reflexivity.

(** The first wiring of a material that has the default tree. *)
Lemma make_aov_first (a b c : float) (name style : string) (u : bool)
    (ms1 ms2 : list Material) (obj : pyval) (w : World) :
  style = "instance" \/ style = "category" ->
  make_aov_material_output_node (PyMat (length ms1)) obj style
    (focus ms1 (mkMaterial name u (Some (principled_tree a b c))) ms2 w)
  = (Ret tt,
     focus ms1 (mkMaterial name true (Some (aov_tree a b c style))) ms2 w).
Proof.
  intros Hs. rewrite (make_aov_valid_style _ _ _ _ Hs).
  destruct u; destruct Hs as [-> | ->]; aov_run.
Qed.

(** Wiring again reuses the two nodes and the link. *)
Lemma make_aov_again (a b c : float) (name style : string)
    (ms1 ms2 : list Material) (obj : pyval) (w : World) :
  style = "instance" \/ style = "category" ->
  make_aov_material_output_node (PyMat (length ms1)) obj style
    (focus ms1 (mkMaterial name true (Some (aov_tree a b c style))) ms2 w)
  = (Ret tt,
     focus ms1 (mkMaterial name true (Some (aov_tree a b c style))) ms2 w).
Proof.
  intros Hs. rewrite (make_aov_valid_style _ _ _ _ Hs).
  destruct Hs as [-> | ->]; aov_run.
Qed.

(** X30. [make_aov_material_output_node] creates or reuses: on a material
    that has the default tree, the first call with a valid style adds a
    Vertex Color node (named '<style> Vertex Color', reading the layer
    [style]) and an AOV Output node (named [style]) and links them, touching
    no other material; a second call with the same style finds both nodes
    and leaves the scene exactly as the first call left it. *)
Theorem make_aov_wires_once
    (a b c : float) (name style : string) (u : bool)
    (ms1 ms2 : list Material) (obj : pyval) (w : World) :
  style = "instance" \/ style = "category" ->
  materials w
  = ms1 ++ mkMaterial name u (Some (principled_tree a b c)) :: ms2 ->
  exists w',
    make_aov_material_output_node (PyMat (length ms1)) obj style w
    = (Ret tt, w')
    /\ w' = set_materials
              (ms1 ++ mkMaterial name true (Some (aov_tree a b c style)) :: ms2)
              w
    /\ make_aov_material_output_node (PyMat (length ms1)) obj style w'
       = (Ret tt, w').
Proof.
  intros Hs E. eexists. split; [|split; [reflexivity|]].
  - rewrite <- (focus_of_materials ms1 ms2 _ w E) at 1.
    apply (make_aov_first a b c name style u ms1 ms2 obj w Hs).
  - apply (make_aov_again a b c name style ms1 ms2 obj w Hs).
Qed.

Lemma make_aov_wires_once_witness :
  exists w',
    make_aov_material_output_node (PyMat 0) PyNone "category" snapshot_world
    = (Ret tt, w')
    /\ w' = set_materials
              [mkMaterial "m" true (Some (aov_tree 1 0.5 1 "category"))]
              snapshot_world
    /\ make_aov_material_output_node (PyMat 0) PyNone "category" w'
       = (Ret tt, w').
Proof.
  apply (make_aov_wires_once 1 0.5 1 "m" "category" true [] [] PyNone
           snapshot_world); [now right | reflexivity].
Defined.
